(** * Goodreads read-date exporter: a shallow embedding of [parse_goodreads.py]

    The development follows the script top to bottom.  Library behaviour the
    script relies on (Python [str] methods, [int], [datetime.strptime] and
    [strftime], BeautifulSoup's tree search, the [csv] writer and reader,
    [requests]) is modelled in the modules [Py], [Bs4], [Strptime], [Csv]
    and [Net]; the functions of the script itself keep their names and sit
    at top level. *)

From Stdlib Require Import ZArith NArith Ascii String Lia.
From stdpp Require Import base option list gmap.

Set Default Proof Using "Type".

(** ** Python text *)

(** A Python [str] is a sequence of Unicode code points. *)
Abbreviation pystr := (list N).

(** An ASCII literal as a [pystr]. *)
Definition py (s : string) : pystr :=
  (λ a, N_of_ascii a) <$> list_ascii_of_string s.
Arguments py s%_string.

Module Py.
Local Open Scope N_scope.

(** [str.isspace] on one code point ([Py_UNICODE_ISSPACE]); the same set
    drives [str.strip], [str.split], [int] and the regex class [\s]. *)
Definition is_space (c : N) : bool :=
  ((9 <=? c) && (c <=? 13)) || ((28 <=? c) && (c <=? 32))
  || (c =? 133) || (c =? 160) || (c =? 5760)
  || ((8192 <=? c) && (c <=? 8202))
  || (c =? 8232) || (c =? 8233) || (c =? 8239) || (c =? 8287)
  || (c =? 12288).

Fixpoint lstrip (s : pystr) : pystr :=
  match s with
  | c :: s' => if is_space c then lstrip s' else s
  | [] => []
  end.

Definition rstrip (s : pystr) : pystr := reverse (lstrip (reverse s)).

(** [s.strip()] *)
Definition strip (s : pystr) : pystr := rstrip (lstrip s).

(** [s.split()]: the maximal runs of non-whitespace, in order.  [cur]
    holds the run being read, reversed. *)
Fixpoint split_from (cur : pystr) (s : pystr) : list pystr :=
  match s with
  | [] => match cur with [] => [] | _ => [reverse cur] end
  | c :: s' =>
      if is_space c
      then match cur with
           | [] => split_from [] s'
           | _ => reverse cur :: split_from [] s'
           end
      else split_from (c :: cur) s'
  end.

Definition split (s : pystr) : list pystr := split_from [] s.

(** First code points of the runs of ten consecutive decimal digits
    (general category Nd, Unicode 14.0 as shipped with CPython 3.11); a
    code point [c] in the run starting at [z] has the digit value
    [c - z]. *)
Definition decimal_zeros : list N :=
  [48; 1632; 1776; 1984; 2406; 2534; 2662; 2790; 2918; 3046; 3174; 3302;
   3430; 3558; 3664; 3792; 3872; 4160; 4240; 6112; 6160; 6470; 6608; 6784;
   6800; 6992; 7088; 7232; 7248; 42528; 43216; 43264; 43472; 43504; 43600;
   44016; 65296; 66720; 68912; 69734; 69872; 69942; 70096; 70384; 70736;
   70864; 71248; 71360; 71472; 71904; 72016; 72784; 73040; 73120; 92768;
   92864; 93008; 120782; 120792; 120802; 120812; 120822; 123200; 123632;
   125264; 130032].

(** [unicodedata.decimal]: the digit value of a decimal digit. *)
Definition decimal (c : N) : option N :=
  (λ z, c - z) <$> List.find (λ z, (z <=? c) && (c <? z + 10)) decimal_zeros.

Definition is_decimal (c : N) : bool :=
  match decimal c with Some _ => true | None => false end.

(** The value of a run of decimal digits, most significant first. *)
Fixpoint digits_value (acc : N) (ds : list N) : N :=
  match ds with
  | [] => acc
  | d :: ds' => digits_value (10 * acc + d) ds'
  end.

(** The body of an integer literal as [int] reads it: decimal digits,
    single underscores allowed between digits only.  [prev] tells what was
    read last: [None] nothing yet, [Some true] a digit, [Some false] an
    underscore.  Returns the digit values. *)
Fixpoint int_digits (prev : option bool) (s : pystr) : option (list N) :=
  match s with
  | [] => match prev with Some true => Some [] | _ => None end
  | c :: s' =>
      if c =? 95 (* _ *)
      then match prev with
           | Some true => int_digits (Some false) s'
           | _ => None
           end
      else match decimal c with
           | Some d => (d ::.) <$> int_digits (Some true) s'
           | None => None
           end
  end.

(** [sys.get_int_max_str_digits()], the default cap on the digit count of
    a decimal conversion. *)
Definition int_max_str_digits : N := 4300.

(** [int(s)] in base ten; [None] stands for [ValueError]. *)
Definition int (s : pystr) : option Z :=
  let s := strip s in
  let '(neg, body) :=
    match s with
    | c :: r => if c =? 45 (* - *) then (true, r)
                else if c =? 43 (* + *) then (false, r)
                else (false, s)
    | [] => (false, s)
    end in
  match int_digits None body with
  | Some ds =>
      if N.of_nat (length ds) <=? int_max_str_digits
      then let v := Z.of_N (digits_value 0 ds) in
           Some (if neg then - v else v)%Z
      else None
  | None => None
  end.

(** The decimal rendering of [n] on exactly [w] digits (the low [w]
    digits when [n] is wider), as ['%0wd'] for [n] that fits. *)
Fixpoint zero_pad (w : nat) (n : N) : pystr :=
  match w with
  | O => []
  | S w' => zero_pad w' (n / 10) ++ [48 + n mod 10]
  end.

End Py.

(** ** Exceptions *)

(** The exception classes that can arise in a run. *)
Inductive exn :=
  | AttributeError          (* attribute access on [None] *)
  | IndexError              (* list index out of range *)
  | KeyError                (* missing attribute of a tag *)
  | ValueError              (* [int], [strptime], [date] *)
  | HTTPError (status : N) (page : Z)
                          (* [raise_for_status]: carries the status and the
                             page of the URL, both part of its message *)
  | ConnectionError         (* [requests.exceptions.ConnectionError] *)
  | ReadTimeout             (* [requests.exceptions.Timeout] *)
  | CsvError                (* [csv.Error] *)
  | FileNotFoundError.

Inductive result (A : Type) :=
  | Ok (a : A)
  | Raise (e : exn).
Arguments Ok {A} a.
Arguments Raise {A} e.

Definition bind {A B} (m : result A) (f : A → result B) : result B :=
  match m with
  | Ok a => f a
  | Raise e => Raise e
  end.

Declare Scope result_scope.
Delimit Scope result_scope with result.
Notation "'let?' x := m 'in' k" := (bind m (λ x, k))
  (at level 10, x name, m at level 100, k at level 200) : result_scope.
Local Open Scope result_scope.

(** [int(s)] as an expression that may raise. *)
Definition to_int (s : pystr) : result Z :=
  match Py.int s with
  | Some z => Ok z
  | None => Raise ValueError
  end.

(** ** The parsed document *)

Module Bs4.
#[local] Set Warnings "-register-all".

(** A parsed page.  [class_] is the multi-valued [class] attribute of a
    tag, split at whitespace (empty when the attribute is missing);
    [attrs] holds the other attributes. *)
Inductive node :=
  | NavigableString (s : pystr)
  | Tag (name : pystr) (class_ : list pystr) (attrs : gmap pystr pystr)
    (contents : list node).

(** [tag.descendants]: everything below a tag, in document order. *)
Fixpoint descendants (n : node) : list node :=
  match n with
  | NavigableString _ => []
  | Tag _ _ _ cs =>
    (fix below (l : list node) : list node :=
       match l with
       | [] => []
       | c :: l' => c :: descendants c ++ below l'
       end) cs
  end.

(** [tag.text]: the strings below a tag, concatenated. *)
Fixpoint text (n : node) : pystr :=
  match n with
  | NavigableString s => s
  | Tag _ _ _ cs =>
    (fix below (l : list node) : pystr :=
       match l with
       | [] => []
       | c :: l' => text c ++ below l'
       end) cs
  end.

Definition has_name (name : pystr) (n : node) : bool :=
  match n with
  | Tag nm _ _ _ => bool_decide (nm = name)
  | NavigableString _ => false
  end.

(** [' '.join(l)] *)
Fixpoint join_space (l : list pystr) : pystr :=
  match l with
  | [] => []
  | [x] => x
  | x :: l' => x ++ 32%N :: join_space l'
  end.

(** The keyword [class_=c]: some class of the tag is [c], or the classes
    joined by single spaces read [c]. *)
Definition has_class (c : pystr) (n : node) : bool :=
  match n with
  | Tag _ cl _ _ =>
    existsb (λ x, bool_decide (x = c)) cl
    || bool_decide (join_space cl = c)
  | NavigableString _ => false
  end.

(** A keyword such as [id=v]: the attribute is present with that value. *)
Definition has_attr (k v : pystr) (n : node) : bool :=
  match n with
  | Tag _ _ a _ => bool_decide (a !! k = Some v)
  | NavigableString _ => false
  end.

(** [tag.find(...)]: the first descendant that passes, or [None]. *)
Definition find (p : node → bool) (n : node) : option node :=
  List.find p (descendants n).

(** [tag.find_all(...)] *)
Definition find_all (p : node → bool) (n : node) : list node :=
  List.filter p (descendants n).

(** [tag[key]] *)
Definition getitem (n : node) (key : pystr) : result pystr :=
  match n with
  | Tag _ _ a _ =>
    match a !! key with Some v => Ok v | None => Raise KeyError end
  | NavigableString _ => Raise KeyError
  end.

(** [x.find(...)] where [x] may be [None]: attribute access on [None]
    raises. *)
Definition find_in (p : node → bool) (x : option node)
  : result (option node) :=
  match x with
  | Some n => Ok (find p n)
  | None => Raise AttributeError
  end.

End Bs4.

(** ** [datetime.strptime] and [strftime] for the two formats of the script *)

Module Strptime.
Local Open Scope N_scope.

(** *** The backtracking matcher of [re]

    Only the constructs that the pattern of ["%b %d, %Y"] uses. *)

Inductive group := Gb | Gd | GY.

Global Instance group_eq_dec : EqDecision group.
Proof. solve_decision. Defined.

Inductive regex :=
  | Eps
  | Chr (p : N → bool)           (* one code point of a class *)
  | Seq (r1 r2 : regex)
  | Alt (r1 r2 : regex)          (* ordered choice *)
  | Plus (p : N → bool)          (* greedy [p+] *)
  | Group (g : group) (r : regex).

Definition captures := group → option pystr.

Definition no_captures : captures := λ _, None.

Definition capture (g : group) (v : pystr) (c : captures) : captures :=
  λ g', if decide (g' = g) then Some v else c g'.

(** [p+] at [s]: take as many code points as possible, giving one back
    at a time while the continuation fails.  [got] is what the loop has
    taken so far; the continuation receives the text matched and the
    text left. *)
Fixpoint plus {R} (p : N → bool) (got s : pystr)
    (k : pystr → pystr → option R) : option R :=
  match s with
  | x :: s' =>
      if p x
      then match plus p (got ++ [x]) s' k with
           | Some r => Some r
           | None => k (got ++ [x]) s'
           end
      else None
  | [] => None
  end.

(** The continuation [k] receives the text matched by [r], the text left
    and the groups captured. *)
Fixpoint rmatch {R} (r : regex) (s : pystr) (c : captures)
    (k : pystr → pystr → captures → option R) : option R :=
  match r with
  | Eps => k [] s c
  | Chr p =>
      match s with
      | x :: s' => if p x then k [x] s' c else None
      | [] => None
      end
  | Seq r1 r2 =>
      rmatch r1 s c (λ m1 s1 c1,
        rmatch r2 s1 c1 (λ m2 s2 c2, k (m1 ++ m2) s2 c2))
  | Alt r1 r2 =>
      match rmatch r1 s c k with
      | Some x => Some x
      | None => rmatch r2 s c k
      end
  | Plus p => plus p [] s (λ m s', k m s' c)
  | Group g r1 => rmatch r1 s c (λ m s' c', k m s' (capture g m c'))
  end.

(** [pattern.match(s)]: the first match at the start of [s], with what is
    left of [s] after it. *)
Definition re_match (r : regex) (s : pystr) : option (captures * pystr) :=
  rmatch r s no_captures (λ _ s' c, Some (c, s')).

(** *** The pattern of ["%b %d, %Y"] *)

(** A lower-case ASCII letter of the pattern under [re.IGNORECASE]: the
    letter, its capital, and for [s] also U+017F (long s). *)
Definition letter (l : N) : N → bool :=
  λ x, (x =? l) || (x =? l - 32) || ((l =? 115) && (x =? 383)).

Definition one (a : N) : N → bool := λ x, x =? a.

Definition range (a b : N) : N → bool := λ x, (a <=? x) && (x <=? b).

Fixpoint word (w : pystr) : regex :=
  match w with
  | [] => Eps
  | [l] => Chr (letter l)
  | l :: w' => Seq (Chr (letter l)) (word w')
  end.

Fixpoint alternatives (l : list regex) : regex :=
  match l with
  | [] => Eps
  | [r] => r
  | r :: l' => Alt r (alternatives l')
  end.

(** [LocaleTime().a_month] in the C locale ([calendar.month_abbr],
    lower-cased); index 0 is the empty string. *)
Definition a_month : list pystr :=
  [py ""; py "jan"; py "feb"; py "mar"; py "apr"; py "may"; py "jun";
   py "jul"; py "aug"; py "sep"; py "oct"; py "nov"; py "dec"].

(** [(?P<b>jan|feb|...|dec)] *)
Definition re_b : regex := Group Gb (alternatives (word <$> tail a_month)).

(** [(?P<d>3[0-1]|[1-2]\d|0[1-9]|[1-9]| [1-9])] *)
Definition re_d : regex :=
  Group Gd (alternatives
      [ Seq (Chr (one 51)) (Chr (range 48 49));
        Seq (Chr (range 49 50)) (Chr Py.is_decimal);
        Seq (Chr (one 48)) (Chr (range 49 57));
        Chr (range 49 57);
        Seq (Chr (one 32)) (Chr (range 49 57)) ]).

(** [(?P<Y>\d\d\d\d)] *)
Definition re_Y : regex :=
  Group GY (Seq (Chr Py.is_decimal) (Seq (Chr Py.is_decimal)
     (Seq (Chr Py.is_decimal) (Chr Py.is_decimal)))).

(** [TimeRE.pattern("%b %d, %Y")]: each blank of the format becomes
    [\s+]. *)
Definition format_regex : regex :=
  Seq re_b (Seq (Plus Py.is_space) (Seq re_d (Seq (Chr (one 44))
      (Seq (Plus Py.is_space) re_Y)))).

(** *** Dates *)

Record date := Date { year : Z; month : Z; day : Z }.

Definition is_leap (y : Z) : bool :=
  ((y mod 4 =? 0) && (negb (y mod 100 =? 0) || (y mod 400 =? 0)))%Z.

Definition days_in_month (y m : Z) : Z :=
  (if m =? 2 then (if is_leap y then 29 else 28)
   else if (m =? 4) || (m =? 6) || (m =? 9) || (m =? 11) then 30
   else 31)%Z.

(** [datetime.date(y, m, d)]: [ValueError] outside the calendar. *)
Definition make_date (y m d : Z) : result date :=
  if ((1 <=? y) && (y <=? 9999) && (1 <=? m) && (m <=? 12)
      && (1 <=? d) && (d <=? days_in_month y m))%Z
  then Ok (Date y m d)
  else Raise ValueError.

(** [s.lower()] on the code points a month name can match: capitals go to
    small letters, nothing else moves. *)
Definition lower (s : pystr) : pystr :=
  (λ x, if (65 <=? x) && (x <=? 90) then x + 32 else x) <$> s.

(** [l.index(x)] *)
Fixpoint index (x : pystr) (l : list pystr) : result Z :=
  match l with
  | [] => Raise ValueError
  | y :: l' =>
      if decide (y = x) then Ok 0%Z
      else let? i := index x l' in Ok (i + 1)%Z
  end.

(** [datetime.strptime(s, "%b %d, %Y")] *)
Definition strptime (s : pystr) : result date :=
  match re_match format_regex s with
  | None => Raise ValueError         (* does not match format *)
  | Some (found, rest) =>
      match rest with
      | _ :: _ => Raise ValueError   (* unconverted data remains *)
      | [] =>
          let? y := to_int (default [] (found GY)) in
          let? m := index (lower (default [] (found Gb))) a_month in
          let? d := to_int (default [] (found Gd)) in
          make_date y m d
      end
  end.

(** The year of a date as [%Y] renders it.  CPython hands [%Y] to the
    [strftime] of the C library, and glibc prints the year as a plain
    decimal number, without padding: 999 is rendered on three digits.  The
    years of a [date] run from 1 to 9999. *)
Definition year_text (y : N) : pystr :=
  if (y <? 10)%N then Py.zero_pad 1 y
  else if (y <? 100)%N then Py.zero_pad 2 y
  else if (y <? 1000)%N then Py.zero_pad 3 y
  else Py.zero_pad 4 y.

(** [d.strftime("%Y-%m-%d")] *)
Definition strftime (d : date) : pystr :=
  year_text (Z.to_N (year d)) ++ py "-"
  ++ Py.zero_pad 2 (Z.to_N (month d)) ++ py "-"
  ++ Py.zero_pad 2 (Z.to_N (day d)).

End Strptime.

(** ** The script *)

(** [get_text_or_default(element)] with the default [""]. *)
Definition get_text_or_default (element : option Bs4.node) : pystr :=
  match element with
  | Some e => Py.strip (Bs4.text e)
  | None => py ""
  end.

(** [convert_date(date_str)]: only [ValueError] is handled. *)
Definition convert_date (date_str : pystr) : result pystr :=
  match Strptime.strptime date_str with
  | Ok d => Ok (Strptime.strftime d)
  | Raise ValueError => Ok date_str
  | Raise e => Raise e
  end.

(** The cell of a column: [row.find("td", class_=c)]. *)
Definition td (c : string) (n : Bs4.node) : bool :=
  Bs4.has_name (py "td") n && Bs4.has_class (py c) n.

Definition span (c : string) (n : Bs4.node) : bool :=
  Bs4.has_name (py "span") n && Bs4.has_class (py c) n.

Definition tooltip (n : Bs4.node) : bool :=
  Bs4.has_name (py "div") n && Bs4.has_class (py "js-tooltipTrigger") n.

(** [l[0]] *)
Definition first (l : list pystr) : result pystr :=
  match l with
  | x :: _ => Ok x
  | [] => Raise IndexError
  end.

(** [process_review_row(row)]: the statements in source order, so that the
    first failing one decides the exception. *)
Definition process_review_row (row : Bs4.node) : result (gmap pystr pystr) :=
  let? a := Bs4.find_in (Bs4.has_name (py "a"))
              (Bs4.find (td "field title") row) in
  let book_title := get_text_or_default a in
  let? s1 := Bs4.find_in (span "date_started_value")
               (Bs4.find (td "field date_started") row) in
  let date_started := get_text_or_default s1 in
  let? s2 := Bs4.find_in (span "date_read_value")
               (Bs4.find (td "field date_read") row) in
  let date_read := get_text_or_default s2 in
  let? goodreads_id :=
    match Bs4.find tooltip row with
    | Some _ =>
        match Bs4.find tooltip row with
        | Some d => Bs4.getitem d (py "data-resource-id")
        | None => Raise AttributeError
        end
    | None => Ok (py "")
    end in
  let? date_started := convert_date date_started in
  let? date_read := convert_date date_read in
  let? a' := Bs4.find_in (Bs4.has_name (py "a"))
               (Bs4.find (td "field author") row) in
  let author := get_text_or_default a' in
  let avg_rating := get_text_or_default (Bs4.find (td "field avg_rating") row) in
  let? nobr := Bs4.find_in (Bs4.has_name (py "nobr"))
                 (Bs4.find (td "field num_pages") row) in
  let? num_pages :=
    match nobr with
    | Some _ =>
        let? nobr' := Bs4.find_in (Bs4.has_name (py "nobr"))
                        (Bs4.find (td "field num_pages") row) in
        first (Py.split (get_text_or_default nobr'))
    | None => Ok (py "")
    end in
  Ok (<[py "Number of Pages" := num_pages]>
      (<[py "Average Rating" := avg_rating]>
       (<[py "Author" := author]>
        (<[py "Date Read" := date_read]>
         (<[py "Date Started" := date_started]>
          (<[py "Book Title" := book_title]>
           (<[py "Goodreads ID" := goodreads_id]> ∅))))))).

(** ** The [csv] module, dialect of the script

    Delimiter tab, the double quote as quote character, doubled inside a
    quoted field, minimal quoting, line terminator CR LF, not strict, and
    the reader's default cap on the size of a field. *)

Module Csv.
Local Open Scope N_scope.

Definition TAB : N := 9.
Definition LF : N := 10.
Definition CR : N := 13.
Definition QUOTE : N := 34.

(** *** Writer *)

(** A code point that forces quotes around its field: the delimiter, the
    quote character, or a code point of the line terminator. *)
Definition special (c : N) : bool :=
  (c =? TAB) || (c =? QUOTE) || (c =? CR) || (c =? LF).

Fixpoint escape (f : pystr) : pystr :=
  match f with
  | [] => []
  | c :: f' => if c =? QUOTE then QUOTE :: QUOTE :: escape f'
       else c :: escape f'
  end.

Definition write_field (f : pystr) : pystr :=
  if existsb special f then QUOTE :: escape f ++ [QUOTE] else f.

Fixpoint join (l : list pystr) : pystr :=
  match l with
  | [] => []
  | [x] => x
  | x :: l' => x ++ TAB :: join l'
  end.

(** [writer.writerow(row)]: the text appended to the file.  A record made
    of one empty field is written as a pair of quotes. *)
Definition writerow (row : list pystr) : pystr :=
  match row with
  | [[]] => [QUOTE; QUOTE; CR; LF]
  | _ => join (write_field <$> row) ++ [CR; LF]
  end.

(** [DictWriter._dict_to_list]: [extrasaction] is ["raise"], [restval] the
    empty string. *)
Definition dict_to_list (fieldnames : list pystr) (rowdict : gmap pystr pystr)
  : result (list pystr) :=
  if decide (dom rowdict ⊆ list_to_set fieldnames)
  then Ok ((λ key, default [] (rowdict !! key)) <$> fieldnames)
  else Raise ValueError.

(** *** Reading a text file

    Opened with the default [newline=None]: CR LF and lone CR both read
    as LF.  [cr] tells that the code point before was a CR. *)
Fixpoint universal_newlines (cr : bool) (t : pystr) : pystr :=
  match t with
  | [] => []
  | c :: t' =>
      if c =? CR then LF :: universal_newlines true t'
      else if (c =? LF) && cr then universal_newlines false t'
      else c :: universal_newlines false t'
  end.

(** *** Reader *)

Inductive mode :=
  | START_RECORD | START_FIELD | IN_FIELD | IN_QUOTED_FIELD
  | QUOTE_IN_QUOTED_FIELD | EAT_CRNL.

Global Instance mode_eq_dec : EqDecision mode.
Proof. solve_decision. Defined.

Record reader := Reader {
  state : mode;
  field : pystr;              (* the field being read *)
  fields : list pystr         (* the fields of the record so far *)
}.

Definition parse_reset : reader := Reader START_RECORD [] [].

Definition parse_save_field (r : reader) (st : mode) : reader :=
  Reader st [] (fields r ++ [field r]).

(** [csv.field_size_limit()], which the script leaves at its default. *)
Definition field_limit : N := 131072.

(** [parse_add_char], followed by the change of state that comes after it
    at each of its calls: a field that already holds [field_limit] code
    points takes no more. *)
Definition parse_add_char (r : reader) (c : N) (st : mode) : result reader :=
  if field_limit <=? N.of_nat (length (field r))
  then Raise CsvError
  else Ok (Reader st (field r ++ [c]) (fields r)).

Definition set_state (r : reader) (st : mode) : reader :=
  Reader st (field r) (fields r).

Definition is_newline (c : N) : bool := (c =? LF) || (c =? CR).

Definition start_field (r : reader) (c : option N) : result reader :=
  match c with
  | None => Ok (parse_save_field r START_RECORD)
  | Some c =>
      if is_newline c then Ok (parse_save_field r EAT_CRNL)
      else if c =? QUOTE then Ok (set_state r IN_QUOTED_FIELD)
      else if c =? TAB then Ok (parse_save_field r START_FIELD)
      else parse_add_char r c IN_FIELD
  end.

(** [parse_process_char]; [None] is the end-of-line mark fed after each
    line. *)
Definition parse_process_char (r : reader) (c : option N) : result reader :=
  match state r with
  | START_RECORD =>
      match c with
      | None => Ok r
      | Some x => if is_newline x then Ok (set_state r EAT_CRNL)
                  else start_field r c
      end
  | START_FIELD => start_field r c
  | IN_FIELD =>
      match c with
      | None => Ok (parse_save_field r START_RECORD)
      | Some x =>
          if is_newline x then Ok (parse_save_field r EAT_CRNL)
          else if x =? TAB then Ok (parse_save_field r START_FIELD)
          else parse_add_char r x IN_FIELD
      end
  | IN_QUOTED_FIELD =>
      match c with
      | None => Ok r
      | Some x =>
          if x =? QUOTE then Ok (set_state r QUOTE_IN_QUOTED_FIELD)
          else parse_add_char r x IN_QUOTED_FIELD
      end
  | QUOTE_IN_QUOTED_FIELD =>
      match c with
      | None => Ok (parse_save_field r START_RECORD)
      | Some x =>
          if x =? QUOTE then parse_add_char r x IN_QUOTED_FIELD
          else if x =? TAB then Ok (parse_save_field r START_FIELD)
          else if is_newline x then Ok (parse_save_field r EAT_CRNL)
          else parse_add_char r x IN_FIELD
      end
  | EAT_CRNL =>
      match c with
      | None => Ok (set_state r START_RECORD)
      | Some x => if is_newline x then Ok r else Raise CsvError
      end
  end.

(** What the consumer of the rows answers: go on with a new state, or
    stop with a value (the rest of the file is then never read). *)
Inductive step (S B : Type) :=
  | Continue (s : S)
  | Stop (b : B).
Arguments Continue {S B} s.
Arguments Stop {S B} b.

Section Rows.
Context {S B : Type} (f : S → list pystr → result (step S B)).

(** [for row in csv.reader(file)], driven by the consumer [f].  The
    file yields its lines, each ending with LF but possibly the last;
    the reader feeds the code points of a line and then the end-of-line
    mark, and hands out a record whenever a line leaves it at
    [START_RECORD].  [mid] tells that the current line has begun. *)
Fixpoint rows (s : S) (r : reader) (mid : bool) (t : pystr)
  : result (step S B) :=
  match t with
  | c :: t' =>
      let? r := parse_process_char r (Some c) in
      if c =? LF then
        let? r := parse_process_char r None in
        match state r with
        | START_RECORD =>
            let? x := f s (fields r) in
            match x with
            | Continue s' => rows s' parse_reset false t'
            | Stop b => Ok (Stop b)
            end
        | _ => rows s r false t'
        end
      else rows s r true t'
  | [] =>
      let? r := if mid then parse_process_char r None else Ok r in
      if mid && bool_decide (state r = START_RECORD)
      then f s (fields r)
      else
        match field r, state r with
        | _ :: _, _ | _, IN_QUOTED_FIELD =>
            f s (fields (parse_save_field r START_RECORD))
        | _, _ => Ok (Continue s)
        end
  end.

End Rows.

(** The state of a [DictReader]: the field names, once the first row is
    read. *)
Definition dict_reader := option (list pystr).

(** [dict(zip(fieldnames, row))] with [restval=None] for the field names
    a short row leaves out; [None] as a value is that [restval]. *)
Fixpoint row_dict (fieldnames row : list pystr)
  : gmap pystr (option pystr) :=
  match fieldnames, row with
  | [], _ => ∅
  | k :: ks, [] => <[k := None]> (row_dict ks [])
  | k :: ks, v :: vs =>
      match row_dict ks vs !! k with
      | Some x => row_dict ks vs     (* a later column of that name wins *)
      | None => <[k := Some v]> (row_dict ks vs)
      end
  end.

End Csv.

(** ** The network *)

Module Net.

(** An entry of [cookies.json]; [domain] and [hostOnly] are read with
    [.get] and may be missing. *)
Record cookie := Cookie {
  name : pystr;
  value : pystr;
  domain : option pystr;
  hostOnly : option bool
}.

(** What [session.get] comes back with: a response, with its status and
    its body as [html.parser] reads it, or a transport failure. *)
Inductive response :=
  | Response (status_code : N) (soup : Bs4.node)
  | Unreachable
  | TimedOut.

(** A request as sent: the page asked for and the cookies of the
    session. *)
Record request := Request {
  user : pystr;
  page : Z;
  jar : gmap pystr pystr
}.

End Net.

(** [s.startswith(p)] *)
Fixpoint startswith (p s : pystr) : bool :=
  match p, s with
  | [], _ => true
  | a :: p', b :: s' => bool_decide (a = b) && startswith p' s'
  | _ :: _, [] => false
  end.

(** The test of [fetch_html] on one cookie. *)
Definition cookie_passes (cookie : Net.cookie) : bool :=
  negb (default false (Net.hostOnly cookie))
  || (startswith (py ".goodreads.com") (default [] (Net.domain cookie))
      || bool_decide (default [] (Net.domain cookie) = py "www.goodreads.com")).

(** The loop of [fetch_html] that fills [cookie_dict]. *)
Fixpoint fill_cookie_dict (cookie_dict : gmap pystr pystr)
    (cookies : list Net.cookie) : gmap pystr pystr :=
  match cookies with
  | [] => cookie_dict
  | cookie :: rest =>
      fill_cookie_dict
        (if cookie_passes cookie
         then <[Net.name cookie := Net.value cookie]> cookie_dict
         else cookie_dict)
        rest
  end.

(** The cookies of the session of one call of [fetch_html]. *)
Definition session_cookies (cookies : option (list Net.cookie))
  : gmap pystr pystr :=
  match cookies with
  | Some (c :: l) => fill_cookie_dict ∅ (c :: l)
  | _ => ∅
  end.

(** ** The run: what it sees and what it leaves behind *)

(** The state of [cookies.json] when the run starts. *)
Inductive cookie_file :=
  | NoFile                               (* [os.path.exists] is false *)
  | NotJson                              (* [json.load] raises [JSONDecodeError] *)
  | Json (cookies : list Net.cookie).    (* [json.load] returns the entries *)

(** The surroundings of a run: the cookie file, and the outcome of each
    call of [session.get], numbered from 0 in the order of the calls. *)
Record world := World {
  cookies_json : cookie_file;
  server : nat → Net.response
}.

(** The lines printed by the script. *)
Inductive message :=
  | CookiesNotJson            (* Warning: cookies.json exists but is not valid JSON ... *)
  | FirstPageOnly             (* Could not determine total pages. Processing first page only. *)
  | ProcessingPage (page total_pages : Z)
  | SuccessfullyProcessed (total_pages : Z)
  | ErrorDownloading (e : exn)(* Error downloading data: ..., naming the URL *)
  | LikelyCauses              (* This might be due to: 1. Invalid user ID
                       2. Profile is private 3. Missing or invalid cookies *)
  | DataWritten (output : pystr)
  | DateReadAdvisory          (* WARNING: The 'Date Read' column appears to be
                       empty for all books. ... (seven lines) *)
  | CouldNotVerify (e : exn)  (* Warning: Could not verify Date Read column: ... *)
  | FailedToProcess.          (* Failed to process Goodreads data. *)

Inductive open_mode := ForWriting | ForReading.

Record state := State {
  stdout : list message;               (* printed so far *)
  sent : list Net.request;             (* requests sent so far *)
  files : gmap pystr pystr;            (* the files written, by name *)
  opened : list (pystr * open_mode);   (* calls of [open] on them *)
  slept : nat                          (* seconds spent in [time.sleep] *)
}.

(** A computation that changes the state and returns or raises. *)
Definition M (A : Type) : Type := state → result A * state.

Definition ret {A} (a : A) : M A := λ st, (Ok a, st).

Definition lift {A} (r : result A) : M A := λ st, (r, st).

Definition and_then {A B} (m : M A) (k : A → M B) : M B :=
  λ st, match m st with
        | (Ok a, st') => k a st'
        | (Raise e, st') => (Raise e, st')
        end.

Notation "'let!' x := m 'in' k" := (and_then m (λ x, k))
  (at level 10, x name, m at level 100, k at level 200) : result_scope.
Notation "m ';;;' k" := (and_then m (λ _, k))
  (at level 100, k at level 200, right associativity) : result_scope.

(** [try: body except <caught>: handler] *)
Definition try_except {A} (body : M A) (caught : exn → bool)
    (handler : exn → M A) : M A :=
  λ st, match body st with
        | (Raise e, st') => if caught e then handler e st' else (Raise e, st')
        | done => done
        end.

Definition print (m : message) : M unit :=
  λ st, (Ok tt, State (stdout st ++ [m]) (sent st) (files st) (opened st) (slept st)).

Definition sleep (n : nat) : M unit :=
  λ st, (Ok tt, State (stdout st) (sent st) (files st) (opened st) (slept st + n)).

(** [open(path, "w")]: the file is created or emptied. *)
Definition open_w (path : pystr) : M unit :=
  λ st, (Ok tt, State (stdout st) (sent st) (<[path := []]> (files st))
        (opened st ++ [(path, ForWriting)]) (slept st)).

(** Writing to a file open for writing; the text is in the file when the
    [with] block is left, whichever way. *)
Definition write (path : pystr) (text : pystr) : M unit :=
  λ st, (Ok tt, State (stdout st) (sent st)
        (<[path := default [] (files st !! path) ++ text]> (files st))
        (opened st) (slept st)).

(** [open(path, "r")] and reading the whole file as text. *)
Definition read (path : pystr) : M pystr :=
  λ st, let st' := State (stdout st) (sent st) (files st)
           (opened st ++ [(path, ForReading)]) (slept st) in
        match files st !! path with
        | Some text => (Ok (Csv.universal_newlines false text), st')
        | None => (Raise FileNotFoundError, st)
        end.

(** [fetch_html(url, cookies)], where [url] is the base URL of the user
    formatted with [page]: the request is recorded by the user id and the
    page, which give the URL when the user id holds no brace (on an id
    with a brace [base_url.format] raises, or sends another id).  The text
    returned stands here as the tree that
    [BeautifulSoup(text, "html.parser")] builds from it. *)
Definition fetch_html (w : world) (user_id : pystr) (page : Z)
    (cookies : option (list Net.cookie)) : M Bs4.node :=
  λ st,
    let st' := State (stdout st)
       (sent st ++ [Net.Request user_id page (session_cookies cookies)])
       (files st) (opened st) (slept st) in
    match server w (length (sent st)) with
    | Net.Response status_code soup =>
        (* raise_for_status *)
        if ((400 <=? status_code) && (status_code <? 600))%N
        then (Raise (HTTPError status_code page), st')
        else (Ok soup, st')
    | Net.Unreachable => (Raise ConnectionError, st')
    | Net.TimedOut => (Raise ReadTimeout, st')
    end.

Definition fieldnames : list pystr :=
  [py "Goodreads ID"; py "Book Title"; py "Date Started"; py "Date Read";
   py "Author"; py "Average Rating"; py "Number of Pages"].

(** [l[-2]] *)
Definition second_to_last {A} (l : list A) : result A :=
  match reverse l with
  | _ :: x :: _ => Ok x
  | _ => Raise IndexError
  end.

(** The count of pages read off the first page (lines 152 to 158). *)
Definition total_pages_of (soup : Bs4.node) : M Z :=
  match Bs4.find (λ n, Bs4.has_name (py "div") n
             && Bs4.has_attr (py "id") (py "reviewPagination") n) soup with
  | Some pagination =>
      lift (let? a := second_to_last (Bs4.find_all (Bs4.has_name (py "a")) pagination) in
            to_int (Py.strip (Bs4.text a)))
  | None =>
      print FirstPageOnly ;;;
      ret 1%Z
  end.

(** [range(1, n + 1)] *)
Definition range1 (n : Z) : list Z := Z.of_nat <$> seq 1 (Z.to_nat n).

(** The loop over the rows of a page (lines 170 to 172). *)
Fixpoint process_rows (output_file : pystr) (review_rows : list Bs4.node)
  : M unit :=
  match review_rows with
  | [] => ret tt
  | row :: rest =>
      let! book_data := lift (process_review_row row) in
      let! fields := lift (Csv.dict_to_list fieldnames book_data) in
      write output_file (Csv.writerow fields) ;;;
      process_rows output_file rest
  end.

Definition review_row (n : Bs4.node) : bool :=
  Bs4.has_name (py "tr") n && Bs4.has_class (py "bookalike review") n.

(** The loop over the pages (lines 161 to 175). *)
Fixpoint process_pages (w : world) (user_id output_file : pystr)
    (cookies : option (list Net.cookie)) (total_pages : Z) (pages : list Z)
  : M unit :=
  match pages with
  | [] => ret tt
  | page :: rest =>
      print (ProcessingPage page total_pages) ;;;
      let! soup := fetch_html w user_id page cookies in
      process_rows output_file (Bs4.find_all review_row soup) ;;;
      sleep 1 ;;;
      process_pages w user_id output_file cookies total_pages rest
  end.

Definition is_HTTPError (e : exn) : bool :=
  match e with HTTPError _ _ => true | _ => false end.

(** [download_and_process_goodreads_data(user_id, output_file)] *)
Definition download_and_process_goodreads_data (w : world)
    (user_id output_file : pystr) : M bool :=
  let! cookies :=
    match cookies_json w with
    | NoFile => ret None
    | Json cookies => ret (Some cookies)
    | NotJson => print CookiesNotJson ;;; ret None
    end in
  open_w output_file ;;;
  write output_file (Csv.writerow fieldnames) ;;;       (* writeheader *)
  try_except
    (let! soup := fetch_html w user_id 1 cookies in
     let! total_pages := total_pages_of soup in
     process_pages w user_id output_file cookies total_pages (range1 total_pages) ;;;
     print (SuccessfullyProcessed total_pages) ;;;
     ret true)
    is_HTTPError
    (λ e, print (ErrorDownloading e) ;;;
          print LikelyCauses ;;;
          ret false).

(** One step of [any(row.get("Date Read", "").strip() for row in reader)]
    over a [DictReader]: the first row gives the field names, blank rows
    are skipped, and the first row with a non-blank cell ends the scan. *)
Definition date_read_step (fieldnames : Csv.dict_reader) (row : list pystr)
  : result (Csv.step Csv.dict_reader unit) :=
  match fieldnames with
  | None => Ok (Csv.Continue (Some row))
  | Some names =>
      match row with
      | [] => Ok (Csv.Continue fieldnames)
      | _ =>
          let? cell :=
            match Csv.row_dict names row !! py "Date Read" with
            | None => Ok (py "")
            | Some (Some v) => Ok v
            | Some None => Raise AttributeError
            end in
          match Py.strip cell with
          | [] => Ok (Csv.Continue fieldnames)
          | _ => Ok (Csv.Stop tt)
          end
      end
  end.

Definition has_any_date_read (text : pystr) : result bool :=
  let? x := Csv.rows date_read_step None Csv.parse_reset false text in
  match x with
  | Csv.Stop _ => Ok true
  | Csv.Continue _ => Ok false
  end.

(** [main()], with the two arguments that [docopt] reads off the command
    line. *)
Definition main (w : world) (user_id output : pystr) : M unit :=
  let! ok := download_and_process_goodreads_data w user_id output in
  if ok : bool then
    print (DataWritten output) ;;;
    try_except
      (let! text := read output in
       let! has_any := lift (has_any_date_read text) in
       if has_any : bool then ret tt else print DateReadAdvisory)
      (λ _, true)
      (λ e, print (CouldNotVerify e))
  else print FailedToProcess.

(** A run starts with nothing printed and nothing sent; [files] holds what
    is on disk. *)
Definition initial (files : gmap pystr pystr) : state :=
  State [] [] files [] 0.

(** ** Notions of the specification *)

(** A date inside the calendar of [datetime]. *)
Definition in_calendar (d : Strptime.date) : Prop :=
  (1 ≤ Strptime.year d ≤ 9999 ∧ 1 ≤ Strptime.month d ≤ 12
   ∧ 1 ≤ Strptime.day d
       ≤ Strptime.days_in_month (Strptime.year d) (Strptime.month d))%Z.

(** The decimal digit of the units of [n]. *)
Definition digit (n : N) : N := (48 + n mod 10)%N.

(** [calendar.month_abbr] *)
Definition month_abbr : list pystr :=
  [py ""; py "Jan"; py "Feb"; py "Mar"; py "Apr"; py "May"; py "Jun";
   py "Jul"; py "Aug"; py "Sep"; py "Oct"; py "Nov"; py "Dec"].

(** A day of the month in decimal, without padding. *)
Definition day_text (d : Z) : pystr :=
  let n := Z.to_N d in
  if (n <? 10)%N then [digit n] else [digit (n / 10); digit n].

(** The form "MMM D, YYYY" of a date, as in "Jan 5, 2023". *)
Definition english_date (y m d : Z) : pystr :=
  nth (Z.to_nat m) month_abbr [] ++ py " " ++ day_text d ++ py ", "
  ++ Py.zero_pad 4 (Z.to_N y).

(** The form "YYYY-MM-DD" of a date. *)
Definition iso_date (y m d : Z) : pystr :=
  Py.zero_pad 4 (Z.to_N y) ++ py "-" ++ Py.zero_pad 2 (Z.to_N m) ++ py "-"
  ++ Py.zero_pad 2 (Z.to_N d).

(** A text of ten code points that reads as year, hyphen, month, hyphen,
    day. *)
Definition reads_as_iso (s : pystr) (y m d : Z) : Prop :=
  length s = 10 ∧ to_int (take 4 s) = Ok y ∧ s !! 4 = Some 45%N
  ∧ to_int (take 2 (drop 5 s)) = Ok m ∧ s !! 7 = Some 45%N
  ∧ to_int (drop 8 s) = Ok d.

(** *** Rows and records *)

(** The record that [process_review_row] returns, by its seven values. *)
Definition book_data (goodreads_id book_title date_started date_read author
    avg_rating num_pages : pystr) : gmap pystr pystr :=
  <[py "Number of Pages" := num_pages]>
  (<[py "Average Rating" := avg_rating]>
   (<[py "Author" := author]>
    (<[py "Date Read" := date_read]>
     (<[py "Date Started" := date_started]>
      (<[py "Book Title" := book_title]>
       (<[py "Goodreads ID" := goodreads_id]> ∅)))))).

(** The element [p] inside the cell [c] of a row, when both are there. *)
Definition nested (c : string) (p : Bs4.node → bool) (row : Bs4.node)
  : option Bs4.node :=
  Bs4.find (td c) row ≫= Bs4.find p.

(** The five cells that [process_review_row] searches inside. *)
Definition has_cells (row : Bs4.node) : Prop :=
  is_Some (Bs4.find (td "field title") row)
  ∧ is_Some (Bs4.find (td "field date_started") row)
  ∧ is_Some (Bs4.find (td "field date_read") row)
  ∧ is_Some (Bs4.find (td "field author") row)
  ∧ is_Some (Bs4.find (td "field num_pages") row).

(** The tooltip trigger of the row, if any, carries the identifier. *)
Definition tooltip_has_id (row : Bs4.node) : Prop :=
  ∀ d, Bs4.find tooltip row = Some d →
       ∃ v, Bs4.getitem d (py "data-resource-id") = Ok v.

(** The [nobr] of the page count, if any, has text that is not blank. *)
Definition nobr_has_text (row : Bs4.node) : Prop :=
  ∀ n, nested "field num_pages" (Bs4.has_name (py "nobr")) row = Some n →
       forallb Py.is_space (Bs4.text n) = false.

(** The [nobr] of the page count is there and its text is empty or
    blank. *)
Definition nobr_blank (row : Bs4.node) : Prop :=
  ∃ n, nested "field num_pages" (Bs4.has_name (py "nobr")) row = Some n
       ∧ forallb Py.is_space (Bs4.text n) = true.

Definition complete_row (row : Bs4.node) : Prop :=
  has_cells row ∧ tooltip_has_id row ∧ nobr_has_text row.

(** Each value of the record is empty when its element is missing. *)
Definition degrades (row : Bs4.node) (d : gmap pystr pystr) : Prop :=
  dom d = list_to_set fieldnames
  ∧ (Bs4.find tooltip row = None → d !! py "Goodreads ID" = Some [])
  ∧ (nested "field title" (Bs4.has_name (py "a")) row = None →
     d !! py "Book Title" = Some [])
  ∧ (nested "field date_started" (span "date_started_value") row = None →
     d !! py "Date Started" = Some [])
  ∧ (nested "field date_read" (span "date_read_value") row = None →
     d !! py "Date Read" = Some [])
  ∧ (nested "field author" (Bs4.has_name (py "a")) row = None →
     d !! py "Author" = Some [])
  ∧ (Bs4.find (td "field avg_rating") row = None →
     d !! py "Average Rating" = Some [])
  ∧ (nested "field num_pages" (Bs4.has_name (py "nobr")) row = None →
     d !! py "Number of Pages" = Some []).

(** The values of a record in the order of the columns. *)
Definition values_of (d : gmap pystr pystr) : list pystr :=
  (λ key, default [] (d !! key)) <$> fieldnames.

(** The text that the records of a page add to the file. *)
Definition lines_of (records : list (gmap pystr pystr)) : pystr :=
  concat (Csv.writerow ∘ values_of <$> records).

(** A text that the [csv] reader takes as one field: no longer than its
    limit. *)
Definition fits (g : pystr) : Prop :=
  (N.of_nat (length g) ≤ Csv.field_limit)%N.

(** A record all of whose values the reader takes. *)
Definition readable (d : gmap pystr pystr) : Prop :=
  Forall fits (values_of d).

(** A user id that [base_url.format(page)] leaves as it is: one without
    a brace.  The URL of a page is then the base URL with the id and the
    number of the page, which is how the requests of [fetch_html] are
    recorded. *)
Definition brace_free (user_id : pystr) : Prop :=
  forallb (λ c, negb ((c =? 123) || (c =? 125))%N) user_id = true.

(** The state after [text] is appended to the file [path]. *)
Definition appended (path text : pystr) (st : state) : state :=
  State (stdout st) (sent st)
    (<[path := default [] (files st !! path) ++ text]> (files st))
    (opened st) (slept st).

(** The text of the element [p] inside the cell [c], or the empty string. *)
Definition text_in (c : string) (p : Bs4.node → bool) (row : Bs4.node) : pystr :=
  get_text_or_default (nested c p row).

(** The state with [text] as the content of the file [path]. *)
Definition with_file (path text : pystr) (st : state) : state :=
  State (stdout st) (sent st) (<[path := text]> (files st))
    (opened st) (slept st).

(** A tag without attributes, and a string. *)
Definition element (name : string) (classes : list string)
    (contents : list Bs4.node) : Bs4.node :=
  Bs4.Tag (py name) (py <$> classes) ∅ contents.

Definition cell (c : string) (contents : list Bs4.node) : Bs4.node :=
  element "td" ["field"; c]%string contents.

Definition str (s : string) : Bs4.node := Bs4.NavigableString (py s).

(** A review row without any cell. *)
Definition bare_row : Bs4.node := element "tr" ["bookalike"; "review"]%string [].

(** A review row as the site renders it. *)
Definition dune_row : Bs4.node :=
  element "tr" ["bookalike"; "review"]%string
    [ cell "title" [element "a" [] [str "  Dune "]];
      cell "author" [element "a" [] [str "Herbert, Frank"]];
      cell "num_pages"
        [element "nobr" [] [str " 612 "; element "span" ["greyText"]%string [str "pp"]]];
      cell "avg_rating" [str " 4.27 "];
      cell "date_started"
        [Bs4.Tag (py "div") [py "js-tooltipTrigger"]
           {[ py "data-resource-id" := py "234225" ]}
           [element "span" ["date_started_value"]%string [str "Jan 5, 2023"]]];
      cell "date_read" [] ].

(** A row with every cell, whose page count is a blank [nobr]. *)
Definition blank_pages_row : Bs4.node :=
  element "tr" ["bookalike"; "review"]%string
    [ cell "title" [element "a" [] [str "Dune"]];
      cell "author" []; cell "num_pages" [element "nobr" [] [str "  "]];
      cell "avg_rating" []; cell "date_started" []; cell "date_read" [] ].

(** A row with a blank [nobr] and no title cell. *)
Definition blank_pages_only_row : Bs4.node :=
  element "tr" ["bookalike"; "review"]%string
    [ cell "num_pages" [element "nobr" [] [str "  "]] ].

(** *** Cookies *)

(** The scope of the cookies of the site, in the words of the
    specification: the host itself, or a dot followed by a domain that the
    host ends with. *)
Definition in_cookie_scope (domain : pystr) : bool :=
  bool_decide (domain = py "www.goodreads.com")
  || bool_decide (domain = py ".goodreads.com")
  || bool_decide (domain = py ".www.goodreads.com")
  || bool_decide (domain = py ".com").

(** The entries of [cookies] named [n] that pass the test of
    [fetch_html]. *)
Definition passing (n : pystr) (cookies : list Net.cookie) : list Net.cookie :=
  List.filter (λ c, cookie_passes c && bool_decide (Net.name c = n)) cookies.

(** An entry of another site, not flagged as host-only. *)
Definition foreign_cookie : Net.cookie :=
  Net.Cookie (py "sid") (py "1") (Some (py "example.org")) (Some false).

(** *** Records in the file *)

(** A field between quotes. *)
Definition quoted (g : pystr) : pystr :=
  Csv.QUOTE :: Csv.escape g ++ [Csv.QUOTE].

(** The text of a record as the writer lays it out, without the line
    terminator. *)
Definition record_text (row : list pystr) : pystr :=
  match row with
  | [[]] => quoted []
  | _ => Csv.join (Csv.write_field <$> row)
  end.

(** A text as it reads through a file opened with universal newlines. *)
Definition as_read (t : pystr) : pystr := Csv.universal_newlines false t.

(** What the consumer sees when the record [row] is handed out and the
    text [t] is still to be read. *)
Definition hand_out {S B} (f : S → list pystr → result (Csv.step S B)) (s : S)
    (row : list pystr) (t : pystr) : result (Csv.step S B) :=
  let? x := f s row in
  match x with
  | Csv.Continue s' => Csv.rows f s' Csv.parse_reset false t
  | Csv.Stop b => Ok (Csv.Stop b)
  end.

(** *** Runs *)

(** What holds after the computation [m] from the state [st]: [Q] of the
    value and the state when it returns, [E] of the exception and the
    state when it raises. *)
Definition wp {A} (m : M A) (Q : A → state → Prop) (E : exn → state → Prop)
    (st : state) : Prop :=
  match m st with
  | (Ok a, st') => Q a st'
  | (Raise e, st') => E e st'
  end.

Definition printed (m : message) (st : state) : state :=
  State (stdout st ++ [m]) (sent st) (files st) (opened st) (slept st).

Definition slept_more (n : nat) (st : state) : state :=
  State (stdout st) (sent st) (files st) (opened st) (slept st + n).

Definition requested (rq : Net.request) (st : state) : state :=
  State (stdout st) (sent st ++ [rq]) (files st) (opened st) (slept st).

Definition opened_as (path : pystr) (how : open_mode) (st : state) : state :=
  State (stdout st) (sent st) (files st) (opened st ++ [(path, how)]) (slept st).

(** A status that [raise_for_status] turns into [HTTPError]. *)
Definition is_error (status_code : N) : bool :=
  ((400 <=? status_code) && (status_code <? 600))%N.

(** The exceptions of the transport. *)
Definition transport (e : exn) : bool :=
  match e with
  | HTTPError _ _ | ConnectionError | ReadTimeout => true
  | _ => false
  end.

(** A record that [process_review_row] returns on some row of [rows]. *)
Definition extracted_from (rows : list Bs4.node) (d : gmap pystr pystr) : Prop :=
  ∃ row, row ∈ rows ∧ process_review_row row = Ok d.

Definition extracted (d : gmap pystr pystr) : Prop :=
  ∃ row, process_review_row row = Ok d.

(** The header line of the file. *)
Definition header : pystr := Csv.writerow fieldnames.

(** The state of the output while and after the pages are processed: the
    file holds the header and one line per record extracted so far, it was
    opened once, for writing, and the advisory is not printed. *)
Definition well_formed_output (output_file : pystr) (st : state) : Prop :=
  (∃ ds, files st !! output_file = Some (header ++ lines_of ds)
         ∧ Forall extracted ds)
  ∧ opened st = [(output_file, ForWriting)]
  ∧ DateReadAdvisory ∉ stdout st.

(** [list(csv.reader(file))]: every record of a text. *)
Definition collect (acc : list (list pystr)) (row : list pystr)
  : result (Csv.step (list (list pystr)) unit) :=
  Ok (Csv.Continue (acc ++ [row])).

Definition read_records (text : pystr) : result (list (list pystr)) :=
  let? x := Csv.rows collect [] Csv.parse_reset false text in
  match x with
  | Csv.Continue records => Ok records
  | Csv.Stop _ => Ok []
  end.

(** The records of the rows before the first one on which
    [process_review_row] raises. *)
Fixpoint records_before_raise (rows : list Bs4.node)
  : list (gmap pystr pystr) :=
  match rows with
  | [] => []
  | row :: rest =>
      match process_review_row row with
      | Ok d => d :: records_before_raise rest
      | Raise _ => []
      end
  end.

(** [process_review_row] returns on every row. *)
Definition all_return (rows : list Bs4.node) : bool :=
  forallb (λ row, match process_review_row row with
                  | Ok _ => true
                  | Raise _ => false
                  end) rows.

(** The records that the loop writes over [m] more pages from the call
    numbered [call] on: those of each page that is fetched, up to the
    first call that fails or the first row that raises. *)
Fixpoint records_from (w : world) (call m : nat) : list (gmap pystr pystr) :=
  match m with
  | 0 => []
  | S m' =>
      match server w call with
      | Net.Response status_code soup =>
          if is_error status_code then []
          else
            let rows := Bs4.find_all review_row soup in
            records_before_raise rows
            ++ (if all_return rows then records_from w (S call) m' else [])
      | _ => []
      end
  end.

(** The records that a run extracts and writes: none when the first call
    fails or the count of pages cannot be read, and otherwise those of
    the loop over that many pages, from the call 1 on. *)
Definition records_of_run (w : world) : list (gmap pystr pystr) :=
  match server w 0 with
  | Net.Response status_code soup =>
      if is_error status_code then []
      else
        match (total_pages_of soup (State [] [] ∅ [] 0)).1 with
        | Ok n => records_from w 1 (Z.to_nat n)
        | Raise _ => []
        end
  | _ => []
  end.

(** What the check of [main] prints, by what [has_any_date_read] gives on
    the text of the file. *)
Definition checked (r : result bool) (st : state) : state :=
  match r with
  | Ok true => st
  | Ok false => printed DateReadAdvisory st
  | Raise e => printed (CouldNotVerify e) st
  end.

(** The cell of a record in the column Date Read. *)
Definition date_read_of (d : gmap pystr pystr) : pystr :=
  default [] (d !! py "Date Read").

(** The cell is empty once stripped. *)
Definition empty_date_read (d : gmap pystr pystr) : Prop :=
  Py.strip (date_read_of d) = [].

(** A page of the listing: the pagination links, if any, and the rows. *)
Definition listing (links : list string) (rows : list Bs4.node) : Bs4.node :=
  element "[document]" []
    (match links with
     | [] => []
     | _ => [Bs4.Tag (py "div") [] {[ py "id" := py "reviewPagination" ]}
               ((λ l, element "a" [] [str l]) <$> links)]
     end ++ [element "table" [] rows]).

(** A server that answers every request with the same one-page listing. *)
Definition one_page_world : world :=
  World NoFile (λ _, Net.Response 200 (listing [] [dune_row])).

(** The state with the warning about the cookie file printed first. *)
Definition warned (st : state) : state :=
  State (CookiesNotJson :: stdout st) (sent st) (files st) (opened st) (slept st).


(** The part of the download after the cookie file is read (lines 133 to
    186). *)
Definition download_with (w : world) (user_id output_file : pystr)
    (cookies : option (list Net.cookie)) : M bool :=
  open_w output_file ;;;
  write output_file (Csv.writerow fieldnames) ;;;
  try_except
    (let! soup := fetch_html w user_id 1 cookies in
     let! total_pages := total_pages_of soup in
     process_pages w user_id output_file cookies total_pages (range1 total_pages) ;;;
     print (SuccessfullyProcessed total_pages) ;;;
     ret true)
    is_HTTPError
    (λ e, print (ErrorDownloading e) ;;;
          print LikelyCauses ;;;
          ret false).

(** The part of [main] after the download (lines 192 to 212). *)
Definition after_download (output : pystr) (ok : bool) : M unit :=
  if ok then
    print (DataWritten output) ;;;
    try_except
      (let! text := read output in
       let! has_any := lift (has_any_date_read text) in
       if has_any : bool then ret tt else print DateReadAdvisory)
      (λ _, true)
      (λ e, print (CouldNotVerify e))
  else print FailedToProcess.


(** The cookies that the download works with. *)
Definition cookies_of (w : world) : option (list Net.cookie) :=
  match cookies_json w with
  | Json cookies => Some cookies
  | _ => None
  end.

(** The call numbered [i] comes back with the page [soup]. *)
Definition answers (w : world) (i : nat) (soup : Bs4.node) : Prop :=
  ∃ status_code, server w i = Net.Response status_code soup
                 ∧ is_error status_code = false.

(** What [fetch_html] raises on a response, if anything, when the page
    asked for is [page]. *)
Definition failure_of (r : Net.response) (page : Z) : option exn :=
  match r with
  | Net.Response status_code _ =>
      if is_error status_code then Some (HTTPError status_code page) else None
  | Net.Unreachable => Some ConnectionError
  | Net.TimedOut => Some ReadTimeout
  end.

(** The records of the rows on which [process_review_row] returns. *)
Definition records_of (rows : list Bs4.node) : list (gmap pystr pystr) :=
  omap (λ row, match process_review_row row with
               | Ok d => Some d
               | Raise _ => None
               end) rows.

(** The lines that a page adds to the file. *)
Definition page_text (soup : Bs4.node) : pystr :=
  lines_of (records_of (Bs4.find_all review_row soup)).

(** Every review row of the page is complete. *)
Definition complete_page (soup : Bs4.node) : Prop :=
  Forall complete_row (Bs4.find_all review_row soup).

(** The lines of the pages numbered [a] to [a + m - 1]. *)
Definition pages_text (pages : nat → Bs4.node) (a m : nat) : pystr :=
  concat (page_text ∘ pages <$> seq a m).

(** A response that [fetch_html] returns from. *)
Definition answered (r : Net.response) : bool :=
  match r with
  | Net.Response status_code _ => negb (is_error status_code)
  | _ => false
  end.

(** The pagination control of a page. *)
Definition review_pagination (n : Bs4.node) : bool :=
  Bs4.has_name (py "div") n
  && Bs4.has_attr (py "id") (py "reviewPagination") n.

(** A server with two pages of one row each, whose second page cannot be
    fetched: the calls 0 and 1 return the first page, the call 2 is refused
    with status 404. *)
Definition second_page_refused : world :=
  World NoFile
    (λ i, match i with
          | 0 | 1 => Net.Response 200 (listing ["1"; "2"; "next"]%string [dune_row])
          | _ => Net.Response 404 (listing [] [])
          end).

(** The pages of that server, by call. *)
Definition first_page_twice (i : nat) : Bs4.node :=
  listing ["1"; "2"; "next"]%string [dune_row].

(** A disk that holds an earlier export. *)
Definition earlier_export : gmap pystr pystr :=
  {[ py "books.tsv" := py "an earlier export" ]}.

(** The numbers of the pages asked for so far, in order. *)
Definition asked (st : state) : list Z := Net.page <$> sent st.

(** A first page whose pagination control links to the pages 1, 2, 3 and
    to the next page. *)
Definition three_pages : Bs4.node :=
  listing ["1"; "2"; "3"; "next"]%string [dune_row].

(** Every call made so far was answered. *)
Definition healthy (w : world) (st : state) : Prop :=
  ∀ i, i < length (sent st) → answered (server w i) = true.

(** The last call made failed with [e], and every call before it was
    answered. *)
Definition broken (w : world) (e : exn) (st : state) : Prop :=
  ∃ l rq, sent st = l ++ [rq]
          ∧ (∀ i, i < length l → answered (server w i) = true)
          ∧ failure_of (server w (length l)) (Net.page rq) = Some e.

(** How the calls stand when [e] is raised: an exception of the transport
    comes from the last call, any other one from the page processing. *)
Definition ended (w : world) (e : exn) (st : state) : Prop :=
  if transport e then broken w e st else healthy w st.

(** What is printed for an HTTP error that is caught. *)
Definition reported (e : exn) (st : state) : Prop :=
  ∃ out, stdout st = out ++ [ErrorDownloading e; LikelyCauses].

(** A server that does not answer in time. *)
Definition silent_world : world := World NoFile (λ _, Net.TimedOut).

(** *** Notions of the further properties *)

(** A text that neither begins nor ends with white space. *)
Definition trimmed (s : pystr) : Prop :=
  (∀ c, head s = Some c → Py.is_space c = false)
  ∧ (∀ c, last s = Some c → Py.is_space c = false).

(** The labels whose values come out of [get_text_or_default], the dates
    after [convert_date]. *)
Definition stripped_labels : list pystr :=
  [py "Book Title"; py "Date Started"; py "Date Read"; py "Author";
   py "Average Rating"].

(** A text without any white space. *)
Definition one_token (s : pystr) : Prop :=
  Forall (λ c, Py.is_space c = false) s.

(** A page whose second row lacks its cells. *)
Definition page_with_bare_row : list Bs4.node := [dune_row; bare_row; dune_row].

(** What the run prints about the cookie file. *)
Definition cookie_warning (w : world) : list message :=
  match cookies_json w with
  | NotJson => [CookiesNotJson]
  | _ => []
  end.

(** What the run prints about the count of pages. *)
Definition notice (soup : Bs4.node) : list message :=
  match Bs4.find review_pagination soup with
  | Some _ => []
  | None => [FirstPageOnly]
  end.

(** The progress lines of the pages [a] to [a + m - 1]. *)
Definition progress (total_pages : Z) (a m : nat) : list message :=
  (λ i, ProcessingPage (Z.of_nat i) total_pages) <$> seq a m.

(** The requests for the pages [a] to [a + m - 1]. *)
Definition calls (user_id : pystr) (jar : gmap pystr pystr) (a m : nat)
  : list Net.request :=
  (λ i, Net.Request user_id (Z.of_nat i) jar) <$> seq a m.

(** The records of the pages [a] to [a + m - 1]. *)
Definition records_on (pages : nat → Bs4.node) (a m : nat)
  : list (gmap pystr pystr) :=
  concat ((λ i, records_of (Bs4.find_all review_row (pages i))) <$> seq a m).

(** The state in which a run over [n] pages ends when every call is
    answered with complete pages. *)
Definition after_success (w : world) (user_id output : pystr)
    (fs : gmap pystr pystr) (pages : nat → Bs4.node) (n : Z) : state :=
  let m := Z.to_nat n in
  let jar := session_cookies (cookies_of w) in
  State
    (cookie_warning w ++ notice (pages 0) ++ progress n 1 m
     ++ [SuccessfullyProcessed n; DataWritten output]
     ++ (if bool_decide (Forall empty_date_read (records_on pages 1 m))
         then [DateReadAdvisory] else []))
    (Net.Request user_id 1 jar :: calls user_id jar 1 m)
    (<[output := header ++ lines_of (records_on pages 1 m)]> fs)
    [(output, ForWriting); (output, ForReading)]
    m.

(** A server with three pages of one row each, behind a cookie file that
    is not JSON. *)
Definition three_page_world : world :=
  World NotJson (λ _, Net.Response 200 three_pages).

(** The files other than [output] are as in [fs]. *)
Definition others_as_in (fs : gmap pystr pystr) (output : pystr) (st : state)
  : Prop :=
  ∀ path, path ≠ output → files st !! path = fs !! path.

(** A server whose only page is [soup]. *)
Definition serving (soup : Bs4.node) : world :=
  World NoFile (λ _, Net.Response 200 soup).

(** The pauses number the requests less one or two. *)
Definition paced (st : state) : Prop :=
  slept st + 1 ≤ length (sent st) ≤ slept st + 2.

(** The state in which a run ends when it stops right after the first
    request, before any page of the loop. *)
Definition after_first_request (w : world) (user_id output : pystr)
    (fs : gmap pystr pystr) : state :=
  State (cookie_warning w)
    [Net.Request user_id 1 (session_cookies (cookies_of w))]
    (<[output := header]> fs) [(output, ForWriting)] 0.

(** A first page whose pagination control holds one link. *)
Definition one_link_page : Bs4.node := listing ["next"]%string [dune_row].

(** A first page whose second-to-last link is not a number. *)
Definition unnumbered_page : Bs4.node :=
  listing ["previous"; "next"]%string [dune_row].

(** A first page whose second-to-last link reads 0. *)
Definition zero_page : Bs4.node := listing ["0"; "next"]%string [dune_row].

(** The state in which a run ends when, on page [k] of the loop, a row
    raises after the rows [good]. *)
Definition after_bad_row (w : world) (user_id output : pystr)
    (fs : gmap pystr pystr) (pages : nat → Bs4.node) (n : Z) (k : nat)
    (good : list Bs4.node) : state :=
  let jar := session_cookies (cookies_of w) in
  State
    (cookie_warning w ++ notice (pages 0) ++ progress n 1 k)
    (Net.Request user_id 1 jar :: calls user_id jar 1 k)
    (<[output := header
                 ++ lines_of (records_on pages 1 (k - 1) ++ records_of good)]> fs)
    [(output, ForWriting)]
    (k - 1).

(** A server with two pages, the second of which has a row without
    cells after a first row. *)
Definition bad_second_page (i : nat) : Bs4.node :=
  match i with
  | 0 | 1 => listing ["1"; "2"; "next"]%string [dune_row]
  | _ => listing ["1"; "2"; "next"]%string page_with_bare_row
  end.

Definition bad_row_world : world :=
  World NoFile (λ i, Net.Response 200 (bad_second_page i)).

(** A run of white space, not empty. *)
Definition blank (s : pystr) : Prop :=
  s ≠ [] ∧ forallb Py.is_space s = true.

(** A date spelled month, gap, day, comma, gap, year. *)
Definition spelled (month gap1 day gap2 year : pystr) : pystr :=
  month ++ gap1 ++ day ++ 44%N :: gap2 ++ year.

(** Two states that differ at most in the files other than [output]. *)
Definition alike (output : pystr) (st st' : state) : Prop :=
  stdout st = stdout st' ∧ sent st = sent st'
  ∧ files st !! output = files st' !! output
  ∧ opened st = opened st' ∧ slept st = slept st'.

(** A computation that goes the same way from two such states. *)
Definition blind (output : pystr) {A} (m : M A) : Prop :=
  ∀ st st', alike output st st' →
    fst (m st) = fst (m st') ∧ alike output (snd (m st)) (snd (m st')).

(** Every request is made for [user_id] and carries [jar]. *)
Definition all_carry (user_id : pystr) (jar : gmap pystr pystr) (st : state)
  : Prop :=
  Forall (λ rq, Net.user rq = user_id ∧ Net.jar rq = jar) (sent st).

(** A review row as the site renders it, with the title [title] and
    without a date read. *)
Definition titled_row (title : pystr) : Bs4.node :=
  element "tr" ["bookalike"; "review"]%string
    [ cell "title" [element "a" [] [Bs4.NavigableString title]];
      cell "author" [element "a" [] [str "Herbert, Frank"]];
      cell "num_pages"
        [element "nobr" [] [str " 612 "; element "span" ["greyText"]%string [str "pp"]]];
      cell "avg_rating" [str " 4.27 "];
      cell "date_started"
        [Bs4.Tag (py "div") [py "js-tooltipTrigger"]
           {[ py "data-resource-id" := py "234225" ]}
           [element "span" ["date_started_value"]%string [str "Jan 5, 2023"]]];
      cell "date_read" [] ].

(** A title of one code point more than the reader takes. *)
Definition long_title : pystr :=
  replicate (N.to_nat (Csv.field_limit + 1)) 97%N.

(** A server whose one page lists one book, with that title. *)
Definition long_title_world : world :=
  serving (listing [] [titled_row long_title]).

(** * Properties *)

(** ** Text *)
Lemma lstrip_nil_iff (s : pystr) :
  Py.lstrip s = [] ↔ forallb Py.is_space s = true.
Proof.
  induction s as [|c s IH]; simpl; [done|].
  destruct (Py.is_space c); simpl; [done|]. split; discriminate.
Qed.

Lemma forallb_reverse {A} (p : A → bool) (l : list A) :
  forallb p (reverse l) = forallb p l.
Proof.
  induction l as [|x l IH]; [done|].
  rewrite reverse_cons, forallb_app, IH. simpl.
  rewrite andb_true_r. apply andb_comm.
Qed.

Lemma lstrip_blank (s : pystr) :
  forallb Py.is_space s = false → forallb Py.is_space (Py.lstrip s) = false.
Proof.
  induction s as [|c s IH]; simpl; [done|].
  destruct (Py.is_space c) eqn:Hc; simpl; [done|]. by rewrite Hc.
Qed.

Lemma strip_nil_iff (s : pystr) :
  Py.strip s = [] ↔ forallb Py.is_space s = true.
Proof.
  unfold Py.strip, Py.rstrip. split.
  - intros H. apply (f_equal reverse) in H. rewrite reverse_involutive in H.
    change (reverse []) with (@nil N) in H.
    apply lstrip_nil_iff in H. rewrite forallb_reverse in H.
    destruct (forallb Py.is_space s) eqn:E; [done|].
    apply lstrip_blank in E. congruence.
  - intros H. apply lstrip_nil_iff in H. by rewrite H.
Qed.

Lemma split_from_nil_iff (cur s : pystr) :
  Py.split_from cur s = [] ↔ cur = [] ∧ forallb Py.is_space s = true.
Proof.
  revert cur. induction s as [|c s IH]; intros cur; simpl.
  - destruct cur; intuition congruence.
  - destruct (Py.is_space c); simpl.
    + destruct cur; [rewrite IH|]; intuition congruence.
    + rewrite IH. intuition congruence.
Qed.

Lemma split_nil_iff (s : pystr) :
  Py.split s = [] ↔ forallb Py.is_space s = true.
Proof. unfold Py.split. rewrite split_from_nil_iff. intuition congruence. Qed.

Lemma split_from_tokens (cur s : pystr) :
  Forall (λ w, w ≠ []) (Py.split_from cur s).
Proof.
  assert (Hrev : ∀ x (l : pystr), reverse (x :: l) ≠ []).
  { intros x l H. apply (f_equal length) in H.
    rewrite length_reverse in H. done. }
  revert cur. induction s as [|c s IH]; intros cur; simpl.
  - destruct cur; [constructor|]. repeat constructor. apply Hrev.
  - destruct (Py.is_space c); [|apply IH].
    destruct cur; [apply IH|]. constructor; [apply Hrev | apply IH].
Qed.

Lemma first_split (s : pystr) :
  forallb Py.is_space s = false →
  ∃ w, first (Py.split s) = Ok w ∧ w ≠ [].
Proof.
  intros H. pose proof (split_from_tokens [] s) as Ht.
  destruct (Py.split s) as [|w l] eqn:E.
  - apply split_nil_iff in E. congruence.
  - unfold Py.split in E. rewrite E in Ht. inversion Ht; subst. eauto.
Qed.

Lemma first_split_blank (s : pystr) :
  forallb Py.is_space s = true → first (Py.split s) = Raise IndexError.
Proof. intros H. apply split_nil_iff in H. by rewrite H. Qed.

(** ** Dates *)

Lemma index_raises (x : pystr) (l : list pystr) (e : exn) :
  Strptime.index x l = Raise e → e = ValueError.
Proof.
  induction l as [|y l IH]; simpl; [congruence|].
  destruct (decide (y = x)); [done|].
  destruct (Strptime.index x l); simpl; [done|]. intros [= <-]. by apply IH.
Qed.

Lemma to_int_raises (s : pystr) (e : exn) :
  to_int s = Raise e → e = ValueError.
Proof. unfold to_int. destruct (Py.int s); congruence. Qed.

Lemma make_date_raises (y m d : Z) (e : exn) :
  Strptime.make_date y m d = Raise e → e = ValueError.
Proof. unfold Strptime.make_date. case_match; congruence. Qed.

(** [strptime] raises nothing but [ValueError]. *)
Lemma strptime_raises (s : pystr) (e : exn) :
  Strptime.strptime s = Raise e → e = ValueError.
Proof.
  unfold Strptime.strptime, bind. intros H.
  repeat case_match; simplify_eq;
    eauto using to_int_raises, index_raises, make_date_raises.
Qed.

Lemma make_date_ok (y m d : Z) (x : Strptime.date) :
  Strptime.make_date y m d = Ok x → x = Strptime.Date y m d ∧ in_calendar x.
Proof.
  unfold Strptime.make_date. case_match eqn:E; [|congruence].
  intros [= <-]. split; [done|]. unfold in_calendar; simpl.
  repeat (apply andb_prop in E as [E ?]). lia.
Qed.

Lemma strptime_in_calendar (s : pystr) (d : Strptime.date) :
  Strptime.strptime s = Ok d → in_calendar d.
Proof.
  unfold Strptime.strptime, bind. intros H.
  repeat case_match; simplify_eq.
  by apply make_date_ok in H as [_ ?].
Qed.

Lemma zero_pad_2 (n : N) : Py.zero_pad 2 n = [digit (n / 10); digit n].
Proof. reflexivity. Qed.

Lemma zero_pad_4 (n : N) :
  Py.zero_pad 4 n = [digit (n / 10 / 10 / 10); digit (n / 10 / 10); digit (n / 10); digit n].
Proof. reflexivity. Qed.

Lemma digit_cases (n : N) (P : N → Prop) :
  (∀ a, a ∈ [0;1;2;3;4;5;6;7;8;9]%N → P (48 + a)%N) → P (digit n).
Proof.
  intros H. unfold digit. apply H.
  pose proof (N.mod_upper_bound n 10 ltac:(done)) as Hlt.
  set (a := (n mod 10)%N) in *. clearbody a.
  repeat (rewrite elem_of_cons). lia.
Qed.

Ltac by_digit n :=
  pattern (digit n); apply digit_cases;
  let a := fresh "a" in
  let Ha := fresh "Ha" in
  intros a Ha;
  repeat (apply elem_of_cons in Ha as [->|Ha]; [reflexivity|]);
  by apply elem_of_nil in Ha.

Lemma is_decimal_digit (n : N) : Py.is_decimal (digit n) = true.
Proof. by_digit n. Qed.

Lemma is_space_digit (n : N) : Py.is_space (digit n) = false.
Proof. by_digit n. Qed.

Lemma decimal_digit (n : N) : Py.decimal (digit n) = Some (n mod 10)%N.
Proof.
  unfold digit. pose proof (N.mod_upper_bound n 10 ltac:(done)) as H.
  set (a := (n mod 10)%N) in *. clearbody a.
  assert (Hc : a ∈ [0;1;2;3;4;5;6;7;8;9]%N).
  { repeat (rewrite elem_of_cons). lia. }
  repeat (apply elem_of_cons in Hc as [->|Hc]; [reflexivity|]).
  by apply elem_of_nil in Hc.
Qed.

Section Matching.
  Import Strptime.

Lemma rmatch_seq {R} r1 r2 s c (k : pystr → pystr → captures → option R) :
  rmatch (Seq r1 r2) s c k
  = rmatch r1 s c (λ m1 s1 c1, rmatch r2 s1 c1 (λ m2 s2 c2, k (m1 ++ m2) s2 c2)).
Proof. reflexivity. Qed.

Lemma months (m : Z) : (1 ≤ m ≤ 12)%Z → m ∈ [1;2;3;4;5;6;7;8;9;10;11;12]%Z.
Proof. intros. repeat (rewrite elem_of_cons). lia. Qed.

Lemma days (d : Z) :
  (1 ≤ d ≤ 31)%Z →
  d ∈ [1;2;3;4;5;6;7;8;9;10;11;12;13;14;15;16;17;18;19;20;21;22;23;24;25;
       26;27;28;29;30;31]%Z.
Proof. intros. repeat (rewrite elem_of_cons). lia. Qed.

Ltac each_of H :=
  repeat (apply elem_of_cons in H as [->|H]); [..|by apply elem_of_nil in H].

Lemma rmatch_b {R} (m : Z) t c (k : pystr → pystr → captures → option R) x :
  (1 ≤ m ≤ 12)%Z →
  let b := nth (Z.to_nat m) month_abbr [] in
  k b t (capture Gb b c) = Some x →
  rmatch re_b (b ++ t) c k = Some x.
Proof.
  intros Hm. apply months in Hm. each_of Hm; intros b H; subst b.
  all: vm_compute in H; vm_compute; rewrite H; reflexivity.
Qed.

Lemma rmatch_d {R} (d : Z) t c (k : pystr → pystr → captures → option R) x :
  (1 ≤ d ≤ 31)%Z →
  k (day_text d) (44%N :: t) (capture Gd (day_text d) c) = Some x →
  rmatch re_d (day_text d ++ 44%N :: t) c k = Some x.
Proof.
  intros Hd. apply days in Hd. each_of Hd; intros H.
  all: vm_compute in H; vm_compute; rewrite H; reflexivity.
Qed.

Lemma rmatch_blank {R} (b : N) t c (k : pystr → pystr → captures → option R) :
  Py.is_space b = false →
  rmatch (Plus Py.is_space) (32%N :: b :: t) c k = k [32%N] (b :: t) c.
Proof. intros H. simpl. by rewrite H. Qed.

Lemma rmatch_blank_day {R} (d : Z) t c
    (k : pystr → pystr → captures → option R) :
  (1 ≤ d ≤ 31)%Z →
  rmatch (Plus Py.is_space) (32%N :: day_text d ++ t) c k
  = k [32%N] (day_text d ++ t) c.
Proof. intros Hd. apply days in Hd. each_of Hd; reflexivity. Qed.

Lemma rmatch_Y {R} (n : N) c (k : pystr → pystr → captures → option R) :
  rmatch re_Y (Py.zero_pad 4 n) c k
  = k (Py.zero_pad 4 n) [] (capture GY (Py.zero_pad 4 n) c).
Proof.
  rewrite zero_pad_4. unfold re_Y. simpl.
  by rewrite !is_decimal_digit.
Qed.

Lemma rmatch_comma {R} s c (k : pystr → pystr → captures → option R) :
  rmatch (Chr (one 44)) (44%N :: s) c k = k [44%N] s c.
Proof. reflexivity. Qed.

Lemma rmatch_tail {R} (n : N) c (k : pystr → pystr → captures → option R) :
  rmatch (Seq (Chr (one 44)) (Seq (Plus Py.is_space) re_Y))
    (py ", " ++ Py.zero_pad 4 n) c k
  = k (py ", " ++ Py.zero_pad 4 n) [] (capture GY (Py.zero_pad 4 n) c).
Proof.
  rewrite rmatch_seq. change (py ", ") with [44%N; 32%N].
  rewrite zero_pad_4. cbn [app]. rewrite rmatch_comma.
  rewrite rmatch_seq, rmatch_blank by apply is_space_digit.
  rewrite <- zero_pad_4, rmatch_Y. reflexivity.
Qed.

(** What [re] finds in a date written as the site writes it. *)
Lemma re_match_english (y m d : Z) :
  (1 ≤ m ≤ 12)%Z → (1 ≤ d ≤ 31)%Z →
  ∃ found, re_match format_regex (english_date y m d) = Some (found, [])
    ∧ found Gb = Some (nth (Z.to_nat m) month_abbr [])
    ∧ found Gd = Some (day_text d)
    ∧ found GY = Some (Py.zero_pad 4 (Z.to_N y)).
Proof.
  intros Hm Hd. eexists. split.
  - unfold re_match, format_regex, english_date.
    rewrite rmatch_seq. apply rmatch_b; [done|]. cbv beta.
    rewrite rmatch_seq. change (py " ") with [32%N].
    cbn [app]. rewrite rmatch_blank_day by done.
    rewrite rmatch_seq.
    change (py ", " ++ ?t) with (44%N :: (32%N :: t)).
    apply rmatch_d; [done|]. cbv beta.
    change (44%N :: 32%N :: ?t) with (py ", " ++ t).
    rewrite rmatch_tail. reflexivity.
  - done.
Qed.

Lemma digit_neq (n c : N) : (c < 48 ∨ 57 < c)%N → (digit n =? c)%N = false.
Proof.
  unfold digit. pose proof (N.mod_upper_bound n 10 ltac:(done)) as H.
  set (a := (n mod 10)%N) in *. clearbody a.
  intros. apply N.eqb_neq. lia.
Qed.

Lemma lstrip_head (c : N) (s : pystr) :
  Py.is_space c = false → Py.lstrip (c :: s) = c :: s.
Proof. intros H. simpl. by rewrite H. Qed.

Lemma strip_zero_pad_4 (n : N) : Py.strip (Py.zero_pad 4 n) = Py.zero_pad 4 n.
Proof.
  rewrite zero_pad_4. unfold Py.strip, Py.rstrip.
  rewrite lstrip_head by apply is_space_digit.
  change (reverse [?a; ?b; ?c; ?d]) with [d; c; b; a].
  rewrite lstrip_head by apply is_space_digit. reflexivity.
Qed.

Lemma digits_value_4 (n : N) :
  (n < 10000)%N →
  Py.digits_value 0 [n / 10 / 10 / 10 mod 10; n / 10 / 10 mod 10; n / 10 mod 10; n mod 10]%N = n.
Proof.
  intros Hn. simpl.
  pose proof (N.div_mod' n 10). pose proof (N.mod_upper_bound n 10 ltac:(done)).
  pose proof (N.div_mod' (n / 10) 10).
  pose proof (N.mod_upper_bound (n / 10) 10 ltac:(done)).
  pose proof (N.div_mod' (n / 10 / 10) 10).
  pose proof (N.mod_upper_bound (n / 10 / 10) 10 ltac:(done)).
  assert (n / 10 / 10 / 10 < 10)%N.
  { rewrite !N.Div0.div_div. apply N.Div0.div_lt_upper_bound. lia. }
  rewrite (N.mod_small (n / 10 / 10 / 10) 10) by done.
  lia.
Qed.

Lemma to_int_zero_pad_4 (n : N) :
  (n < 10000)%N → to_int (Py.zero_pad 4 n) = Ok (Z.of_N n).
Proof.
  intros Hn. unfold to_int, Py.int. rewrite strip_zero_pad_4, zero_pad_4.
  rewrite !digit_neq by lia.
  cbn [Py.int_digits]. rewrite !digit_neq by lia. rewrite !decimal_digit.
  cbn [fmap option_fmap option_map length].
  change (N.of_nat 4 <=? Py.int_max_str_digits)%N with true.
  cbv iota. by rewrite digits_value_4.
Qed.

Lemma to_int_day_text (d : Z) : (1 ≤ d ≤ 31)%Z → to_int (day_text d) = Ok d.
Proof. intros Hd. apply days in Hd. each_of Hd; reflexivity. Qed.

Lemma index_month (m : Z) :
  (1 ≤ m ≤ 12)%Z →
  index (lower (nth (Z.to_nat m) month_abbr [])) a_month = Ok m.
Proof. intros Hm. apply months in Hm. each_of Hm; reflexivity. Qed.

Lemma days_in_month_le (y m : Z) : (days_in_month y m ≤ 31)%Z.
Proof. unfold days_in_month. repeat case_match; lia. Qed.

(** A date of the calendar, written as the site writes it, parses to
    itself. *)
Lemma strptime_english (y m d : Z) :
  (1 ≤ y ≤ 9999)%Z → (1 ≤ m ≤ 12)%Z → (1 ≤ d ≤ days_in_month y m)%Z →
  strptime (english_date y m d) = Ok (Date y m d).
Proof.
  intros Hy Hm Hd. pose proof (days_in_month_le y m).
  destruct (re_match_english y m d) as (found & Hre & Hb & Hdd & HY);
    [done|lia|].
  unfold strptime. rewrite Hre, HY, Hb, Hdd. cbn [default from_option id].
  rewrite to_int_zero_pad_4 by lia. rewrite index_month by done.
  rewrite to_int_day_text by lia. cbn [bind].
  rewrite Z2N.id by lia. unfold make_date.
  replace (_ && _) with true; [done|].
  symmetry. repeat (apply andb_true_intro; split); lia.
Qed.

End Matching.

Lemma strip_zero_pad_2 (n : N) : Py.strip (Py.zero_pad 2 n) = Py.zero_pad 2 n.
Proof.
  rewrite zero_pad_2. unfold Py.strip, Py.rstrip.
  rewrite lstrip_head by apply is_space_digit.
  change (reverse [?a; ?b]) with [b; a].
  rewrite lstrip_head by apply is_space_digit. reflexivity.
Qed.

Lemma to_int_zero_pad_2 (n : N) :
  (n < 100)%N → to_int (Py.zero_pad 2 n) = Ok (Z.of_N n).
Proof.
  intros Hn. unfold to_int, Py.int. rewrite strip_zero_pad_2, zero_pad_2.
  rewrite !digit_neq by lia.
  cbn [Py.int_digits]. rewrite !digit_neq by lia. rewrite !decimal_digit.
  cbn [fmap option_fmap option_map length].
  change (N.of_nat 2 <=? Py.int_max_str_digits)%N with true.
  cbv iota. simpl.
  pose proof (N.div_mod' n 10). pose proof (N.mod_upper_bound n 10 ltac:(done)).
  assert (n / 10 < 10)%N by (apply N.Div0.div_lt_upper_bound; lia).
  rewrite (N.mod_small (n / 10) 10) by done.
  do 2 f_equal. lia.
Qed.

Lemma year_text_4 (y : N) :
  (1000 ≤ y)%N → Strptime.year_text y = Py.zero_pad 4 y.
Proof.
  intros Hy. unfold Strptime.year_text.
  by rewrite !(proj2 (N.ltb_ge _ _)) by lia.
Qed.

Lemma strftime_iso (y m d : Z) :
  (1000 ≤ y)%Z → Strptime.strftime (Strptime.Date y m d) = iso_date y m d.
Proof.
  intros Hy. unfold Strptime.strftime, iso_date. cbn [Strptime.year
    Strptime.month Strptime.day]. by rewrite year_text_4 by lia.
Qed.

(** The rendering of a date of the calendar from the year 1000 on reads as
    that date. *)
Lemma iso_date_reads (d : Strptime.date) :
  in_calendar d → (1000 ≤ Strptime.year d)%Z →
  reads_as_iso (Strptime.strftime d)
    (Strptime.year d) (Strptime.month d) (Strptime.day d).
Proof.
  intros (Hy & Hm & Hd) Hk.
  pose proof (days_in_month_le (Strptime.year d) (Strptime.month d)).
  unfold reads_as_iso, Strptime.strftime. rewrite year_text_4 by lia.
  rewrite zero_pad_4, !zero_pad_2. change (py "-") with [45%N].
  cbn [app take drop length]. rewrite <- zero_pad_4, <- !zero_pad_2.
  rewrite to_int_zero_pad_4, !to_int_zero_pad_2 by lia.
  rewrite !Z2N.id by lia. done.
Qed.

(** C2: [convert_date] never raises; when [strptime] accepts the text the
    result is the date found as [strftime] renders it, and otherwise the
    text itself.  From the year 1000 on the rendering is year, month and
    day on four, two and two digits between hyphens: every such date of
    the calendar written as "MMM D, YYYY" comes out as "YYYY-MM-DD", and
    "Jan 5, 2023" gives "2023-01-05".  Below the year 1000 it is not: the
    pattern accepts "Jan 5, 0999", and the result is "999-01-05", with the
    year on three digits. *)
Theorem convert_date_normalises :
  (∀ date_str,
     match Strptime.strptime date_str with
     | Ok d =>
         convert_date date_str = Ok (Strptime.strftime d)
         ∧ ((1000 ≤ Strptime.year d)%Z →
            reads_as_iso (Strptime.strftime d)
              (Strptime.year d) (Strptime.month d) (Strptime.day d))
     | Raise _ => convert_date date_str = Ok date_str
     end)
  ∧ (∀ y m d,
       (1000 ≤ y ≤ 9999)%Z → (1 ≤ m ≤ 12)%Z →
       (1 ≤ d ≤ Strptime.days_in_month y m)%Z →
       convert_date (english_date y m d) = Ok (iso_date y m d))
  ∧ convert_date (py "Jan 5, 2023") = Ok (py "2023-01-05")
  ∧ english_date 999 1 5 = py "Jan 5, 0999"
  ∧ convert_date (py "Jan 5, 0999") = Ok (py "999-01-05")
  ∧ iso_date 999 1 5 = py "0999-01-05".
Proof.
  split; [|split; [|by vm_compute]].
  - intros date_str. unfold convert_date.
    destruct (Strptime.strptime date_str) as [d|e] eqn:E.
    + split; [done|]. apply iso_date_reads. by eapply strptime_in_calendar.
    + by rewrite (strptime_raises _ _ E).
  - intros y m d Hy Hm Hd. unfold convert_date.
    rewrite strptime_english by (done || lia). by rewrite strftime_iso by lia.
Qed.

Lemma convert_date_normalises_witness :
  convert_date (english_date 2024 2 29) = Ok (py "2024-02-29").
Proof.
  apply (proj1 (proj2 convert_date_normalises) 2024 2 29)%Z; vm_compute; done.
Defined.

(** ** Rows *)

Lemma dict_to_list_book_data a b c d e f g :
  Csv.dict_to_list fieldnames (book_data a b c d e f g) = Ok [a; b; c; d; e; f; g].
Proof. vm_compute. reflexivity. Qed.

Lemma dom_book_data a b c d e f g :
  dom (book_data a b c d e f g) = list_to_set fieldnames.
Proof. vm_compute. reflexivity. Qed.

Lemma convert_date_total (s : pystr) : ∃ r, convert_date s = Ok r.
Proof.
  unfold convert_date. destruct (Strptime.strptime s) as [d|e] eqn:E; [eauto|].
  apply strptime_raises in E as ->. eauto.
Qed.

Lemma convert_date_empty : convert_date [] = Ok [].
Proof. reflexivity. Qed.

Lemma forallb_lstrip (s : pystr) :
  forallb Py.is_space (Py.lstrip s) = forallb Py.is_space s.
Proof.
  induction s as [|c s IH]; [done|]. simpl.
  destruct (Py.is_space c) eqn:E; simpl; [done|]. by rewrite E.
Qed.

Lemma forallb_strip (s : pystr) :
  forallb Py.is_space (Py.strip s) = forallb Py.is_space s.
Proof.
  unfold Py.strip, Py.rstrip.
  by rewrite forallb_reverse, forallb_lstrip, forallb_reverse, forallb_lstrip.
Qed.

Lemma find_in_cell c p row :
  is_Some (Bs4.find (td c) row) →
  Bs4.find_in p (Bs4.find (td c) row) = Ok (nested c p row).
Proof. intros [x Hx]. unfold nested. by rewrite Hx. Qed.

Lemma process_review_row_complete (row : Bs4.node) :
  complete_row row →
  ∃ goodreads_id date_started date_read num_pages,
    process_review_row row
    = Ok (book_data goodreads_id
            (text_in "field title" (Bs4.has_name (py "a")) row)
            date_started date_read
            (text_in "field author" (Bs4.has_name (py "a")) row)
            (get_text_or_default (Bs4.find (td "field avg_rating") row))
            num_pages)
    ∧ (Bs4.find tooltip row = None → goodreads_id = [])
    ∧ convert_date (text_in "field date_started" (span "date_started_value") row)
      = Ok date_started
    ∧ convert_date (text_in "field date_read" (span "date_read_value") row)
      = Ok date_read
    ∧ match nested "field num_pages" (Bs4.has_name (py "nobr")) row with
      | Some n => first (Py.split (Py.strip (Bs4.text n))) = Ok num_pages
                  ∧ num_pages ≠ []
      | None => num_pages = []
      end.
Proof.
  intros ((Ht & Hs & Hr & Ha & Hn) & Htip & Hnobr).
  destruct (convert_date_total
    (text_in "field date_started" (span "date_started_value") row)) as [ds Hds].
  destruct (convert_date_total
    (text_in "field date_read" (span "date_read_value") row)) as [dr Hdr].
  unfold process_review_row.
  rewrite !find_in_cell by done. cbn [bind].
  fold (text_in "field date_started" (span "date_started_value") row).
  fold (text_in "field date_read" (span "date_read_value") row).
  rewrite Hds, Hdr.
  unfold tooltip_has_id in Htip. unfold nobr_has_text in Hnobr.
  destruct (Bs4.find tooltip row) as [tip|] eqn:Etip.
  - destruct (Htip tip eq_refl) as [v Hv]. rewrite Hv. cbn [bind].
    destruct (nested "field num_pages" _ row) as [n|] eqn:En.
    + destruct (first_split (Py.strip (Bs4.text n))) as (w & Hw & Hne).
      { rewrite forallb_strip. by apply Hnobr. }
      cbn [bind get_text_or_default]. rewrite Hw. cbn [bind].
      exists v, ds, dr, w. repeat split; try done.
    + cbn [bind]. exists v, ds, dr, []. repeat split; done.
  - cbn [bind].
    destruct (nested "field num_pages" _ row) as [n|] eqn:En.
    + destruct (first_split (Py.strip (Bs4.text n))) as (w & Hw & Hne).
      { rewrite forallb_strip. by apply Hnobr. }
      cbn [bind get_text_or_default]. rewrite Hw. cbn [bind].
      exists [], ds, dr, w. repeat split; try done.
    + cbn [bind]. exists [], ds, dr, []. repeat split; done.
Qed.

Lemma write_with_file path text content st :
  files st !! path = Some content →
  write path text st = (Ok tt, with_file path (content ++ text) st).
Proof. intros H. unfold write, with_file. by rewrite H. Qed.

Lemma with_file_with_file path t1 t2 st :
  with_file path t2 (with_file path t1 st) = with_file path t2 st.
Proof. unfold with_file. simpl. by rewrite insert_insert_eq. Qed.

Lemma with_file_id path content st :
  files st !! path = Some content → with_file path content st = st.
Proof. intros H. destruct st. unfold with_file. simpl in *. by rewrite insert_id. Qed.

Lemma files_with_file path text st :
  files (with_file path text st) !! path = Some text.
Proof. unfold with_file. simpl. by rewrite lookup_insert_eq. Qed.

Lemma process_review_row_degrades row :
  complete_row row →
  ∃ d, process_review_row row = Ok d ∧ degrades row d.
Proof.
  intros Hc. pose proof Hc as ((Ht & Hs & Hr & Ha & Hn) & _).
  destruct (process_review_row_complete row Hc)
    as (id & ds & dr & np & -> & Hid & Hds & Hdr & Hnp).
  eexists. split; [done|]. unfold degrades.
  split; [apply dom_book_data|].
  split; [intros H; rewrite (Hid H); reflexivity|].
  split; [intros H; unfold text_in; rewrite H; reflexivity|].
  split.
  { intros H. unfold text_in in Hds. rewrite H in Hds.
    cbn in Hds. injection Hds as <-. reflexivity. }
  split.
  { intros H. unfold text_in in Hdr. rewrite H in Hdr.
    cbn in Hdr. injection Hdr as <-. reflexivity. }
  split; [intros H; unfold text_in; rewrite H; reflexivity|].
  split; [intros H; rewrite H; reflexivity|].
  intros H. rewrite H in Hnp. subst np. reflexivity.
Qed.

Lemma lines_of_cons d ds :
  lines_of (d :: ds) = Csv.writerow (values_of d) ++ lines_of ds.
Proof. reflexivity. Qed.

Lemma process_rows_complete output_file review_rows content st :
  Forall complete_row review_rows →
  files st !! output_file = Some content →
  ∃ records,
    Forall2 (λ row d, process_review_row row = Ok d ∧ degrades row d)
      review_rows records
    ∧ process_rows output_file review_rows st
      = (Ok tt, with_file output_file (content ++ lines_of records) st).
Proof.
  intros Hall. revert content st.
  induction Hall as [|row rows Hrow _ IH]; intros content st Hf.
  - exists []. split; [constructor|]. simpl.
    unfold lines_of. simpl. rewrite app_nil_r. by rewrite with_file_id.
  - destruct (process_review_row_degrades row Hrow) as (d & Hd & Hdeg).
    destruct (IH (content ++ Csv.writerow (values_of d))
                (with_file output_file (content ++ Csv.writerow (values_of d)) st))
      as (ds & Hds & Hrun); [apply files_with_file|].
    exists (d :: ds). split; [by constructor|].
    cbn [process_rows]. unfold and_then at 1, lift at 1. rewrite Hd.
    unfold and_then at 1, lift at 1.
    assert (Hl : Csv.dict_to_list fieldnames d = Ok (values_of d)).
    { unfold Csv.dict_to_list. destruct Hdeg as [-> _].
      by rewrite decide_True. }
    rewrite Hl. unfold and_then.
    rewrite (write_with_file _ _ content) by done.
    rewrite Hrun, with_file_with_file, lines_of_cons.
    by rewrite app_assoc.
Qed.

(** C1, as amended: on a page whose review rows each hold the five cells
    searched inside (title, date_started, date_read, author, num_pages),
    with a tooltip trigger, if any, that carries its identifier and a page
    count, if any, that is not blank, [process_review_row] returns one
    record per row, with the seven labels as keys; each value whose element
    is missing is the empty string, whatever the other elements, and every
    row of the page is written to the file. *)
Theorem complete_rows_give_one_record_each output_file review_rows content st :
  Forall complete_row review_rows →
  files st !! output_file = Some content →
  ∃ records,
    Forall2 (λ row d, process_review_row row = Ok d ∧ degrades row d)
      review_rows records
    ∧ process_rows output_file review_rows st
      = (Ok tt, with_file output_file (content ++ lines_of records) st).
Proof. apply process_rows_complete. Qed.

Lemma complete_dune_row : complete_row dune_row.
Proof.
  split; [|split].
  - repeat split; vm_compute; eauto.
  - intros d. vm_compute. intros [= <-]. eauto.
  - intros n. vm_compute. intros [= <-]. reflexivity.
Qed.

Lemma complete_rows_give_one_record_each_witness :
  ∃ records,
    Forall2 (λ row d, process_review_row row = Ok d ∧ degrades row d)
      [dune_row; dune_row] records
    ∧ process_rows (py "books.tsv") [dune_row; dune_row]
        (with_file (py "books.tsv") [] (initial ∅))
      = (Ok tt, with_file (py "books.tsv") ([] ++ lines_of records)
                  (with_file (py "books.tsv") [] (initial ∅))).
Proof.
  apply complete_rows_give_one_record_each.
  - repeat constructor; apply complete_dune_row.
  - reflexivity.
Defined.

(** C1 fails on a review row without cells: the first search inside a
    missing cell raises, and the rows after it on the page are not
    written. *)
Lemma bare_row_raises :
  review_row bare_row = true
  ∧ process_review_row bare_row = Raise AttributeError
  ∧ ∀ st, process_rows (py "books.tsv") [bare_row; dune_row] st
          = (Raise AttributeError, st).
Proof. repeat split. Qed.

Lemma find_in_ok p x r :
  Bs4.find_in p x = Ok r → ∃ n, x = Some n ∧ r = Bs4.find p n.
Proof. destruct x; simpl; [intros [= <-]; eauto | done]. Qed.

Lemma bind_ok {A B} (m : result A) (f : A → result B) b :
  bind m f = Ok b → ∃ a, m = Ok a ∧ f a = Ok b.
Proof. destruct m; simpl; [eauto | done]. Qed.

(** A row on which [process_review_row] returns is complete. *)
Lemma process_review_row_ok_complete row d :
  process_review_row row = Ok d → complete_row row.
Proof.
  unfold process_review_row. intros H.
  apply bind_ok in H as (a & Ha & H). apply find_in_ok in Ha as (c1 & Hc1 & _).
  apply bind_ok in H as (s1 & Hs1 & H). apply find_in_ok in Hs1 as (c2 & Hc2 & _).
  apply bind_ok in H as (s2 & Hs2 & H). apply find_in_ok in Hs2 as (c3 & Hc3 & _).
  apply bind_ok in H as (id & Hid & H).
  apply bind_ok in H as (ds & Hds & H).
  apply bind_ok in H as (dr & Hdr & H).
  apply bind_ok in H as (a' & Ha' & H). apply find_in_ok in Ha' as (c4 & Hc4 & _).
  apply bind_ok in H as (nobr & Hnobr & H).
  apply find_in_ok in Hnobr as (c5 & Hc5 & Hn).
  apply bind_ok in H as (np & Hnp & _).
  split; [|split].
  - unfold has_cells. rewrite Hc1, Hc2, Hc3, Hc4, Hc5. eauto 10.
  - intros t Ht. rewrite Ht in Hid. eauto.
  - intros n Hnest. unfold nested in Hnest. rewrite Hc5 in Hnest, Hnp.
    simpl in Hnest, Hnp. rewrite <- Hn in Hnest. subst nobr.
    rewrite Hnest in Hnp. simpl in Hnp.
    destruct (forallb Py.is_space (Bs4.text n)) eqn:E; [|done].
    rewrite first_split_blank in Hnp; [done|]. by rewrite forallb_strip.
Qed.

Lemma process_review_row_blank_nobr row :
  has_cells row → tooltip_has_id row → nobr_blank row →
  process_review_row row = Raise IndexError.
Proof.
  intros (Ht & Hs & Hr & Ha & Hn) Htip (n & Hnest & Hblank).
  destruct (convert_date_total
    (text_in "field date_started" (span "date_started_value") row)) as [ds Hds].
  destruct (convert_date_total
    (text_in "field date_read" (span "date_read_value") row)) as [dr Hdr].
  unfold process_review_row.
  rewrite !find_in_cell by done. cbn [bind].
  fold (text_in "field date_started" (span "date_started_value") row).
  fold (text_in "field date_read" (span "date_read_value") row).
  rewrite Hds, Hdr, Hnest.
  assert (Hf : first (Py.split (get_text_or_default (Some n))) = Raise IndexError).
  { apply first_split_blank. simpl. by rewrite forallb_strip. }
  destruct (Bs4.find tooltip row) as [tip|] eqn:Etip.
  - destruct (Htip tip Etip) as [v Hv]. rewrite Hv. cbn [bind].
    by rewrite Hf.
  - cbn [bind]. by rewrite Hf.
Qed.

(** C10, as amended: on a row that holds the five cells searched inside
    and whose tooltip trigger, if any, carries its identifier, a page count
    whose [nobr] is there with empty or blank text makes
    [process_review_row] raise [IndexError]; and in a record that is
    returned the page count is the empty string only when the [nobr] is
    missing. *)
Theorem blank_nobr_raises_IndexError :
  (∀ row, has_cells row → tooltip_has_id row → nobr_blank row →
          process_review_row row = Raise IndexError)
  ∧ (∀ row d, process_review_row row = Ok d →
       (d !! py "Number of Pages" = Some []
        ↔ nested "field num_pages" (Bs4.has_name (py "nobr")) row = None)).
Proof.
  split; [apply process_review_row_blank_nobr|].
  intros row d Hd. pose proof (process_review_row_ok_complete row d Hd) as Hc.
  destruct (process_review_row_complete row Hc)
    as (id & ds & dr & np & Heq & _ & _ & _ & Hnp).
  rewrite Hd in Heq. injection Heq as ->.
  change (book_data _ _ _ _ _ _ np !! py "Number of Pages") with (Some np).
  destruct (nested "field num_pages" _ row) as [n|].
  - destruct Hnp as [_ Hne]. split; [intros [= ->]; done | done].
  - subst np. done.
Qed.

Lemma blank_nobr_raises_IndexError_witness :
  process_review_row blank_pages_row = Raise IndexError.
Proof.
  apply (proj1 blank_nobr_raises_IndexError).
  - repeat split; vm_compute; eauto.
  - intros d. vm_compute. discriminate.
  - eexists. split; vm_compute; reflexivity.
Defined.

(** C10 fails on a row with a blank [nobr] and no title cell: the search
    inside the missing title cell raises [AttributeError] first. *)
Lemma blank_nobr_without_title_raises_AttributeError :
  nobr_blank blank_pages_only_row
  ∧ process_review_row blank_pages_only_row = Raise AttributeError.
Proof. split; [eexists; split; vm_compute; reflexivity | reflexivity]. Qed.

(** ** Cookies *)

Lemma fill_cookie_dict_lookup (acc : gmap pystr pystr) cookies n :
  fill_cookie_dict acc cookies !! n
  = match last (passing n cookies) with
    | Some c => Some (Net.value c)
    | None => acc !! n
    end.
Proof.
  revert acc. induction cookies as [|c cs IH]; intros acc; [done|].
  cbn [fill_cookie_dict]. rewrite IH. unfold passing. cbn [List.filter].
  destruct (cookie_passes c) eqn:Ep; cbn [andb].
  - case_bool_decide as En; [|by rewrite lookup_insert_ne].
    rewrite last_cons. fold (passing n cs).
    destruct (last (passing n cs)); [done|]. subst n.
    by rewrite lookup_insert_eq.
  - done.
Qed.

Lemma session_cookies_fill cookies :
  session_cookies (Some cookies) = fill_cookie_dict ∅ cookies.
Proof. by destruct cookies. Qed.

Lemma cookie_passes_iff c :
  cookie_passes c = true
  ↔ Net.hostOnly c ≠ Some true
    ∨ startswith (py ".goodreads.com") (default [] (Net.domain c)) = true
    ∨ default [] (Net.domain c) = py "www.goodreads.com".
Proof.
  unfold cookie_passes. rewrite !orb_true_iff, negb_true_iff, bool_decide_eq_true.
  destruct (Net.hostOnly c) as [[]|]; simpl; intuition congruence.
Qed.

Lemma fetch_html_sent w user_id page cookies st :
  sent (fetch_html w user_id page cookies st).2
  = sent st ++ [Net.Request user_id page (session_cookies cookies)].
Proof. unfold fetch_html. by repeat case_match. Qed.

(** C5, as amended: the request that [fetch_html] sends carries, for each
    name, the value of the last entry of that name that passes the test of
    the script, and nothing else; an entry passes when it is not flagged
    host-only, or its domain begins with ".goodreads.com", or its domain is
    "www.goodreads.com". *)
Theorem cookies_attached_by_flag_or_domain (w : world) (user_id : pystr)
    (page : Z) (cookies : list Net.cookie) (st : state) :
  let jar := session_cookies (Some cookies) in
  sent (fetch_html w user_id page (Some cookies) st).2
  = sent st ++ [Net.Request user_id page jar]
  ∧ (∀ n, jar !! n = Net.value <$> last (passing n cookies))
  ∧ (∀ c, cookie_passes c = true
          ↔ Net.hostOnly c ≠ Some true
            ∨ startswith (py ".goodreads.com") (default [] (Net.domain c)) = true
            ∨ default [] (Net.domain c) = py "www.goodreads.com").
Proof.
  intros jar. split; [|split].
  - apply fetch_html_sent.
  - intros n. subst jar. rewrite session_cookies_fill, fill_cookie_dict_lookup.
    destruct (last (passing n cookies)); [done|]. apply lookup_empty.
  - apply cookie_passes_iff.
Qed.

(** C5 fails on an entry of another site that is not flagged host-only:
    its domain is outside the scope of the site, and the request carries
    it. *)
Lemma foreign_cookie_attached :
  in_cookie_scope (default [] (Net.domain foreign_cookie)) = false
  ∧ session_cookies (Some [foreign_cookie]) !! Net.name foreign_cookie
    = Some (Net.value foreign_cookie)
  ∧ ∀ w st,
      Net.jar <$> last (sent (fetch_html w (py "u") 1 (Some [foreign_cookie]) st).2)
      = Some {[ py "sid" := py "1" ]}.
Proof.
  split; [reflexivity|]. split; [reflexivity|].
  intros w st. by rewrite fetch_html_sent, last_snoc.
Qed.

(** ** The [csv] round trip *)

Section Csv_facts.
Import Csv.
Local Open Scope N_scope.

Context {S B : Type} (f : S → list pystr → result (step S B)).

Lemma rows_plain s r mid c t :
  (c =? LF) = false →
  rows f s r mid (c :: t)
  = let? r' := parse_process_char r (Some c) in rows f s r' true t.
Proof. intros H. cbn [rows]. by rewrite H. Qed.

Lemma parse_add_char_fits r c st :
  fits (field r ++ [c]) →
  parse_add_char r c st = Ok (Reader st (field r ++ [c]) (fields r)).
Proof.
  unfold fits, parse_add_char. rewrite length_app. cbn [length]. intros H.
  by rewrite (proj2 (N.leb_gt _ _)) by lia.
Qed.

Ltac reader_step :=
  unfold parse_process_char, start_field, parse_save_field,
    set_state, is_newline;
  cbn [state field fields bind N.eqb Pos.eqb QUOTE LF CR TAB orb].

Ltac add_char :=
  rewrite parse_add_char_fits
    by (unfold fits in *; cbn [field]; rewrite ?length_app in *;
        cbn [length] in *; lia);
  cbn [state field fields bind app].

Lemma not_special c :
  special c = false →
  (c =? TAB) = false ∧ (c =? QUOTE) = false ∧ (c =? CR) = false
  ∧ (c =? LF) = false.
Proof.
  unfold special. intros H.
  repeat (apply orb_false_elim in H as [H ?]). done.
Qed.

Ltac plain_char :=
  rewrite rows_plain by done; reader_step;
  repeat match goal with
         | H : (_ =? _) = false |- _ => rewrite H
         end;
  cbn [orb bind].

(** Inside a quoted field, up to the quote that closes it. *)
Lemma rows_in_quoted g s fld flds mid t :
  fits (fld ++ g) →
  rows f s (Reader IN_QUOTED_FIELD fld flds) mid (escape g ++ QUOTE :: t)
  = rows f s (Reader QUOTE_IN_QUOTED_FIELD (fld ++ g) flds) true t.
Proof.
  revert fld mid. induction g as [|c g IH]; intros fld mid Hfit.
  - rewrite app_nil_r. reflexivity.
  - assert (fits ((fld ++ [c]) ++ g)) by (by rewrite <- app_assoc).
    cbn [escape]. destruct (c =? QUOTE) eqn:Eq.
    + apply N.eqb_eq in Eq as ->. cbn [app].
      plain_char. plain_char. add_char.
      rewrite IH by done. by rewrite <- app_assoc.
    + cbn [app rows]. reader_step. rewrite Eq. add_char.
      destruct (c =? LF) eqn:El; reader_step; rewrite IH by done;
        by rewrite <- app_assoc.
Qed.

(** Inside a field without quotes. *)
Lemma rows_in_field g s fld flds t :
  existsb special g = false → fits (fld ++ g) →
  rows f s (Reader IN_FIELD fld flds) true (g ++ t)
  = rows f s (Reader IN_FIELD (fld ++ g) flds) true t.
Proof.
  revert fld. induction g as [|c g IH]; intros fld Hg Hfit.
  - by rewrite app_nil_r.
  - assert (fits ((fld ++ [c]) ++ g)) by (by rewrite <- app_assoc).
    cbn [existsb] in Hg. apply orb_false_elim in Hg as [Hc Hg].
    apply not_special in Hc as (? & ? & ? & ?). cbn [app]. plain_char.
    add_char. rewrite IH by done. by rewrite <- app_assoc.
Qed.

(** A field that holds as much as the reader takes, takes no more. *)
Lemma parse_add_char_full r c st :
  fits (field r) → ¬ fits (field r ++ [c]) →
  parse_add_char r c st = Raise CsvError.
Proof.
  unfold fits, parse_add_char. rewrite length_app. cbn [length].
  intros H1 H2. by rewrite (proj2 (N.leb_le _ _)) by lia.
Qed.

(** Inside a field without quotes that grows beyond the limit. *)
Lemma rows_in_field_overflow g s fld flds t :
  existsb special g = false → fits fld → ¬ fits (fld ++ g) →
  rows f s (Reader IN_FIELD fld flds) true (g ++ t) = Raise CsvError.
Proof.
  revert fld. induction g as [|c g IH]; intros fld Hg Hfld Hover.
  - by rewrite app_nil_r in Hover.
  - cbn [existsb] in Hg. apply orb_false_elim in Hg as [Hc Hg].
    apply not_special in Hc as (? & ? & ? & ?). cbn [app]. plain_char.
    destruct (decide (N.of_nat (length (fld ++ [c])) ≤ field_limit))
      as [Hfit|Hfull]; fold (fits (fld ++ [c])) in *.
    + add_char. apply IH; [done..|]. by rewrite <- app_assoc.
    + by rewrite parse_add_char_full.
Qed.

(** A field without quotes that is longer than the limit. *)
Lemma rows_field_overflow g s flds mid t :
  existsb special g = false → ¬ fits g →
  rows f s (Reader START_FIELD [] flds) mid (g ++ t) = Raise CsvError.
Proof.
  intros Hg Hover. destruct g as [|c g]; [by destruct Hover|].
  cbn [existsb] in Hg. apply orb_false_elim in Hg as [Hc Hg].
  apply not_special in Hc as (? & ? & ? & ?). cbn [app]. plain_char.
  assert (fits [c]) by (unfold fits, field_limit; cbn; lia).
  add_char. by apply rows_in_field_overflow.
Qed.

(** A field and the tab after it. *)
Lemma rows_field_tab g s flds mid t :
  fits g →
  rows f s (Reader START_FIELD [] flds) mid (write_field g ++ TAB :: t)
  = rows f s (Reader START_FIELD [] (flds ++ [g])) true t.
Proof.
  intros Hfit. unfold write_field. destruct (existsb special g) eqn:Hg.
  - cbn [app]. plain_char. rewrite <- app_assoc. cbn [app].
    rewrite rows_in_quoted by done. plain_char. reflexivity.
  - destruct g as [|c g].
    + cbn [app]. plain_char. reflexivity.
    + cbn [existsb] in Hg. apply orb_false_elim in Hg as [Hc Hg].
      apply not_special in Hc as (? & ? & ? & ?). cbn [app]. plain_char.
      add_char.
      rewrite rows_in_field by done. plain_char. reflexivity.
Qed.

(** The last field of a record and the end of its line. *)
Lemma rows_field_end w g s flds mid t :
  fits g →
  w = write_field g ∨ w = quoted g →
  rows f s (Reader START_FIELD [] flds) mid (w ++ LF :: t)
  = hand_out f s (flds ++ [g]) t.
Proof.
  intros Hfit.
  assert (Hq : ∀ mid, rows f s (Reader START_FIELD [] flds) mid (quoted g ++ LF :: t)
             = hand_out f s (flds ++ [g]) t).
  { intros mid'. unfold quoted. cbn [app]. plain_char.
    rewrite <- app_assoc. cbn [app]. rewrite rows_in_quoted by done.
    cbn [rows]. reader_step. reflexivity. }
  intros [->| ->]; [|apply Hq].
  unfold write_field. destruct (existsb special g) eqn:Hg; [apply Hq|].
  destruct g as [|c g].
  - cbn [app rows]. reader_step. reflexivity.
  - cbn [existsb] in Hg. apply orb_false_elim in Hg as [Hc Hg].
    apply not_special in Hc as (? & ? & ? & ?). cbn [app]. plain_char.
    add_char.
    rewrite rows_in_field by done. cbn [rows]. reader_step. reflexivity.
Qed.
End Csv_facts.

Section Csv_rows.
Import Csv.
Local Open Scope N_scope.
Context {S B : Type} (f : S → list pystr → result (step S B)).

(** The fields of a record from the start of a field to the end of the
    line. *)
Lemma rows_fields row s flds mid t :
  row ≠ [] → Forall fits row →
  rows f s (Reader START_FIELD [] flds) mid (join (write_field <$> row) ++ LF :: t)
  = hand_out f s (flds ++ row) t.
Proof.
  revert flds mid. induction row as [|g row IH]; intros flds mid Hne Hfit;
    [done|].
  apply Forall_cons in Hfit as [Hg Hfit].
  destruct row as [|g' row].
  - cbn [fmap list_fmap join]. apply rows_field_end; [done|by left].
  - change (join (write_field <$> g :: g' :: row))
      with (write_field g ++ TAB :: join (write_field <$> g' :: row)).
    rewrite <- app_assoc. cbn [app]. rewrite rows_field_tab by done.
    rewrite IH by done. by rewrite <- app_assoc.
Qed.

(** At the start of a record a code point that is no line break is read as
    at the start of a field. *)
Lemma rows_start_record c s mid t :
  is_newline c = false →
  rows f s parse_reset mid (c :: t)
  = rows f s (Reader START_FIELD [] []) mid (c :: t).
Proof. intros H. cbn [rows]. unfold parse_process_char. cbn. by rewrite H. Qed.

Lemma writerow_record_text row : writerow row = record_text row ++ [CR; LF].
Proof. destruct row as [|[|] []]; reflexivity. Qed.

Lemma write_field_head g :
  g ≠ [] → ∃ c w, write_field g = c :: w ∧ is_newline c = false.
Proof.
  intros Hg. unfold write_field. destruct (existsb special g) eqn:E.
  - by eexists _, _.
  - destruct g as [|c g]; [done|]. cbn [existsb] in E.
    apply orb_false_elim in E as [Hc _].
    unfold special in Hc.
    repeat (apply orb_false_elim in Hc as [Hc ?]).
    exists c, g. split; [done|]. unfold is_newline.
    by repeat match goal with H : (_ =? _) = false |- _ => rewrite H end.
Qed.

Lemma record_text_head row :
  row ≠ [] → ∃ c w, record_text row = c :: w ∧ is_newline c = false.
Proof.
  intros Hne. destruct row as [|g row]; [done|]. destruct row as [|g' row].
  - destruct g as [|c g]; [by eexists _, _|].
    apply (write_field_head (c :: g)). done.
  - destruct g as [|c g].
    + by eexists _, _.
    + change (record_text ((c :: g) :: g' :: row))
        with (write_field (c :: g) ++ TAB :: join (write_field <$> g' :: row)).
      destruct (write_field_head (c :: g)) as (c' & w & -> & Hc'); [done|].
      by eexists _, _.
Qed.

(** A record read back: the text of a record, the end of its line, and
    more text. *)
Lemma rows_record row s t :
  row ≠ [] → Forall fits row →
  rows f s parse_reset false (record_text row ++ LF :: t)
  = hand_out f s row t.
Proof.
  intros Hne Hfit. destruct (record_text_head row Hne) as (c & w & Hw & Hc).
  rewrite Hw. cbn [app]. rewrite rows_start_record by done.
  change (c :: w ++ LF :: t) with ((c :: w) ++ LF :: t). rewrite <- Hw.
  destruct row as [|g row]; [done|]. destruct g as [|c' g], row as [|g' row];
    try (apply (rows_fields _ _ []); done).
  apply (rows_field_end f (quoted []) [] s [] false t); [done|by right].
Qed.
End Csv_rows.

Section Newlines.
Import Csv.
Local Open Scope N_scope.

Lemma universal_newlines_head b c t :
  (c =? LF) = false → universal_newlines b (c :: t) = as_read (c :: t).
Proof. intros H. unfold as_read. cbn. by rewrite H. Qed.

Lemma universal_newlines_app_char b x c y :
  (c =? CR) = false → (c =? LF) = false →
  universal_newlines b (x ++ c :: y)
  = universal_newlines b x ++ c :: as_read y.
Proof.
  intros Hcr Hlf. revert b. induction x as [|a x IH]; intros b.
  - cbn. by rewrite Hcr, Hlf.
  - cbn. destruct (a =? CR); [by rewrite IH|].
    destruct ((a =? LF) && b); [by rewrite IH|]. by rewrite IH.
Qed.

Lemma universal_newlines_app_crlf b x y :
  universal_newlines b (x ++ CR :: LF :: y)
  = universal_newlines b x ++ LF :: as_read y.
Proof.
  revert b. induction x as [|a x IH]; intros b.
  - reflexivity.
  - cbn. destruct (a =? CR); [by rewrite IH|].
    destruct ((a =? LF) && b); [by rewrite IH|]. by rewrite IH.
Qed.

Lemma universal_newlines_escape b g :
  universal_newlines b (escape g) = escape (universal_newlines b g).
Proof.
  revert b. induction g as [|c g IH]; intros b; [done|].
  cbn [escape]. destruct (c =? QUOTE) eqn:Eq.
  - apply N.eqb_eq in Eq as ->. cbn. by rewrite IH.
  - cbn. destruct (c =? CR) eqn:Ecr; [cbn; by rewrite IH|].
    destruct ((c =? LF) && b); [by rewrite IH|].
    cbn. by rewrite Eq, IH.
Qed.

Lemma universal_newlines_plain b g :
  existsb special g = false → universal_newlines b g = g.
Proof.
  revert b. induction g as [|c g IH]; intros b Hg; [done|].
  cbn [existsb] in Hg. apply orb_false_elim in Hg as [Hc Hg].
  apply not_special in Hc as (_ & _ & Hcr & Hlf).
  cbn. rewrite Hcr, Hlf. cbn. by rewrite IH.
Qed.

Lemma special_universal_newlines b g :
  existsb special (universal_newlines b g) || b = existsb special g || b.
Proof.
  revert b. induction g as [|c g IH]; intros b; [done|].
  cbn [universal_newlines].
  destruct (c =? CR) eqn:Ecr.
  { apply N.eqb_eq in Ecr as ->. reflexivity. }
  destruct (c =? LF) eqn:Elf.
  { apply N.eqb_eq in Elf as ->. destruct b; cbn; [apply orb_true_r|done]. }
  cbn. specialize (IH false). rewrite !orb_false_r in IH. by rewrite IH.
Qed.

Lemma as_read_write_field g : as_read (write_field g) = write_field (as_read g).
Proof.
  pose proof (special_universal_newlines false g) as Hs.
  rewrite !orb_false_r in Hs. unfold write_field, as_read in *. rewrite Hs.
  destruct (existsb special g) eqn:E.
  - change (QUOTE :: escape g ++ [QUOTE]) with ([] ++ QUOTE :: (escape g ++ [QUOTE])).
    rewrite universal_newlines_app_char by done. cbn [app universal_newlines].
    unfold as_read. rewrite universal_newlines_app_char by done.
    by rewrite universal_newlines_escape.
  - by rewrite universal_newlines_plain.
Qed.

Lemma as_read_join row :
  as_read (join (write_field <$> row)) = join (write_field <$> (as_read <$> row)).
Proof.
  induction row as [|g row IH]; [done|]. destruct row as [|g' row].
  - apply as_read_write_field.
  - change (join (write_field <$> g :: g' :: row))
      with (write_field g ++ TAB :: join (write_field <$> g' :: row)).
    unfold as_read at 1. rewrite universal_newlines_app_char by done.
    fold (as_read (write_field g)). rewrite IH, as_read_write_field. done.
Qed.

Lemma as_read_nil g : as_read g = [] → g = [].
Proof.
  destruct g as [|c g]; [done|]. unfold as_read. cbn.
  destruct (c =? CR); [done|]. rewrite andb_false_r. done.
Qed.

Lemma as_read_record_text row :
  as_read (record_text row) = record_text (as_read <$> row).
Proof.
  destruct row as [|g row]; [done|].
  destruct g as [|c g].
  - destruct row; [done|]. apply (as_read_join ([] :: _ :: _)).
  - destruct (as_read (c :: g)) as [|c' g'] eqn:E.
    { by apply as_read_nil in E. }
    change (record_text ((c :: g) :: row))
      with (join (write_field <$> (c :: g) :: row)).
    rewrite as_read_join. cbn [fmap list_fmap]. by rewrite E.
Qed.

(** A written record and the text after it, as read back. *)
Lemma as_read_writerow row t :
  as_read (writerow row ++ t)
  = record_text (as_read <$> row) ++ LF :: as_read t.
Proof.
  rewrite writerow_record_text, <- app_assoc. cbn [app].
  unfold as_read at 1. rewrite universal_newlines_app_crlf.
  fold (as_read (record_text row)). by rewrite as_read_record_text.
Qed.

Lemma length_universal_newlines b g :
  (length (universal_newlines b g) ≤ length g)%nat.
Proof.
  revert b. induction g as [|c g IH]; intros b; [done|].
  cbn [universal_newlines].
  destruct (c =? CR); [cbn; specialize (IH true); lia|].
  destruct ((c =? LF) && b); cbn; specialize (IH false); lia.
Qed.

Lemma fits_as_read g : fits g → fits (as_read g).
Proof.
  unfold fits, as_read. pose proof (length_universal_newlines false g). lia.
Qed.

Context {S B : Type} (f : S → list pystr → result (step S B)).

(** The round trip of one record: written by the writer and read back
    through a text file, it is handed out with its line breaks as LF. *)
Lemma rows_writerow row s t :
  row ≠ [] → Forall fits row →
  rows f s parse_reset false (as_read (writerow row ++ t))
  = hand_out f s (as_read <$> row) (as_read t).
Proof.
  intros Hne Hfit. rewrite as_read_writerow. apply rows_record.
  - by destruct row.
  - apply Forall_fmap. eapply Forall_impl; [done|]. apply fits_as_read.
Qed.
End Newlines.

(** ** Reasoning about runs *)

Lemma wp_ret {A} (a : A) Q E st : wp (ret a) Q E st ↔ Q a st.
Proof. done. Qed.

Lemma wp_lift {A} (r : result A) Q E st :
  wp (lift r) Q E st ↔ match r with Ok a => Q a st | Raise e => E e st end.
Proof. unfold wp, lift. by destruct r. Qed.

Lemma wp_and_then {A B} (m : M A) (k : A → M B) Q E st :
  wp (and_then m k) Q E st ↔ wp m (λ a st', wp (k a) Q E st') E st.
Proof. unfold wp, and_then. by destruct (m st) as [[a|e] st']. Qed.

Lemma wp_try_except {A} (body : M A) caught handler Q E st :
  wp (try_except body caught handler) Q E st
  ↔ wp body Q (λ e st', if caught e then wp (handler e) Q E st' else E e st') st.
Proof.
  unfold wp, try_except. destruct (body st) as [[a|e] st']; [done|].
  by destruct (caught e).
Qed.

Lemma wp_mono {A} (m : M A) (Q Q' : A → state → Prop) (E E' : exn → state → Prop) st :
  (∀ a st', Q a st' → Q' a st') → (∀ e st', E e st' → E' e st') →
  wp m Q E st → wp m Q' E' st.
Proof. unfold wp. destruct (m st) as [[a|e] st']; eauto. Qed.

Lemma wp_print msg Q E st : wp (print msg) Q E st ↔ Q tt (printed msg st).
Proof. done. Qed.

Lemma wp_sleep n Q E st : wp (sleep n) Q E st ↔ Q tt (slept_more n st).
Proof. done. Qed.

Lemma wp_open_w path Q E st :
  wp (open_w path) Q E st ↔ Q tt (opened_as path ForWriting (with_file path [] st)).
Proof. done. Qed.

Lemma wp_write path text Q E st :
  wp (write path text) Q E st
  ↔ Q tt (with_file path (default [] (files st !! path) ++ text) st).
Proof. done. Qed.

Lemma wp_read path Q E st :
  wp (read path) Q E st
  ↔ match files st !! path with
    | Some text => Q (as_read text) (opened_as path ForReading st)
    | None => E FileNotFoundError st
    end.
Proof. unfold wp, read. by destruct (files st !! path). Qed.

Lemma wp_fetch_html w user_id page cookies Q E st :
  wp (fetch_html w user_id page cookies) Q E st
  ↔ let st' := requested (Net.Request user_id page (session_cookies cookies)) st in
    match server w (length (sent st)) with
    | Net.Response status_code soup =>
        if is_error status_code then E (HTTPError status_code page) st'
        else Q soup st'
    | Net.Unreachable => E ConnectionError st'
    | Net.TimedOut => E ReadTimeout st'
    end.
Proof.
  unfold wp, fetch_html, is_error. cbv zeta.
  destruct (server w (length (sent st))) as [code soup| |]; [|done..].
  by destruct ((400 <=? code) && (code <? 600))%N.
Qed.

(** What [wp] says of a run, read off its outcome. *)
Lemma wp_run {A} (m : M A) Q E st :
  wp m Q E st →
  match (m st).1 with Ok a => Q a (m st).2 | Raise e => E e (m st).2 end.
Proof. unfold wp. by destruct (m st) as [[a|e] st']. Qed.

(** ** The rows of a page *)

Lemma bind_raise {A B} (m : result A) (f : A → result B) e :
  bind m f = Raise e → m = Raise e ∨ ∃ a, m = Ok a ∧ f a = Raise e.
Proof. destruct m; simpl; [eauto | intros [= ->]; eauto]. Qed.

Lemma find_in_raises p x e : Bs4.find_in p x = Raise e → e = AttributeError.
Proof. destruct x; simpl; congruence. Qed.

Lemma getitem_raises n k e : Bs4.getitem n k = Raise e → e = KeyError.
Proof. destruct n; simpl; [|case_match]; congruence. Qed.

Lemma first_raises l e : first l = Raise e → e = IndexError.
Proof. destruct l; simpl; congruence. Qed.

Lemma convert_date_raises s e : convert_date s = Raise e → False.
Proof. destruct (convert_date_total s) as [r ->]. done. Qed.

(** The exceptions of [process_review_row]. *)
Lemma process_review_row_raises row e :
  process_review_row row = Raise e →
  e = AttributeError ∨ e = KeyError ∨ e = IndexError.
Proof.
  unfold process_review_row. intros H.
  repeat match type of H with
  | bind _ _ = Raise _ =>
      apply bind_raise in H as [H|(? & _ & H)]
  | Bs4.find_in _ _ = Raise _ => apply find_in_raises in H
  | convert_date _ = Raise _ => by apply convert_date_raises in H
  | first _ = Raise _ => apply first_raises in H
  | Bs4.getitem _ _ = Raise _ => apply getitem_raises in H
  | match ?x with _ => _ end = Raise _ => destruct x eqn:?
  | Ok _ = Raise _ => discriminate H
  | Raise _ = Raise _ => injection H as <-
  end; eauto.
Qed.

Lemma process_review_row_not_transport row e :
  process_review_row row = Raise e → transport e = false.
Proof. intros H. by apply process_review_row_raises in H as [->|[->| ->]]. Qed.

(** A record that [process_review_row] returns has the seven labels. *)
Lemma dict_to_list_extracted d :
  extracted d → Csv.dict_to_list fieldnames d = Ok (values_of d).
Proof.
  intros [row Hd]. pose proof (process_review_row_ok_complete row d Hd) as Hc.
  destruct (process_review_row_complete row Hc) as (? & ? & ? & ? & Heq & _).
  rewrite Hd in Heq. injection Heq as ->. apply dict_to_list_book_data.
Qed.

Lemma lines_of_app ds1 ds2 : lines_of (ds1 ++ ds2) = lines_of ds1 ++ lines_of ds2.
Proof. unfold lines_of. by rewrite fmap_app, concat_app. Qed.

(** The rows of a page, whatever they are: the records of the rows before
    the first one that raises are appended to the file, and nothing else
    changes. *)
Lemma wp_process_rows output_file review_rows content
    (Q : unit → state → Prop) (E : exn → state → Prop) st :
  files st !! output_file = Some content →
  (∀ ds, Forall2 (λ row d, process_review_row row = Ok d) review_rows ds →
         Q tt (with_file output_file (content ++ lines_of ds) st)) →
  (∀ ds e, Forall (extracted_from review_rows) ds → transport e = false →
           E e (with_file output_file (content ++ lines_of ds) st)) →
  wp (process_rows output_file review_rows) Q E st.
Proof.
  revert content st Q E.
  induction review_rows as [|row rows IH]; intros content st Q E Hf HQ HE.
  - cbn [process_rows]. apply wp_ret. specialize (HQ [] ltac:(constructor)).
    unfold lines_of in HQ. simpl in HQ.
    by rewrite app_nil_r, with_file_id in HQ.
  - cbn [process_rows]. apply wp_and_then, wp_lift.
    destruct (process_review_row row) as [d|e] eqn:Hd.
    + apply wp_and_then, wp_lift.
      rewrite dict_to_list_extracted by (by exists row).
      apply wp_and_then, wp_write. rewrite Hf. cbn [default from_option id].
      eapply (IH (content ++ Csv.writerow (values_of d))).
      * apply files_with_file.
      * intros ds Hds. rewrite with_file_with_file, <- app_assoc.
        rewrite <- lines_of_cons. apply HQ. by constructor.
      * intros ds e Hds He. rewrite with_file_with_file, <- app_assoc.
        rewrite <- lines_of_cons. apply HE; [|done]. constructor.
        { exists row. split; [left|done]. }
        eapply Forall_impl; [done|]. intros d' (row' & ? & ?).
        exists row'. split; [by right|done].
    + specialize (HE [] e ltac:(constructor)
                    (process_review_row_not_transport _ _ Hd)).
      unfold lines_of in HE. simpl in HE.
      by rewrite app_nil_r, with_file_id in HE.
Qed.

(** ** The output file *)

Lemma wp_total_pages_of soup (Q : Z → state → Prop) (E : exn → state → Prop) st :
  (∀ n, Q n st) → Q 1%Z (printed FirstPageOnly st) →
  (∀ e, transport e = false → E e st) →
  wp (total_pages_of soup) Q E st.
Proof.
  intros HQ H1 HE. unfold total_pages_of. case_match.
  - apply wp_lift. destruct (second_to_last _) as [a|e] eqn:Ea; cbn [bind].
    + unfold to_int. destruct (Py.int _); [apply HQ | by apply HE].
    + apply HE. unfold second_to_last in Ea.
      by repeat case_match; simplify_eq.
  - by apply wp_and_then, wp_print, wp_ret.
Qed.

Lemma total_pages_of_cases soup (st : state) :
  (∃ n, ∀ st', total_pages_of soup st' = (Ok n, st'))
  ∨ (∀ st', total_pages_of soup st' = (Ok 1%Z, printed FirstPageOnly st'))
  ∨ (∃ e, transport e = false ∧ ∀ st', total_pages_of soup st' = (Raise e, st')).
Proof.
  unfold total_pages_of. destruct (Bs4.find _ soup) as [p|]; [|by right; left].
  unfold lift. destruct (second_to_last _) as [a|e] eqn:Ea; cbn [bind].
  - unfold to_int. destruct (Py.int _) as [n|]; [left; eauto|].
    right; right. by exists ValueError.
  - right; right. exists e. split; [|done]. unfold second_to_last in Ea.
    by repeat case_match; simplify_eq.
Qed.

Lemma total_pages_of_result soup (st st' : state) :
  (total_pages_of soup st).1 = (total_pages_of soup st').1.
Proof.
  destruct (total_pages_of_cases soup st) as [[n H]|[H|(e & _ & H)]];
    by rewrite !H.
Qed.

(** A property of the state that every step of the page loop keeps is
    kept by the loop, whether it ends or raises. *)
Lemma process_pages_invariant w user_id output_file cookies total_pages
    (I : state → Prop) :
  (∀ p st, I st → I (printed (ProcessingPage p total_pages) st)) →
  (∀ p st, I st →
     I (requested (Net.Request user_id p (session_cookies cookies)) st)) →
  (∀ st, I st → I (slept_more 1 st)) →
  (∀ rows st, I st → wp (process_rows output_file rows) (λ _, I) (λ _, I) st) →
  ∀ pages st, I st →
    wp (process_pages w user_id output_file cookies total_pages pages)
      (λ _, I) (λ _, I) st.
Proof.
  intros Hprint Hreq Hsleep Hrows pages.
  induction pages as [|p pages IH]; intros st HI; [done|].
  cbn [process_pages]. apply wp_and_then, wp_print.
  apply wp_and_then, wp_fetch_html. cbv zeta.
  specialize (Hprint p st HI).
  specialize (Hreq p _ Hprint).
  destruct (server w _) as [code soup| |]; [|done..].
  destruct (is_error code); [done|].
  apply wp_and_then. eapply wp_mono; [| |by apply Hrows]; [|done].
  intros [] st1 H1. apply wp_and_then, wp_sleep. by apply IH, Hsleep.
Qed.

Lemma well_formed_printed output_file msg st :
  msg ≠ DateReadAdvisory →
  well_formed_output output_file st →
  well_formed_output output_file (printed msg st).
Proof.
  intros Hm (Hf & Ho & Ha). split; [done|]. split; [done|].
  simpl. rewrite elem_of_app, list_elem_of_singleton. intros [?|?]; done.
Qed.

Lemma well_formed_rows output_file rows st :
  well_formed_output output_file st →
  wp (process_rows output_file rows)
    (λ _, well_formed_output output_file)
    (λ _, well_formed_output output_file) st.
Proof.
  intros ((ds & Hf & Hds) & Ho & Ha).
  assert (Hgoal : ∀ ds', Forall (extracted_from rows) ds' →
            well_formed_output output_file
              (with_file output_file ((header ++ lines_of ds) ++ lines_of ds') st)).
  { intros ds' Hds'. split; [|done]. exists (ds ++ ds'). split.
    - by rewrite files_with_file, lines_of_app, app_assoc.
    - apply Forall_app. split; [done|].
      eapply Forall_impl; [done|]. intros d (row & _ & ?). by exists row. }
  apply (wp_process_rows _ _ (header ++ lines_of ds)); [done| |].
  - intros ds' Hds'. apply Hgoal.
    clear -Hds'. induction Hds' as [|row d rows ds' Hd _ IH]; constructor.
    + exists row. split; [left|done].
    + eapply Forall_impl; [done|]. intros d' (row' & ? & ?).
      exists row'. split; [by right|done].
  - intros ds' e Hds' _. by apply Hgoal.
Qed.

Lemma well_formed_pages w user_id output_file cookies total_pages pages st :
  well_formed_output output_file st →
  wp (process_pages w user_id output_file cookies total_pages pages)
    (λ _, well_formed_output output_file)
    (λ _, well_formed_output output_file) st.
Proof.
  apply process_pages_invariant.
  - intros p st' H'. by apply well_formed_printed.
  - done.
  - done.
  - intros rows st' H'. by apply well_formed_rows.
Qed.

(** Every run of the download leaves the output well formed. *)
Lemma download_well_formed w user_id output_file fs :
  wp (download_and_process_goodreads_data w user_id output_file)
    (λ _, well_formed_output output_file)
    (λ _, well_formed_output output_file) (initial fs).
Proof.
  unfold download_and_process_goodreads_data.
  assert (Hstart : ∀ cookies (st : state),
    opened st = [] → DateReadAdvisory ∉ stdout st →
    wp (open_w output_file ;;;
        write output_file (Csv.writerow fieldnames) ;;;
        try_except
          (let! soup := fetch_html w user_id 1 cookies in
           let! total_pages := total_pages_of soup in
           process_pages w user_id output_file cookies total_pages
             (range1 total_pages) ;;;
           print (SuccessfullyProcessed total_pages) ;;;
           ret true)
          is_HTTPError
          (λ e, print (ErrorDownloading e) ;;; print LikelyCauses ;;; ret false))
      (λ _, well_formed_output output_file)
      (λ _, well_formed_output output_file) st).
  { intros cookies st Ho Ha.
    apply wp_and_then, wp_open_w, wp_and_then, wp_write.
    set (st1 := with_file _ _ _).
    assert (H1 : well_formed_output output_file st1).
    { subst st1. split; [|split]; [|by simpl; rewrite Ho|done].
      exists []. split; [|constructor].
      unfold with_file, opened_as. cbn [files].
      rewrite !lookup_insert_eq. change (lines_of []) with (@nil N).
      by rewrite app_nil_r. }
    clearbody st1. apply wp_try_except.
    assert (Hhandler : ∀ e st', well_formed_output output_file st' →
      if is_HTTPError e
      then wp (print (ErrorDownloading e) ;;; print LikelyCauses ;;; ret false)
             (λ _, well_formed_output output_file)
             (λ _, well_formed_output output_file) st'
      else well_formed_output output_file st').
    { intros e st' H'. destruct (is_HTTPError e); [|done].
      apply wp_and_then, wp_print, wp_and_then, wp_print, wp_ret.
      by do 2 (apply well_formed_printed; [done|]). }
    assert (Hloop : ∀ n st', well_formed_output output_file st' →
      wp (process_pages w user_id output_file cookies n (range1 n) ;;;
          print (SuccessfullyProcessed n) ;;; ret true)
        (λ _, well_formed_output output_file)
        (λ e st'', if is_HTTPError e
           then wp (print (ErrorDownloading e) ;;; print LikelyCauses ;;; ret false)
                  (λ _, well_formed_output output_file)
                  (λ _, well_formed_output output_file) st''
           else well_formed_output output_file st'') st').
    { intros n st' H'. apply wp_and_then.
      eapply wp_mono; [| |by apply well_formed_pages].
      - intros [] st'' H''. apply wp_and_then, wp_print, wp_ret.
        by apply well_formed_printed.
      - intros e st'' H''. by apply Hhandler. }
    apply wp_and_then, wp_fetch_html. cbv zeta.
    assert (H2 : well_formed_output output_file
      (requested (Net.Request user_id 1 (session_cookies cookies)) st1))
      by done.
    destruct (server w _) as [code soup| |]; [|by apply Hhandler..].
    destruct (is_error code); [by apply Hhandler|].
    apply wp_and_then, wp_total_pages_of.
    - intros n. by apply Hloop.
    - by apply Hloop, well_formed_printed.
    - intros e _. by apply Hhandler. }
  apply wp_and_then. destruct (cookies_json w).
  - apply wp_ret, Hstart; [done|]. simpl. apply not_elem_of_nil.
  - apply wp_and_then, wp_print, wp_ret, Hstart; [done|]. simpl.
    rewrite list_elem_of_singleton. done.
  - apply wp_ret, Hstart; [done|]. simpl. apply not_elem_of_nil.
Qed.

(** ** Reading the file back *)

Lemma forallb_is_space_universal_newlines b s :
  forallb Py.is_space (Csv.universal_newlines b s) = forallb Py.is_space s.
Proof.
  revert b. induction s as [|c s IH]; intros b; [done|]. cbn.
  destruct (c =? Csv.CR)%N eqn:Ecr.
  { apply N.eqb_eq in Ecr as ->. cbn. apply IH. }
  destruct (c =? Csv.LF)%N eqn:Elf.
  { apply N.eqb_eq in Elf as ->. destruct b; cbn; apply IH. }
  cbn. by rewrite IH.
Qed.

Lemma strip_as_read_nil s : Py.strip (as_read s) = [] ↔ Py.strip s = [].
Proof.
  rewrite !strip_nil_iff. unfold as_read.
  by rewrite forallb_is_space_universal_newlines.
Qed.

Lemma as_read_fieldnames : as_read <$> fieldnames = fieldnames.
Proof. reflexivity. Qed.

Lemma values_of_seven d :
  values_of d
  = [default [] (d !! py "Goodreads ID"); default [] (d !! py "Book Title");
     default [] (d !! py "Date Started"); date_read_of d;
     default [] (d !! py "Author"); default [] (d !! py "Average Rating");
     default [] (d !! py "Number of Pages")].
Proof. reflexivity. Qed.

Lemma date_read_step_seven a b c dd e f g :
  date_read_step (Some fieldnames) [a; b; c; dd; e; f; g]
  = match Py.strip dd with
    | [] => Ok (Csv.Continue (Some fieldnames))
    | _ => Ok (Csv.Stop tt)
    end.
Proof.
  unfold date_read_step.
  assert (H : Csv.row_dict fieldnames [a; b; c; dd; e; f; g] !! py "Date Read"
              = Some (Some dd)) by (vm_compute; reflexivity).
  by rewrite H.
Qed.

Lemma rows_end {S B} (f : S → list pystr → result (Csv.step S B)) s :
  Csv.rows f s Csv.parse_reset false [] = Ok (Csv.Continue s).
Proof. reflexivity. Qed.

(** The scan of the column over the lines of the records. *)
Lemma scan_lines ds :
  Forall readable ds →
  Csv.rows date_read_step (Some fieldnames) Csv.parse_reset false
    (as_read (lines_of ds))
  = Ok (if decide (Forall empty_date_read ds)
        then Csv.Continue (Some fieldnames) else Csv.Stop tt).
Proof.
  induction 1 as [|d ds Hd Hds IH].
  - rewrite decide_True by constructor. reflexivity.
  - rewrite lines_of_cons, rows_writerow by done.
    unfold hand_out. rewrite values_of_seven. cbn [fmap list_fmap].
    rewrite date_read_step_seven.
    destruct (Py.strip (as_read (date_read_of d))) eqn:E.
    + apply (proj1 (strip_as_read_nil _)) in E. cbn [bind]. rewrite IH.
      destruct (decide (Forall empty_date_read ds)).
      * rewrite decide_True; [done|]. apply Forall_cons. by split.
      * rewrite decide_False; [done|]. rewrite Forall_cons. tauto.
    + cbn [bind]. rewrite decide_False; [done|].
      rewrite Forall_cons. intros [He _].
      apply (proj2 (strip_as_read_nil _)) in He. congruence.
Qed.

(** The check of [main] on a file made of the header and the lines of
    records. *)
Lemma fits_fieldnames : Forall fits fieldnames.
Proof. repeat constructor; by vm_compute. Qed.

Lemma has_any_date_read_lines ds :
  Forall readable ds →
  has_any_date_read (as_read (header ++ lines_of ds))
  = Ok (bool_decide (¬ Forall empty_date_read ds)).
Proof.
  intros Hds. unfold has_any_date_read, header.
  rewrite rows_writerow by (done || apply fits_fieldnames). unfold hand_out.
  rewrite as_read_fieldnames. cbn [date_read_step bind].
  rewrite scan_lines by done. cbn [bind].
  destruct (decide (Forall empty_date_read ds)).
  - by rewrite bool_decide_eq_false_2 by eauto.
  - by rewrite bool_decide_eq_true_2.
Qed.

(** All the records of such a file, read back. *)
Lemma read_records_lines_from acc ds :
  Forall readable ds →
  Csv.rows collect acc Csv.parse_reset false (as_read (lines_of ds))
  = Ok (Csv.Continue (acc ++ (fmap as_read ∘ values_of <$> ds))).
Proof.
  intros Hds. revert acc. induction Hds as [|d ds Hd Hds IH]; intros acc.
  - by rewrite app_nil_r.
  - rewrite lines_of_cons, rows_writerow by done.
    unfold hand_out, collect at 1. cbn [bind]. rewrite IH.
    by rewrite <- app_assoc.
Qed.

Lemma read_records_lines ds :
  Forall readable ds →
  read_records (as_read (header ++ lines_of ds))
  = Ok (fieldnames :: (fmap as_read ∘ values_of <$> ds)).
Proof.
  intros Hds. unfold read_records, header.
  rewrite rows_writerow by (done || apply fits_fieldnames).
  unfold hand_out, collect at 1. cbn [bind].
  rewrite read_records_lines_from by done. by rewrite as_read_fieldnames.
Qed.

(** ** The check of the column Date Read *)

Lemma and_then_run {A B} (m : M A) (k : A → M B) st :
  and_then m k st
  = match m st with
    | (Ok a, st') => k a st'
    | (Raise e, st') => (Raise e, st')
    end.
Proof. reflexivity. Qed.

(** [main] once the download is over. *)
Lemma main_after_download w user_id output fs :
  let r := download_and_process_goodreads_data w user_id output (initial fs) in
  match fst r with
  | Ok true =>
      ∃ ds, Forall extracted ds
        ∧ files (snd r) !! output = Some (header ++ lines_of ds)
        ∧ opened (snd r) = [(output, ForWriting)]
        ∧ (DateReadAdvisory ∉ stdout (snd r))
        ∧ main w user_id output (initial fs)
          = (Ok tt,
             checked (has_any_date_read (as_read (header ++ lines_of ds)))
               (opened_as output ForReading (printed (DataWritten output) (snd r))))
  | Ok false =>
      main w user_id output (initial fs) = (Ok tt, printed FailedToProcess (snd r))
  | Raise e => main w user_id output (initial fs) = (Raise e, snd r)
  end.
Proof.
  cbv zeta. pose proof (download_well_formed w user_id output fs) as Hwf.
  apply wp_run in Hwf. unfold main. rewrite !and_then_run.
  destruct (download_and_process_goodreads_data _ _ _ _) as [[[|]|e] st1];
    cbn [fst snd] in *; [|reflexivity..].
  destruct Hwf as ((ds & Hf & Hds) & Ho & Ha).
  exists ds. repeat (split; [done|]).
  rewrite and_then_run. unfold print at 1.
  fold (printed (DataWritten output) st1).
  unfold try_except. rewrite and_then_run. unfold read.
  cbn [files printed]. rewrite Hf.
  rewrite and_then_run. unfold lift, as_read.
  by destruct (has_any_date_read _) as [[|]|e].
Qed.

(** What the check prints when the reader takes every value of the
    file. *)
Lemma checked_readable ds st :
  Forall readable ds →
  checked (has_any_date_read (as_read (header ++ lines_of ds))) st
  = (if bool_decide (Forall empty_date_read ds)
     then printed DateReadAdvisory else id) st.
Proof.
  intros Hds. rewrite has_any_date_read_lines by done.
  destruct (decide (Forall empty_date_read ds)).
  - rewrite bool_decide_eq_false_2 by eauto.
    by rewrite bool_decide_eq_true_2.
  - rewrite bool_decide_eq_true_2 by done.
    by rewrite bool_decide_eq_false_2.
Qed.

Lemma files_checked r st : files (checked r st) = files st.
Proof. by destruct r as [[|]|e]. Qed.

Lemma sent_checked r st : sent (checked r st) = sent st.
Proof. by destruct r as [[|]|e]. Qed.

Lemma opened_checked r st : opened (checked r st) = opened st.
Proof. by destruct r as [[|]|e]. Qed.

Lemma slept_checked r st : slept (checked r st) = slept st.
Proof. by destruct r as [[|]|e]. Qed.

(** The files after [main] are the files after the download. *)
Lemma main_files w user_id output fs :
  files (main w user_id output (initial fs)).2
  = files (download_and_process_goodreads_data w user_id output (initial fs)).2.
Proof.
  pose proof (main_after_download w user_id output fs) as H. cbv zeta in H.
  destruct (download_and_process_goodreads_data _ _ _ _) as [[[|]|e] st1];
    cbn [fst snd] in *.
  - destruct H as (ds & _ & _ & _ & _ & ->). cbn [snd].
    by rewrite files_checked.
  - by rewrite H.
  - by rewrite H.
Qed.

(** ** The records of a run *)


Lemma extracted_before_raise rows : Forall extracted (records_before_raise rows).
Proof.
  induction rows as [|row rows IH]; [constructor|]. cbn [records_before_raise].
  destruct (process_review_row row) as [d|e] eqn:Hd; [|constructor].
  constructor; [by exists row|done].
Qed.

Lemma extracted_records_from w call m : Forall extracted (records_from w call m).
Proof.
  revert call. induction m as [|m IH]; intros call; [constructor|].
  cbn [records_from]. destruct (server w call) as [code soup| |];
    [|constructor..].
  destruct (is_error code); [constructor|]. apply Forall_app. split.
  - apply extracted_before_raise.
  - destruct (all_return _); [apply IH|constructor].
Qed.

Lemma extracted_records_of_run w : Forall extracted (records_of_run w).
Proof.
  unfold records_of_run. destruct (server w 0) as [code soup| |];
    [|constructor..].
  destruct (is_error code); [constructor|].
  destruct (total_pages_of _ _).1; [apply extracted_records_from|constructor].
Qed.

(** The rows of a page: the records of the rows before the first one that
    raises go to the file, and the loop returns when no row raises. *)
Lemma process_rows_records output_file rows content st :
  files st !! output_file = Some content →
  ∃ r, process_rows output_file rows st
       = (r, with_file output_file
               (content ++ lines_of (records_before_raise rows)) st)
       ∧ (if all_return rows then r = Ok tt else ∃ e, r = Raise e).
Proof.
  revert content st. induction rows as [|row rows IH]; intros content st Hf.
  - exists (Ok tt). split; [|done]. cbn [process_rows records_before_raise].
    change (lines_of []) with (@nil N). by rewrite app_nil_r, with_file_id.
  - cbn [process_rows records_before_raise all_return forallb].
    rewrite and_then_run. unfold lift at 1.
    destruct (process_review_row row) as [d|e] eqn:Hd.
    + rewrite and_then_run. unfold lift at 1.
      rewrite dict_to_list_extracted by (by exists row).
      rewrite and_then_run, (write_with_file _ _ content) by done.
      destruct (IH (content ++ Csv.writerow (values_of d))
                  (with_file output_file (content ++ Csv.writerow (values_of d)) st))
        as (r & Hr & Hok); [apply files_with_file|].
      exists r. split; [|done].
      by rewrite Hr, with_file_with_file, <- app_assoc, <- lines_of_cons.
    + exists (Raise e). split; [|by exists e].
      change (lines_of []) with (@nil N). by rewrite app_nil_r, with_file_id.
Qed.

(** The loop over the pages: what it leaves in the file. *)
Lemma process_pages_records w user_id output_file cookies total_pages pages
    content st :
  files st !! output_file = Some content →
  files (process_pages w user_id output_file cookies total_pages pages st).2
    !! output_file
  = Some (content ++ lines_of (records_from w (length (sent st)) (length pages))).
Proof.
  revert content st. induction pages as [|page pages IH]; intros content st Hf.
  { cbn. change (lines_of []) with (@nil N). by rewrite app_nil_r. }
  cbn [process_pages length records_from]. rewrite and_then_run.
  unfold print at 1. rewrite and_then_run. unfold fetch_html at 1.
  cbn [stdout sent files opened slept].
  assert (Hnil : content ++ lines_of [] = content).
  { change (lines_of []) with (@nil N). by rewrite app_nil_r. }
  destruct (server w (length (sent st))) as [code soup| |];
    [|by rewrite Hnil..].
  fold (is_error code). destruct (is_error code); [by rewrite Hnil|].
  rewrite and_then_run.
  match goal with
  | |- context [process_rows _ _ ?s] =>
      destruct (process_rows_records output_file
                  (Bs4.find_all review_row soup) content s Hf)
        as (r & Hr & Hok); rewrite Hr
  end.
  rewrite lines_of_app, app_assoc.
  destruct (all_return _).
  - subst r. rewrite and_then_run. unfold sleep at 1.
    match goal with
    | |- context [process_pages _ _ _ _ _ pages ?s] =>
        rewrite (IH (content ++ lines_of
                       (records_before_raise (Bs4.find_all review_row soup))) s)
    end.
    + cbn [sent with_file]. rewrite length_app. cbn [length].
      by rewrite Nat.add_1_r.
    + cbn [files with_file]. apply lookup_insert_eq.
  - destruct Hok as [e ->]. cbn [snd files with_file].
    change (lines_of []) with (@nil N). rewrite app_nil_r.
    apply lookup_insert_eq.
Qed.

Lemma length_range1 n : length (range1 n) = Z.to_nat n.
Proof. unfold range1. by rewrite length_fmap, length_seq. Qed.

Lemma files_try_except {A} (body : M A) caught (e1 : exn → message)
    (e2 : message) (b : A) st :
  files (try_except body caught
           (λ e, print (e1 e) ;;; print e2 ;;; ret b) st).2
  = files (body st).2.
Proof.
  unfold try_except. destruct (body st) as [[a|e] st']; [done|].
  by destruct (caught e).
Qed.

(** The file after the download holds the header and the lines of the
    records of the run. *)
Lemma download_records w user_id output fs :
  files (download_and_process_goodreads_data w user_id output (initial fs)).2
    !! output
  = Some (header ++ lines_of (records_of_run w)).
Proof.
  assert (Hrun : ∀ cookies st, sent st = [] →
    files (download_with w user_id output cookies st).2 !! output
    = Some (header ++ lines_of (records_of_run w))).
  { intros cookies st Hsent. unfold download_with.
    rewrite and_then_run. unfold open_w at 1. cbv beta iota.
    rewrite and_then_run. unfold write at 1. cbv beta iota.
    cbn [stdout sent files opened slept]. rewrite lookup_insert_eq.
    cbn [default from_option id app]. rewrite insert_insert_eq.
    fold header. rewrite files_try_except, and_then_run.
    unfold fetch_html at 1. cbn [stdout sent files opened slept].
    rewrite Hsent. cbn [length]. unfold records_of_run.
    assert (Hnil : header ++ lines_of [] = header).
    { change (lines_of []) with (@nil N). by rewrite app_nil_r. }
    destruct (server w 0) as [code soup| |];
      [|cbn [snd files]; by rewrite lookup_insert_eq, Hnil..].
    fold (is_error code). destruct (is_error code).
    { cbn [snd files]. by rewrite lookup_insert_eq, Hnil. }
    rewrite and_then_run.
    match goal with
    | |- context [total_pages_of soup ?s] =>
        rewrite (total_pages_of_result soup (State [] [] ∅ [] 0) s);
        pose proof (total_pages_of_cases soup s) as Hcases
    end.
    destruct Hcases as [[n H]|[H|(e & _ & H)]]; rewrite H; cbn [fst snd].
    - rewrite and_then_run.
      match goal with
      | |- context [process_pages _ _ _ _ _ _ ?s] =>
          pose proof (process_pages_records w user_id output cookies n
                        (range1 n) header s) as Hp;
          destruct (process_pages w user_id output cookies n (range1 n) s)
            as [[[]|e] s']
      end; unfold and_then, print, ret; cbn [snd files printed] in *;
        (rewrite Hp; [|cbn [files]; apply lookup_insert_eq]);
        cbn [sent length app]; by rewrite length_range1.
    - rewrite and_then_run.
      match goal with
      | |- context [process_pages _ _ _ _ _ _ ?s] =>
          pose proof (process_pages_records w user_id output cookies 1
                        (range1 1) header s) as Hp;
          destruct (process_pages w user_id output cookies 1 (range1 1) s)
            as [[[]|e'] s']
      end; unfold and_then, print, ret; cbn [snd files printed] in *;
        (rewrite Hp; [|cbn [files]; apply lookup_insert_eq]);
        done.
    - cbn [files]. by rewrite lookup_insert_eq, Hnil. }
  unfold download_and_process_goodreads_data. rewrite and_then_run.
  destruct (cookies_json w); cbn [ret print and_then]; by apply Hrun.
Qed.

(** C6: for a user id without braces and whatever the run, the output file
    is the header line, made of the seven labels in their order between
    tabs and ended by CR LF, followed by one line per record that the run
    extracts, in their order; each record has the seven labels as its
    keys, and its line is written from its seven values in the order of
    the labels.  When no value is longer than the limit of the reader, the
    file read back by the [csv] reader gives the seven labels and then,
    for each record, seven fields: its values. *)
Theorem output_has_header_and_seven_columns (w : world)
    (user_id output : pystr) (fs : gmap pystr pystr) :
  brace_free user_id →
  header = Csv.join fieldnames ++ [Csv.CR; Csv.LF]
  ∧ fieldnames
    = [py "Goodreads ID"; py "Book Title"; py "Date Started"; py "Date Read";
       py "Author"; py "Average Rating"; py "Number of Pages"]
  ∧ files (main w user_id output (initial fs)).2 !! output
    = Some (header
            ++ concat ((λ d, Csv.writerow (values_of d)) <$> records_of_run w))
  ∧ Forall (λ d, extracted d ∧ dom d = list_to_set fieldnames
                 ∧ Csv.dict_to_list fieldnames d = Ok (values_of d))
      (records_of_run w)
  ∧ (Forall readable (records_of_run w) →
     ∃ rows,
       read_records (as_read (header ++ lines_of (records_of_run w)))
       = Ok (fieldnames :: rows)
       ∧ rows = (fmap as_read ∘ values_of <$> records_of_run w)
       ∧ Forall (λ row, length row = 7) rows).
Proof.
  intros _. split; [reflexivity|]. split; [reflexivity|]. split; [|split].
  - rewrite main_files. apply download_records.
  - eapply Forall_impl; [apply extracted_records_of_run|].
    intros d Hd. split; [done|]. split; [|by apply dict_to_list_extracted].
    destruct Hd as [row Hd].
    pose proof (process_review_row_ok_complete row d Hd) as Hc.
    destruct (process_review_row_degrades row Hc) as (d' & Hd' & Hdom & _).
    rewrite Hd in Hd'. by injection Hd' as <-.
  - intros Hfit. eexists. split; [by apply read_records_lines|].
    split; [done|]. apply Forall_fmap, Forall_true. done.
Qed.

Lemma output_has_header_and_seven_columns_witness :
  let w := one_page_world in
  brace_free (py "u")
  ∧ Forall readable (records_of_run w)
  ∧ files (main w (py "u") (py "books.tsv") (initial ∅)).2 !! py "books.tsv"
    = Some (header
            ++ concat ((λ d, Csv.writerow (values_of d)) <$> records_of_run w))
  ∧ ∃ rows,
      read_records (as_read (header ++ lines_of (records_of_run w)))
      = Ok (fieldnames :: rows)
      ∧ rows = (fmap as_read ∘ values_of <$> records_of_run w)
      ∧ Forall (λ row, length row = 7) rows.
Proof.
  cbv zeta.
  assert (Hb : brace_free (py "u")) by reflexivity.
  assert (Hr : Forall readable (records_of_run one_page_world)).
  { repeat constructor; by vm_compute. }
  destruct (output_has_header_and_seven_columns one_page_world (py "u")
              (py "books.tsv") ∅ Hb) as (_ & _ & Hf & _ & Hread).
  split; [exact Hb|]. split; [exact Hr|]. split; [exact Hf|]. exact (Hread Hr).
Defined.

(** C7: for a user id without braces, after a download that returns true
    [main] returns without raising, leaves the files as they were, and has
    opened the output once more, for reading; the output holds the header
    and the lines of the records of the run.  After the line that tells
    where the data is, [main] prints nothing more, or the advisory, or the
    warning that the column could not be checked; when no value of a
    record is longer than the limit of the [csv] reader, it prints the
    advisory exactly when the cell under Date Read is empty, once
    stripped, in every record, and no warning. *)
Theorem advisory_iff_date_read_empty (w : world) (user_id output : pystr)
    (fs : gmap pystr pystr) :
  brace_free user_id →
  (download_and_process_goodreads_data w user_id output (initial fs)).1 = Ok true →
  let st1 := (download_and_process_goodreads_data w user_id output (initial fs)).2 in
  let res := main w user_id output (initial fs) in
  res.1 = Ok tt
  ∧ files res.2 = files st1
  ∧ opened res.2 = [(output, ForWriting); (output, ForReading)]
  ∧ files res.2 !! output = Some (header ++ lines_of (records_of_run w))
  ∧ (∃ last, stdout res.2 = stdout st1 ++ DataWritten output :: last
             ∧ (last = [] ∨ last = [DateReadAdvisory]
                ∨ ∃ e, last = [CouldNotVerify e]))
  ∧ (Forall readable (records_of_run w) →
     (DateReadAdvisory ∈ stdout res.2
      ↔ Forall empty_date_read (records_of_run w))
     ∧ stdout res.2
       = stdout st1 ++ DataWritten output
           :: (if bool_decide (Forall empty_date_read (records_of_run w))
               then [DateReadAdvisory] else [])).
Proof.
  intros _ Htrue st1 res.
  pose proof (main_after_download w user_id output fs) as H. cbv zeta in H.
  pose proof (download_records w user_id output fs) as Hrec.
  rewrite Htrue in H. fold st1 res in H, Hrec.
  destruct H as (ds & _ & Hf & Ho & Ha & Hres).
  rewrite Hf in Hrec. injection Hrec as Hrec. rewrite Hrec in Hres, Hf.
  rewrite Hres. cbn [fst snd].
  split; [done|]. split; [by rewrite files_checked|].
  split; [by rewrite opened_checked; simpl; rewrite Ho|].
  split; [by rewrite files_checked|]. split.
  - destruct (has_any_date_read _) as [[|]|e]; cbn [checked];
      eexists; (split; [simpl; rewrite <- ?app_assoc; reflexivity|]); eauto.
  - intros Hfit. rewrite checked_readable by done.
    case_bool_decide as Hall; simpl; rewrite <- ?app_assoc; (split; [|done]).
    + split; [done|]. intros _.
      rewrite !elem_of_app, !elem_of_cons. auto.
    + split; [|done]. rewrite elem_of_app, !elem_of_cons.
      rewrite elem_of_nil. intros [?|[?|?]]; done.
Qed.

Lemma advisory_iff_date_read_empty_witness :
  let w := one_page_world in
  let res := main w (py "u") (py "books.tsv") (initial ∅) in
  res.1 = Ok tt
  ∧ Forall readable (records_of_run w)
  ∧ Forall empty_date_read (records_of_run w)
  ∧ DateReadAdvisory ∈ stdout res.2.
Proof.
  cbv zeta.
  assert (Hr : Forall readable (records_of_run one_page_world)).
  { repeat constructor; by vm_compute. }
  assert (He : Forall empty_date_read (records_of_run one_page_world)).
  { repeat constructor. }
  destruct (advisory_iff_date_read_empty one_page_world (py "u")
              (py "books.tsv") ∅ eq_refl ltac:(vm_compute; reflexivity))
    as (Hres & _ & _ & _ & _ & Hadv).
  split; [exact Hres|]. split; [exact Hr|]. split; [exact He|].
  exact (proj2 (proj1 (Hadv Hr)) He).
Defined.

(** ** Runs that differ by the warning about the cookie file *)

Lemma download_unfold w user_id output_file :
  download_and_process_goodreads_data w user_id output_file
  = (let! cookies :=
       match cookies_json w with
       | NoFile => ret None
       | Json cookies => ret (Some cookies)
       | NotJson => print CookiesNotJson ;;; ret None
       end in
     download_with w user_id output_file cookies).
Proof. reflexivity. Qed.

Lemma main_unfold w user_id output :
  main w user_id output
  = (let! ok := download_and_process_goodreads_data w user_id output in
     after_download output ok).
Proof. reflexivity. Qed.


















(** The rows of a page touch nothing but the files. *)
Lemma process_rows_keeps output_file rows st :
  ∃ r fs, process_rows output_file rows st
          = (r, State (stdout st) (sent st) fs (opened st) (slept st)).
Proof.
  revert st. induction rows as [|row rows IH]; intros st.
  { exists (Ok tt), (files st). by destruct st. }
  cbn [process_rows]. rewrite and_then_run. unfold lift at 1.
  destruct (process_review_row row) as [d|e].
  2: { exists (Raise e), (files st). by destruct st. }
  rewrite and_then_run. unfold lift at 1.
  destruct (Csv.dict_to_list _ _) as [fields|e].
  2: { exists (Raise e), (files st). by destruct st. }
  rewrite and_then_run. unfold write at 1.
  destruct (IH (with_file output_file
                  (default [] (files st !! output_file) ++ Csv.writerow fields) st))
    as (r & fs & Hr).
  exists r, fs. exact Hr.
Qed.




Lemma after_download_sent output ok st :
  sent (after_download output ok st).2 = sent st.
Proof.
  destruct ok; [|done]. cbn [after_download].
  rewrite and_then_run. unfold print at 1, try_except.
  rewrite and_then_run. unfold read. cbn [files].
  destruct (files st !! output); [|done].
  rewrite and_then_run. unfold lift.
  destruct (has_any_date_read _) as [[|]|e]; done.
Qed.




(** ** Runs call by call *)

Lemma records_of_Forall2 rows ds :
  Forall2 (λ row d, process_review_row row = Ok d) rows ds →
  records_of rows = ds.
Proof.
  induction 1 as [|row d rows ds Hd _ IH]; [done|].
  unfold records_of. cbn. rewrite Hd. cbn. by f_equal.
Qed.

Lemma download_start w user_id output fs :
  ∃ st0, download_and_process_goodreads_data w user_id output (initial fs)
         = download_with w user_id output (cookies_of w) st0
         ∧ sent st0 = [] ∧ opened st0 = [] ∧ files st0 = fs
         ∧ (stdout st0 = [] ∨ stdout st0 = [CookiesNotJson]).
Proof.
  rewrite download_unfold, and_then_run. unfold cookies_of.
  destruct (cookies_json w).
  - exists (initial fs). repeat split; auto.
  - exists (warned (initial fs)). repeat split; auto.
  - exists (initial fs). repeat split; auto.
Qed.

(** A page that is answered and complete: its lines go to the file and
    the loop goes on. *)
Lemma wp_process_pages_answered w user_id output_file cookies total_pages
    (pages : nat → Bs4.node) Q E m :
  ∀ a rest content st,
    length (sent st) = a →
    files st !! output_file = Some content →
    (∀ i, a ≤ i < a + m → answers w i (pages i) ∧ complete_page (pages i)) →
    (∀ st', length (sent st') = a + m →
            files st' !! output_file
            = Some (content ++ pages_text pages a m) →
            Net.page <$> sent st'
            = (Net.page <$> sent st) ++ (Z.of_nat <$> seq a m) →
            wp (process_pages w user_id output_file cookies total_pages rest)
              Q E st') →
    wp (process_pages w user_id output_file cookies total_pages
          ((Z.of_nat <$> seq a m) ++ rest)) Q E st.
Proof.
  induction m as [|m IH]; intros a rest content st Ha Hf Hans Hk.
  - cbn [seq fmap list_fmap app]. apply Hk.
    + lia.
    + unfold pages_text. cbn. by rewrite app_nil_r.
    + cbn. by rewrite app_nil_r.
  - cbn [seq fmap list_fmap app process_pages].
    apply wp_and_then, wp_print, wp_and_then, wp_fetch_html. cbv zeta.
    cbn [sent printed]. rewrite Ha.
    destruct (Hans a ltac:(lia)) as ((code & -> & ->) & Hc).
    apply wp_and_then.
    destruct (process_rows_complete output_file
                (Bs4.find_all review_row (pages a)) content
                (requested (Net.Request user_id (Z.of_nat a) (session_cookies cookies))
                   (printed (ProcessingPage (Z.of_nat a) total_pages) st)) Hc Hf)
      as (ds & Hds & Hrun).
    unfold wp at 1. rewrite Hrun.
    apply wp_and_then, wp_sleep.
    assert (Hrec : records_of (Bs4.find_all review_row (pages a)) = ds).
    { apply records_of_Forall2. eapply Forall2_impl; [done|]. by intros ?? [? _]. }
    eapply (IH (S a) rest (content ++ page_text (pages a))).
    + cbn. rewrite length_app, Ha. cbn. lia.
    + cbn. rewrite lookup_insert_eq. unfold page_text. by rewrite Hrec.
    + intros i Hi. apply Hans. lia.
    + intros st' Hl Hf' Hp. apply Hk.
      * lia.
      * rewrite Hf'. unfold pages_text. cbn [seq fmap list_fmap concat].
        by rewrite <- app_assoc.
      * rewrite Hp. cbn. rewrite fmap_app, <- app_assoc. done.
Qed.

(** A page whose request fails: the loop ends there. *)
Lemma wp_process_pages_fails w user_id output_file cookies total_pages
    Q (E : exn → state → Prop) page rest st e :
  failure_of (server w (length (sent st))) page = Some e →
  E e (requested (Net.Request user_id page (session_cookies cookies))
         (printed (ProcessingPage page total_pages) st)) →
  wp (process_pages w user_id output_file cookies total_pages (page :: rest))
    Q E st.
Proof.
  intros Hfail HE. cbn [process_pages].
  apply wp_and_then, wp_print, wp_and_then, wp_fetch_html. cbv zeta.
  cbn [sent printed]. unfold failure_of in Hfail.
  destruct (server w _) as [code soup| |]; [|by simplify_eq..].
  destruct (is_error code); by simplify_eq.
Qed.

Lemma not_answered_fails r page :
  answered r = false → ∃ e, failure_of r page = Some e.
Proof.
  destruct r as [code soup| |]; cbn; [|eauto..].
  destruct (is_error code); [eauto|done].
Qed.

(** The count of pages of a page with a pagination control. *)
Lemma total_pages_of_pagination soup pagination a n st :
  Bs4.find review_pagination soup = Some pagination →
  second_to_last (Bs4.find_all (Bs4.has_name (py "a")) pagination) = Ok a →
  Py.int (Py.strip (Bs4.text a)) = Some n →
  total_pages_of soup st = (Ok n, st).
Proof.
  intros Hp Ha Hn. unfold total_pages_of. fold review_pagination.
  rewrite Hp, Ha. cbn [bind]. unfold to_int. by rewrite Hn.
Qed.

(** The count of pages of a page without one. *)
Lemma total_pages_of_single soup (st : state) :
  Bs4.find review_pagination soup = None →
  total_pages_of soup st = (Ok 1%Z, printed FirstPageOnly st).
Proof. intros Hp. unfold total_pages_of. fold review_pagination. by rewrite Hp. Qed.

Lemma range1_split (n : Z) (k : nat) :
  0 < k → (Z.of_nat k ≤ n)%Z →
  ∃ rest, range1 n = (Z.of_nat <$> seq 1 (k - 1)) ++ Z.of_nat k :: rest.
Proof.
  intros Hk Hn. unfold range1.
  replace (Z.to_nat n) with ((k - 1) + S (Z.to_nat n - k)) by lia.
  rewrite seq_app, fmap_app. cbn [seq fmap list_fmap].
  replace (1 + (k - 1)) with k by lia. eauto.
Qed.

(** The file after a run in which the call numbered [k] fails and the
    calls before it are answered with complete pages. *)
Lemma download_with_fails w user_id output cookies (pages : nat → Bs4.node)
    (n : Z) (k : nat) st0 :
  sent st0 = [] →
  (∀ i, i < k → answers w i (pages i)) →
  (∀ i, 1 ≤ i < k → complete_page (pages i)) →
  (0 < k → (total_pages_of (pages 0) st0).1 = Ok n ∧ (Z.of_nat k ≤ n)%Z) →
  answered (server w k) = false →
  wp (download_with w user_id output cookies)
    (λ ok st, ok = false
              ∧ files st !! output = Some (header ++ pages_text pages 1 (k - 1)))
    (λ _ st, files st !! output = Some (header ++ pages_text pages 1 (k - 1)))
    st0.
Proof.
  intros Hs Hans Hc Hn Hfail. unfold download_with.
  apply wp_and_then, wp_open_w, wp_and_then, wp_write, wp_try_except.
  set (st1 := with_file _ _ _).
  assert (Hf1 : files st1 !! output = Some header).
  { subst st1. unfold with_file, opened_as. cbn [files].
    by rewrite !lookup_insert_eq. }
  assert (Hs1 : sent st1 = []) by done.
  clearbody st1.
  set (F := λ st : state,
         files st !! output = Some (header ++ pages_text pages 1 (k - 1))).
  assert (Hhandler : ∀ e st, F st →
    if is_HTTPError e
    then wp (print (ErrorDownloading e) ;;; print LikelyCauses ;;; ret false)
           (λ ok st', ok = false ∧ F st') (λ _ st', F st') st
    else F st).
  { intros e st HF. by destruct (is_HTTPError e). }
  apply wp_and_then, wp_fetch_html. cbv zeta. rewrite Hs1. cbn [length].
  destruct k as [|k].
  { destruct (not_answered_fails _ 1%Z Hfail) as [e He].
    assert (HF : F (requested (Net.Request user_id 1 (session_cookies cookies)) st1)).
    { unfold F, pages_text. cbn. by rewrite app_nil_r. }
    unfold failure_of in He. destruct (server w 0) as [code soup| |];
      [|simplify_eq; by apply (Hhandler _ _ HF)..].
    destruct (is_error code); [|done]. simplify_eq. by apply (Hhandler _ _ HF). }
  destruct (Hans 0 ltac:(lia)) as (code & -> & ->).
  destruct (Hn ltac:(lia)) as [Htot Hle].
  rewrite (total_pages_of_result _ _
    (requested (Net.Request user_id 1 (session_cookies cookies)) st1)) in Htot.
  apply wp_and_then. unfold wp at 1.
  destruct (total_pages_of (pages 0) (requested _ st1)) as [[n'|e] st2] eqn:Et;
    cbn [fst] in Htot; [|done]. injection Htot as ->.
  assert (H2 : files st2 !! output = Some header ∧ length (sent st2) = 1).
  { destruct (total_pages_of_cases (pages 0) st1) as [[n' H]|[H|(e & _ & H)]];
      rewrite H in Et; simplify_eq; cbn; by rewrite ?Hs1. }
  destruct H2 as [Hf2 Hl2]. apply wp_and_then.
  destruct (range1_split n (S k) ltac:(lia) Hle) as [rest ->].
  eapply wp_mono; [| |apply (wp_process_pages_answered _ _ _ _ _ pages
    (λ _ _, False) (λ e st, if is_HTTPError e
       then wp (print (ErrorDownloading e) ;;; print LikelyCauses ;;; ret false)
              (λ ok st', ok = false ∧ F st') (λ _ st', F st') st
       else F st) (S k - 1) 1 _ header st2 Hl2 Hf2)].
  - by intros [] st' [].
  - done.
  - intros i Hi. split; [apply Hans|apply Hc]; lia.
  - intros st' Hl' Hf' _.
    destruct (not_answered_fails _ (Z.of_nat (S k)) Hfail) as [e He].
    eapply wp_process_pages_fails.
    + rewrite Hl'. replace (1 + (S k - 1)) with (S k) by lia. done.
    + by apply Hhandler.
Qed.

(** C9: for a user id without braces, the output file is opened for
    writing, which empties it, and the header is written before the first
    call. In a run whose call numbered
    [k] fails, the calls before it being answered with complete pages (the
    call 0 is the first page, fetched for the count; the call [i] is page
    [i] of the loop), the file holds, once [main] is over, the header
    followed by the records of the pages 1 to [k - 1], whatever it held
    before; and the download does not return True. *)
Theorem failed_run_leaves_header_and_earlier_pages (w : world)
    (user_id output : pystr) (fs : gmap pystr pystr)
    (pages : nat → Bs4.node) (n : Z) (k : nat) :
  brace_free user_id →
  (∀ i, i < k → answers w i (pages i)) →
  (∀ i, 1 ≤ i < k → complete_page (pages i)) →
  (0 < k → (∀ st, (total_pages_of (pages 0) st).1 = Ok n)
           ∧ (Z.of_nat k ≤ n)%Z) →
  answered (server w k) = false →
  files (main w user_id output (initial fs)).2 !! output
  = Some (header ++ pages_text pages 1 (k - 1))
  ∧ (download_and_process_goodreads_data w user_id output (initial fs)).1
    ≠ Ok true.
Proof.
  intros _ Hans Hc Hn Hfail. rewrite main_files.
  destruct (download_start w user_id output fs) as (st0 & -> & Hs & _).
  pose proof (download_with_fails w user_id output (cookies_of w) pages n k st0
                Hs Hans Hc) as H.
  apply wp_run in H; [|intros Hk; destruct (Hn Hk); eauto|done].
  destruct (download_with _ _ _ _ _) as [[ok|e] st1]; cbn [fst snd] in *.
  - destruct H as [-> H]. done.
  - done.
Qed.

Lemma failed_run_leaves_header_and_earlier_pages_witness :
  files (main second_page_refused (py "u") (py "books.tsv")
           (initial earlier_export)).2 !! py "books.tsv"
  = Some (header ++ page_text (listing ["1"; "2"; "next"]%string [dune_row])).
Proof.
  pose proof (failed_run_leaves_header_and_earlier_pages second_page_refused
    (py "u") (py "books.tsv") earlier_export first_page_twice 2 2) as H.
  destruct H as [H _].
  - reflexivity.
  - intros i Hi. exists 200%N. by destruct i as [|[|i]]; [..|lia].
  - intros i Hi. unfold complete_page.
    replace (Bs4.find_all review_row (first_page_twice i)) with [dune_row]
      by (vm_compute; reflexivity).
    apply Forall_cons. split; [apply complete_dune_row|constructor].
  - intros _. split; [intros st; reflexivity|lia].
  - reflexivity.
  - rewrite H. unfold pages_text. cbn [seq fmap list_fmap concat Nat.sub].
    by rewrite app_nil_r.
Defined.

(** ** The count of pages *)

(** The page loop asks for a first part of its pages, in order. *)
Lemma process_pages_asks w user_id output_file cookies total_pages pages st :
  ∃ l, l `prefix_of` pages
       ∧ asked (process_pages w user_id output_file cookies total_pages pages st).2
         = asked st ++ l.
Proof.
  revert st. induction pages as [|p pages IH]; intros st.
  { exists []. split; [done|]. cbn. by rewrite app_nil_r. }
  cbn [process_pages]. rewrite and_then_run. unfold print at 1.
  rewrite and_then_run.
  set (st1 := State (stdout st ++ _) _ _ _ _).
  assert (Hfetch : ∃ r, fetch_html w user_id p cookies st1
            = (r, requested (Net.Request user_id p (session_cookies cookies)) st1)).
  { unfold fetch_html. destruct (server w _); [case_match|..]; eauto. }
  destruct Hfetch as [r ->]. destruct r as [soup|e].
  2: { exists [p]. split; [apply prefix_cons, prefix_nil|].
       unfold asked. cbn. by rewrite fmap_app. }
  rewrite and_then_run.
  destruct (process_rows_keeps output_file (Bs4.find_all review_row soup)
              (requested (Net.Request user_id p (session_cookies cookies)) st1))
    as (r & fs & ->).
  destruct r as [[]|e].
  2: { exists [p]. split; [apply prefix_cons, prefix_nil|].
       unfold asked. cbn. by rewrite fmap_app. }
  rewrite and_then_run. unfold sleep at 1.
  match goal with
  | |- context [process_pages _ _ _ _ _ pages ?s] =>
      destruct (IH s) as (l & Hl & Hasked); rewrite Hasked
  end.
  exists (p :: l). split; [by apply prefix_cons|].
  unfold asked. cbn. by rewrite fmap_app, <- app_assoc.
Qed.

Lemma try_except_asked {A} (m : M A) caught handler st :
  (∀ e st', asked (handler e st').2 = asked st') →
  asked (try_except m caught handler st).2 = asked (m st).2.
Proof.
  intros Hh. unfold try_except. destruct (m st) as [[a|e] st']; [done|].
  destruct (caught e); [apply Hh|done].
Qed.

(** The pages that a run asks for: page 1, then a first part of the pages
    1 to [n], where [n] is the count read off the answer to the first
    call. *)
Lemma download_with_asks w user_id output cookies st0 :
  sent st0 = [] →
  let st' := (download_with w user_id output cookies st0).2 in
  asked st' = [1%Z]
  ∨ ∃ soup n l, answers w 0 soup
      ∧ (∀ st, (total_pages_of soup st).1 = Ok n)
      ∧ l `prefix_of` range1 n ∧ asked st' = 1%Z :: l.
Proof.
  intros Hs. cbv zeta.
  remember (asked (download_with w user_id output cookies st0).2) as X eqn:HX.
  unfold download_with in HX.
  rewrite and_then_run in HX. unfold open_w at 1 in HX.
  rewrite and_then_run in HX. unfold write at 1 in HX.
  rewrite try_except_asked in HX by done.
  match type of HX with
  | context [and_then (fetch_html _ _ _ _) _ ?s] => set (st1 := s) in HX
  end.
  assert (Hs1 : sent st1 = []) by done. clearbody st1.
  rewrite and_then_run in HX. unfold fetch_html at 1 in HX.
  rewrite Hs1 in HX. cbn [length app] in HX.
  set (st2 := State _ _ _ _ _) in HX.
  assert (Hs2 : asked st2 = [1%Z]) by done.
  clearbody st2.
  destruct (server w 0) as [code soup| |] eqn:Esrv;
    [|left; by rewrite HX..].
  fold (is_error code) in HX.
  destruct (is_error code) eqn:Ecode; [left; by rewrite HX|].
  rewrite and_then_run in HX.
  destruct (total_pages_of_cases soup st2) as [[n H]|[H|(e & _ & H)]];
    rewrite H in HX.
  3: left; by rewrite HX.
  - right. exists soup, n.
    destruct (process_pages_asks w user_id output cookies n (range1 n) st2)
      as (l & Hl & Hasked).
    exists l. split; [by exists code|]. split; [intros st; by rewrite H|].
    split; [done|]. rewrite and_then_run in HX.
    destruct (process_pages _ _ _ _ _ _ _) as [[[]|e] st3]; cbn [snd] in *.
    + rewrite HX. unfold asked in *. cbn in *. by rewrite Hasked, Hs2.
    + by rewrite HX, Hasked, Hs2.
  - right. exists soup, 1%Z.
    destruct (process_pages_asks w user_id output cookies 1 (range1 1)
                (printed FirstPageOnly st2)) as (l & Hl & Hasked).
    exists l. split; [by exists code|]. split; [intros st; by rewrite H|].
    split; [done|]. rewrite and_then_run in HX.
    destruct (process_pages _ _ _ _ _ _ _) as [[[]|e] st3]; cbn [snd] in *.
    + rewrite HX. unfold asked in *. cbn in *. by rewrite Hasked, Hs2.
    + rewrite HX. unfold asked in *. cbn in *. by rewrite Hasked, Hs2.
Qed.

(** A run in which every call is answered with complete pages: it asks
    for page 1 and then for the pages 1 to [n], and writes their records. *)
Lemma download_with_succeeds w user_id output cookies (pages : nat → Bs4.node)
    (n : Z) st0 :
  sent st0 = [] →
  answers w 0 (pages 0) →
  (∀ st, (total_pages_of (pages 0) st).1 = Ok n) →
  (∀ i, 1 ≤ i ≤ Z.to_nat n → answers w i (pages i) ∧ complete_page (pages i)) →
  wp (download_with w user_id output cookies)
    (λ ok st, ok = true ∧ asked st = 1%Z :: range1 n
              ∧ files st !! output
                = Some (header ++ pages_text pages 1 (Z.to_nat n)))
    (λ _ _, False) st0.
Proof.
  intros Hs (code0 & H0 & Hc0) Htot Hans. unfold download_with.
  apply wp_and_then, wp_open_w, wp_and_then, wp_write, wp_try_except.
  set (st1 := with_file _ _ _).
  assert (Hf1 : files st1 !! output = Some header).
  { subst st1. unfold with_file, opened_as. cbn [files].
    by rewrite !lookup_insert_eq. }
  assert (Hs1 : sent st1 = []) by done.
  clearbody st1.
  apply wp_and_then, wp_fetch_html. cbv zeta. rewrite Hs1. cbn [length].
  rewrite H0. fold (is_error code0). rewrite Hc0.
  apply wp_and_then. unfold wp at 1.
  specialize (Htot (requested (Net.Request user_id 1 (session_cookies cookies)) st1)).
  destruct (total_pages_of (pages 0) (requested _ st1)) as [[n'|e] st2] eqn:Et;
    cbn [fst] in Htot; [|done]. injection Htot as ->.
  assert (H2 : files st2 !! output = Some header ∧ asked st2 = [1%Z]).
  { destruct (total_pages_of_cases (pages 0) st1) as [[n' H]|[H|(e & _ & H)]];
      rewrite H in Et; simplify_eq; unfold asked; cbn; by rewrite ?Hs1. }
  destruct H2 as [Hf2 Ha2]. apply wp_and_then.
  rewrite <- (app_nil_r (range1 n)). unfold range1.
  apply (wp_process_pages_answered _ _ _ _ _ pages _ _ (Z.to_nat n) 1 [] header).
  - unfold asked in Ha2. by rewrite <- (length_fmap Net.page), Ha2.
  - done.
  - intros i Hi. apply Hans. lia.
  - intros st' Hl Hf Hp. cbn [process_pages].
    apply wp_ret, wp_and_then, wp_print, wp_ret.
    split; [done|]. split; [|done].
    unfold asked in *. cbn. by rewrite Hp, Ha2, app_nil_r.
Qed.

(** C3. For a user id without braces, the count of pages is read off the
    first page, once. With a
    pagination control on that page the count is the integer spelt by the
    label of the second-to-last link; without one the count is 1, after the
    message that only the first page is processed. In every run the pages
    asked for are page 1 (for the count) and then a first part of the pages
    1 to [n], for the one count [n] of the answer to the first call; when
    every call is answered with complete pages the run asks for exactly the
    pages 1 to [n], writes their records and returns True; so a first page
    without pagination control gives a run over that one page, which is not
    aborted. *)
Theorem page_count_read_once_from_first_page (w : world)
    (user_id output : pystr) (fs : gmap pystr pystr) :
  brace_free user_id →
  let run := download_and_process_goodreads_data w user_id output (initial fs) in
  (∀ soup pagination a n st,
     Bs4.find review_pagination soup = Some pagination →
     second_to_last (Bs4.find_all (Bs4.has_name (py "a")) pagination) = Ok a →
     Py.int (Py.strip (Bs4.text a)) = Some n →
     total_pages_of soup st = (Ok n, st))
  ∧ (∀ soup st,
       Bs4.find review_pagination soup = None →
       total_pages_of soup st = (Ok 1%Z, printed FirstPageOnly st))
  ∧ (asked (snd run) = [1%Z]
     ∨ ∃ soup n l, answers w 0 soup
         ∧ (∀ st, fst (total_pages_of soup st) = Ok n)
         ∧ l `prefix_of` range1 n
         ∧ asked (snd run) = 1%Z :: l)
  ∧ (∀ (pages : nat → Bs4.node) n,
       answers w 0 (pages 0) →
       (∀ st, fst (total_pages_of (pages 0) st) = Ok n) →
       (∀ i, 1 ≤ i ≤ Z.to_nat n →
             answers w i (pages i) ∧ complete_page (pages i)) →
       fst run = Ok true
       ∧ asked (snd run) = 1%Z :: range1 n
       ∧ files (snd run) !! output
         = Some (header ++ pages_text pages 1 (Z.to_nat n)))
  ∧ (∀ soup0 soup1,
       answers w 0 soup0 →
       Bs4.find review_pagination soup0 = None →
       answers w 1 soup1 → complete_page soup1 →
       fst run = Ok true
       ∧ asked (snd run) = [1; 1]%Z
       ∧ files (snd run) !! output = Some (header ++ page_text soup1)).
Proof.
  intros _. cbv zeta.
  destruct (download_start w user_id output fs) as (st0 & -> & Hs & _).
  assert (Hall : ∀ (pages : nat → Bs4.node) n,
    answers w 0 (pages 0) →
    (∀ st, fst (total_pages_of (pages 0) st) = Ok n) →
    (∀ i, 1 ≤ i ≤ Z.to_nat n →
          answers w i (pages i) ∧ complete_page (pages i)) →
    fst (download_with w user_id output (cookies_of w) st0) = Ok true
    ∧ asked (snd (download_with w user_id output (cookies_of w) st0))
      = 1%Z :: range1 n
    ∧ files (snd (download_with w user_id output (cookies_of w) st0)) !! output
      = Some (header ++ pages_text pages 1 (Z.to_nat n))).
  { intros pages n H0 Htot Hans.
    pose proof (download_with_succeeds w user_id output (cookies_of w)
                  pages n st0 Hs H0 Htot Hans) as H.
    unfold wp in H.
    destruct (download_with _ _ _ _ _) as [[ok|e] st1]; [|done].
    destruct H as (-> & Ha & Hf). done. }
  split; [intros *; apply total_pages_of_pagination|].
  split; [intros *; apply total_pages_of_single|].
  split; [by apply download_with_asks|].
  split; [exact Hall|].
  intros soup0 soup1 H0 Hnone H1 Hc1.
  destruct (Hall (λ i, match i with 0 => soup0 | _ => soup1 end) 1%Z)
    as (Hok & Ha & Hf).
  - done.
  - intros st. by rewrite total_pages_of_single.
  - intros i Hi. replace i with 1 by lia. done.
  - split; [done|]. split; [done|]. rewrite Hf. unfold pages_text.
    change (Z.to_nat 1) with 1.
    cbn [seq fmap list_fmap concat compose]. by rewrite app_nil_r.
Qed.

Lemma page_count_read_once_from_first_page_witness :
  total_pages_of three_pages (initial ∅) = (Ok 3%Z, initial ∅)
  ∧ (let run := download_and_process_goodreads_data one_page_world
                  (py "u") (py "books.tsv") (initial ∅) in
     fst run = Ok true
     ∧ asked (snd run) = [1; 1]%Z
     ∧ files (snd run) !! py "books.tsv"
       = Some (header ++ page_text (listing [] [dune_row]))).
Proof.
  destruct (page_count_read_once_from_first_page one_page_world
              (py "u") (py "books.tsv") ∅ eq_refl)
    as (Hcount & _ & _ & _ & Hone).
  split.
  - apply (Hcount three_pages
             (Bs4.Tag (py "div") [] {[ py "id" := py "reviewPagination" ]}
                ((λ l, element "a" [] [str l]) <$> ["1"; "2"; "3"; "next"]%string))
             (element "a" [] [str "3"])).
    + vm_compute; reflexivity.
    + vm_compute; reflexivity.
    + vm_compute; reflexivity.
  - apply (Hone (listing [] [dune_row]) (listing [] [dune_row])).
    + exists 200%N. done.
    + vm_compute; reflexivity.
    + exists 200%N. done.
    + unfold complete_page.
      replace (Bs4.find_all review_row (listing [] [dune_row])) with [dune_row]
        by (vm_compute; reflexivity).
      apply Forall_cons. split; [apply complete_dune_row|constructor].
Defined.

(** ** Calls that fail *)

Lemma healthy_requested w rq st :
  healthy w st → answered (server w (length (sent st))) = true →
  healthy w (requested rq st).
Proof.
  intros H Ha i. cbn. rewrite length_app. cbn. intros Hi.
  destruct (decide (i = length (sent st))) as [->|]; [done|].
  apply H. lia.
Qed.

Lemma broken_requested w rq e st :
  healthy w st →
  failure_of (server w (length (sent st))) (Net.page rq) = Some e →
  broken w e (requested rq st).
Proof. intros H Hf. by exists (sent st), rq. Qed.

(** A call either is answered or fails with an exception of the
    transport. *)
Lemma wp_fetch_html_healthy w user_id page cookies st :
  healthy w st →
  wp (fetch_html w user_id page cookies)
    (λ _ st', healthy w st')
    (λ e st', transport e = true ∧ broken w e st') st.
Proof.
  intros H. apply wp_fetch_html. cbv zeta.
  destruct (server w (length (sent st))) as [code soup| |] eqn:Es.
  - destruct (is_error code) eqn:Ec.
    + split; [done|]. apply broken_requested; [done|].
      cbn. by rewrite Es; cbn; rewrite Ec.
    + apply healthy_requested; [done|]. by rewrite Es; cbn; rewrite Ec.
  - split; [done|]. apply broken_requested; [done|]. cbn. by rewrite Es.
  - split; [done|]. apply broken_requested; [done|]. cbn. by rewrite Es.
Qed.

Lemma wp_process_rows_healthy w output_file rows st :
  healthy w st →
  wp (process_rows output_file rows)
    (λ _ st', healthy w st') (λ e st', transport e = false ∧ healthy w st') st.
Proof.
  intros H. unfold wp.
  destruct (process_rows_keeps output_file rows st) as (r & fs & Hr).
  rewrite Hr. destruct r as [[]|e]; [done|]. split; [|done].
  revert st fs Hr H. induction rows as [|row rows IH]; intros st fs Hr H.
  { done. }
  cbn [process_rows] in Hr. rewrite and_then_run in Hr. unfold lift at 1 in Hr.
  destruct (process_review_row row) as [d|e'] eqn:Ed.
  2: { injection Hr as <-. by eapply process_review_row_not_transport. }
  rewrite and_then_run in Hr. unfold lift at 1 in Hr.
  destruct (Csv.dict_to_list fieldnames d) as [v|e'] eqn:Ev.
  2: { injection Hr as <-. unfold Csv.dict_to_list in Ev.
       by repeat case_match; simplify_eq. }
  rewrite and_then_run in Hr. unfold write at 1 in Hr.
  eapply IH; [exact Hr|done].
Qed.

Lemma wp_process_pages_healthy w user_id output_file cookies total_pages pages st :
  healthy w st →
  wp (process_pages w user_id output_file cookies total_pages pages)
    (λ _ st', healthy w st') (λ e st', ended w e st') st.
Proof.
  revert st. induction pages as [|p pages IH]; intros st H.
  { by apply wp_ret. }
  cbn [process_pages]. apply wp_and_then, wp_print, wp_and_then.
  eapply wp_mono; [| |apply wp_fetch_html_healthy; exact H].
  2: { intros e st' [He Hb]. unfold ended. by rewrite He. }
  intros soup st' H'. apply wp_and_then.
  eapply wp_mono; [| |apply (wp_process_rows_healthy w); exact H'].
  2: { intros e st'' [He Hh]. unfold ended. by rewrite He. }
  intros [] st'' H''. apply wp_and_then, wp_sleep. by apply IH.
Qed.

(** The download: it returns True with every call answered, returns False
    after a call that failed with an HTTP error, which is reported, or
    raises what is not an HTTP error. *)
Lemma wp_download_with_healthy w user_id output cookies st0 :
  sent st0 = [] →
  wp (download_with w user_id output cookies)
    (λ ok st, if ok : bool then healthy w st
              else ∃ e, is_HTTPError e = true ∧ broken w e st ∧ reported e st)
    (λ e st, is_HTTPError e = false ∧ ended w e st) st0.
Proof.
  intros Hs. unfold download_with.
  apply wp_and_then, wp_open_w, wp_and_then, wp_write, wp_try_except.
  set (st1 := with_file _ _ _).
  assert (H1 : healthy w st1).
  { intros i Hi. cbn in Hi. rewrite Hs in Hi. cbn in Hi. lia. }
  clearbody st1.
  eapply wp_mono with (Q := λ ok st, ok = true ∧ healthy w st)
                      (E := λ e st, ended w e st).
  { by intros ok st [-> H]. }
  { intros e st He. destruct (is_HTTPError e) eqn:Ehttp; [|done].
    apply wp_and_then, wp_print, wp_and_then, wp_print, wp_ret.
    exists e. split; [done|]. split.
    - by destruct e.
    - exists (stdout st). cbn. by rewrite <- app_assoc. }
  apply wp_and_then.
  eapply wp_mono; [| |apply wp_fetch_html_healthy; exact H1].
  2: { intros e st' [He Hb]. unfold ended. by rewrite He. }
  intros soup st2 H2. apply wp_and_then, wp_total_pages_of.
  - intros n. apply wp_and_then.
    eapply wp_mono; [| |apply wp_process_pages_healthy; exact H2]; [|done].
    intros [] st3 H3. by apply wp_and_then, wp_print, wp_ret.
  - apply wp_and_then.
    eapply wp_mono; [| |apply wp_process_pages_healthy; exact H2]; [|done].
    intros [] st3 H3. by apply wp_and_then, wp_print, wp_ret.
  - intros e He. unfold ended. by rewrite He.
Qed.

Lemma healthy_answered w st k :
  healthy w st → k < length (sent st) → answered (server w k) = false → False.
Proof. intros H Hk Hf. specialize (H k Hk). congruence. Qed.

Lemma broken_last w e st k :
  broken w e st → k < length (sent st) → answered (server w k) = false →
  length (sent st) = S k
  ∧ ∃ rq, last (sent st) = Some rq
          ∧ failure_of (server w k) (Net.page rq) = Some e.
Proof.
  intros (l & rq & Hs & Hl & Hf) Hk Hfail. rewrite Hs in *.
  rewrite length_app in *. cbn [length] in *.
  destruct (decide (k = length l)) as [->|Hne].
  - split; [lia|]. exists rq. by rewrite last_snoc.
  - specialize (Hl k ltac:(lia)). congruence.
Qed.

(** C4 (amended). A call that fails is the last call of the run: nothing
    is asked for again. When it fails with a status from 400 to 599, the
    download prints the error, which names the page asked for, and the
    likely causes, [main] prints that the processing failed, and the run
    ends without an exception. When it fails because the server cannot be
    reached or does not answer in time, the exception is not caught: it
    leaves [main]. *)
Theorem failed_call_ends_run (w : world) (user_id output : pystr)
    (fs : gmap pystr pystr) (k : nat) :
  let res := main w user_id output (initial fs) in
  k < length (sent (snd res)) →
  answered (server w k) = false →
  length (sent (snd res)) = S k
  ∧ ∃ rq, last (sent (snd res)) = Some rq
      ∧ match server w k with
        | Net.Response status_code _ =>
            fst res = Ok tt
            ∧ ∃ out, stdout (snd res)
                     = out ++ [ErrorDownloading (HTTPError status_code (Net.page rq));
                               LikelyCauses; FailedToProcess]
        | Net.Unreachable => fst res = Raise ConnectionError
        | Net.TimedOut => fst res = Raise ReadTimeout
        end.
Proof.
  cbv zeta. intros Hk Hfail.
  pose proof (main_after_download w user_id output fs) as Hmain.
  cbv zeta in Hmain.
  destruct (download_start w user_id output fs) as (st0 & Hd & Hs & _).
  pose proof (wp_download_with_healthy w user_id output (cookies_of w) st0 Hs)
    as H.
  apply wp_run in H. rewrite <- Hd in H.
  assert (Hsent : sent (snd (main w user_id output (initial fs)))
                  = sent (snd (download_and_process_goodreads_data w user_id
                                 output (initial fs)))).
  { rewrite main_unfold, and_then_run.
    destruct (download_and_process_goodreads_data _ _ _ _) as [[ok|e] st1];
      [apply after_download_sent|done]. }
  rewrite Hsent in *.
  destruct (download_and_process_goodreads_data _ _ _ _) as [[[|]|e] st1];
    cbn [fst snd] in *.
  - destruct (healthy_answered _ _ _ H Hk Hfail).
  - destruct H as (e & He & Hb & out & Hout).
    destruct (broken_last _ _ _ _ Hb Hk Hfail) as (Hlen & rq & Hlast & Hf).
    split; [done|]. exists rq. split; [done|]. rewrite Hmain. cbn [fst snd].
    unfold failure_of in Hf.
    destruct (server w k) as [code soup| |]; [|by simplify_eq..].
    destruct (is_error code); [|done]. simplify_eq. split; [done|].
    exists out. cbn. rewrite Hout. by rewrite <- app_assoc.
  - destruct H as [He H]. unfold ended in H.
    destruct (transport e) eqn:Et.
    2: destruct (healthy_answered _ _ _ H Hk Hfail).
    destruct (broken_last _ _ _ _ H Hk Hfail) as (Hlen & rq & Hlast & Hf).
    split; [done|]. exists rq. split; [done|]. rewrite Hmain. cbn [fst].
    unfold failure_of in Hf.
    destruct (server w k) as [code soup| |]; [|by simplify_eq..].
    destruct (is_error code); [|done]. by simplify_eq.
Qed.

Lemma failed_call_ends_run_witness :
  let res := main second_page_refused (py "u") (py "books.tsv")
               (initial earlier_export) in
  length (sent (snd res)) = 3
  ∧ ∃ rq, last (sent (snd res)) = Some rq
      ∧ fst res = Ok tt
      ∧ ∃ out, stdout (snd res)
               = out ++ [ErrorDownloading (HTTPError 404 (Net.page rq));
                         LikelyCauses; FailedToProcess].
Proof.
  apply (failed_call_ends_run second_page_refused (py "u") (py "books.tsv")
           earlier_export 2).
  - vm_compute. lia.
  - reflexivity.
Defined.

(** A server that does not answer in time: the exception leaves [main],
    with nothing printed about it. *)
Lemma timeout_leaves_main :
  let res := main silent_world (py "u") (py "books.tsv") (initial ∅) in
  fst res = Raise ReadTimeout ∧ stdout (snd res) = [].
Proof. vm_compute. done. Qed.

(** * Further properties *)

(** ** Text without white space around it *)

Lemma lstrip_split (s : pystr) :
  ∃ p, s = p ++ Py.lstrip s ∧ forallb Py.is_space p = true.
Proof.
  induction s as [|c s (p & Hs & Hp)]; [by exists []|]. simpl.
  destruct (Py.is_space c) eqn:E.
  - exists (c :: p). split; [by rewrite Hs at 1|]. simpl. by rewrite E.
  - by exists [].
Qed.

Lemma lstrip_head_not_space (s : pystr) c :
  head (Py.lstrip s) = Some c → Py.is_space c = false.
Proof.
  induction s as [|x s IH]; simpl; [done|].
  destruct (Py.is_space x) eqn:E; [done|]. simpl. by intros [= <-].
Qed.

Lemma lstrip_fixed (s : pystr) :
  (∀ c, head s = Some c → Py.is_space c = false) → Py.lstrip s = s.
Proof. destruct s as [|c s]; [done|]. simpl. intros H. by rewrite H. Qed.

Lemma rstrip_split (s : pystr) :
  ∃ q, s = Py.rstrip s ++ q ∧ forallb Py.is_space q = true.
Proof.
  destruct (lstrip_split (reverse s)) as (p & Hs & Hp).
  exists (reverse p). split; [|by rewrite forallb_reverse].
  unfold Py.rstrip. rewrite <- reverse_app, <- Hs. by rewrite reverse_involutive.
Qed.

Lemma rstrip_last_not_space (s : pystr) c :
  last (Py.rstrip s) = Some c → Py.is_space c = false.
Proof.
  unfold Py.rstrip. rewrite last_reverse. apply lstrip_head_not_space.
Qed.

Lemma rstrip_head (s : pystr) c :
  head s = Some c → Py.is_space c = false →
  ∀ x, head (Py.rstrip s) = Some x → x = c.
Proof.
  intros Hh Hc x Hx. destruct (rstrip_split s) as (q & Hs & Hq).
  destruct (Py.rstrip s) as [|y r]; [done|]. simpl in Hx.
  rewrite Hs in Hh. simpl in Hh. congruence.
Qed.

Lemma strip_trimmed (s : pystr) : trimmed (Py.strip s).
Proof.
  split; intros c Hc.
  - unfold Py.strip in Hc.
    destruct (Py.lstrip s) as [|x l] eqn:El; [done|].
    assert (Hx : Py.is_space x = false).
    { apply (lstrip_head_not_space s). by rewrite El. }
    by rewrite (rstrip_head (x :: l) x eq_refl Hx c Hc).
  - by apply rstrip_last_not_space in Hc.
Qed.

Lemma trimmed_strip (s : pystr) : trimmed s → Py.strip s = s.
Proof.
  intros [Hh Hl]. unfold Py.strip. rewrite (lstrip_fixed s Hh).
  unfold Py.rstrip. rewrite lstrip_fixed; [apply reverse_involutive|].
  intros c. rewrite head_reverse. apply Hl.
Qed.

Lemma strip_strip (s : pystr) : Py.strip (Py.strip s) = Py.strip s.
Proof. apply trimmed_strip, strip_trimmed. Qed.

(** X1: the text that [get_text_or_default] returns has no white space
    around it, so that stripping it again changes nothing; it is empty for
    a missing element, and for an element exactly when the text below it is
    empty or blank. *)
Theorem element_text_is_trimmed (element : option Bs4.node) :
  let t := get_text_or_default element in
  Py.strip t = t
  ∧ trimmed t
  ∧ (t = [] ↔ match element with
              | Some e => forallb Py.is_space (Bs4.text e) = true
              | None => True
              end).
Proof.
  cbv zeta. destruct element as [e|]; cbn [get_text_or_default].
  - split; [apply strip_strip|]. split; [apply strip_trimmed|].
    apply strip_nil_iff.
  - by repeat split.
Qed.

(** ** Dates, once more *)

Lemma strptime_digit_first (n : N) (rest : pystr) :
  Strptime.strptime (digit n :: rest) = Raise ValueError.
Proof. by_digit n. Qed.

Lemma strftime_head (d : Strptime.date) :
  ∃ n rest, Strptime.strftime d = digit n :: rest.
Proof.
  unfold Strptime.strftime, Strptime.year_text.
  repeat case_match; cbn; eauto.
Qed.

Lemma strftime_last (d : Strptime.date) :
  ∃ n, last (Strptime.strftime d) = Some (digit n).
Proof.
  unfold Strptime.strftime. rewrite !app_assoc, zero_pad_2.
  exists (Z.to_N (Strptime.day d)).
  by rewrite last_app.
Qed.

Lemma strftime_trimmed (d : Strptime.date) : trimmed (Strptime.strftime d).
Proof.
  split; intros c Hc.
  - destruct (strftime_head d) as (n & rest & E). rewrite E in Hc.
    injection Hc as <-. apply is_space_digit.
  - destruct (strftime_last d) as (n & E). rewrite E in Hc.
    injection Hc as <-. apply is_space_digit.
Qed.

(** Converting a converted date changes nothing. *)
Lemma convert_date_again (s t : pystr) :
  convert_date s = Ok t → convert_date t = Ok t.
Proof.
  unfold convert_date at 1. destruct (Strptime.strptime s) as [d|e] eqn:E.
  - intros [= <-]. destruct (strftime_head d) as (n & rest & ->).
    unfold convert_date. by rewrite strptime_digit_first.
  - apply strptime_raises in E as Hv. subst e. intros [= <-].
    unfold convert_date. by rewrite E.
Qed.

Lemma convert_date_nil_iff (s t : pystr) :
  convert_date s = Ok t → (t = [] ↔ s = []).
Proof.
  unfold convert_date. destruct (Strptime.strptime s) as [d|e] eqn:E.
  - intros [= <-]. destruct (strftime_head d) as (n & rest & ->).
    split; [done|]. intros ->. done.
  - apply strptime_raises in E as ->. by intros [= <-].
Qed.

Lemma convert_date_keeps_trimmed (s t : pystr) :
  convert_date s = Ok t → trimmed s → trimmed t.
Proof.
  unfold convert_date. destruct (Strptime.strptime s) as [d|e] eqn:E.
  - intros [= <-] _. apply strftime_trimmed.
  - apply strptime_raises in E as ->. by intros [= <-].
Qed.

(** X2: [convert_date] returns on every text, and converting its result
    again changes nothing; the result is empty exactly when the text is,
    and has no white space around it when the text has none. *)
Theorem convert_date_settles (date_str : pystr) :
  ∃ t, convert_date date_str = Ok t
       ∧ convert_date t = Ok t
       ∧ (t = [] ↔ date_str = [])
       ∧ (trimmed date_str → trimmed t).
Proof.
  destruct (convert_date_total date_str) as [t Ht]. exists t.
  split; [done|]. split; [by eapply convert_date_again|].
  split; [by apply convert_date_nil_iff|]. by apply convert_date_keeps_trimmed.
Qed.

(** ** What each exception of a row means *)

Lemma first_split_raises (s : pystr) e :
  first (Py.split s) = Raise e → forallb Py.is_space s = true.
Proof.
  destruct (forallb Py.is_space s) eqn:E; [done|].
  destruct (first_split s E) as (w & -> & _). done.
Qed.

Lemma process_review_row_outcome (row : Bs4.node) :
  match process_review_row row with
  | Ok d => complete_row row
  | Raise AttributeError => ¬ has_cells row
  | Raise KeyError =>
      is_Some (Bs4.find (td "field title") row)
      ∧ is_Some (Bs4.find (td "field date_started") row)
      ∧ is_Some (Bs4.find (td "field date_read") row)
      ∧ ¬ tooltip_has_id row
  | Raise IndexError => has_cells row ∧ tooltip_has_id row ∧ nobr_blank row
  | Raise _ => False
  end.
Proof.
  destruct (process_review_row row) as [d|e] eqn:E.
  { by eapply process_review_row_ok_complete. }
  revert E. unfold process_review_row.
  destruct (Bs4.find (td "field title") row) as [c1|] eqn:E1;
    cbn [Bs4.find_in bind].
  2: { intros [= <-]. unfold has_cells. rewrite E1. by intros [[? ?] _]. }
  destruct (Bs4.find (td "field date_started") row) as [c2|] eqn:E2;
    cbn [Bs4.find_in bind].
  2: { intros [= <-]. unfold has_cells. rewrite E2. by intros (_ & [? ?] & _). }
  destruct (Bs4.find (td "field date_read") row) as [c3|] eqn:E3;
    cbn [Bs4.find_in bind].
  2: { intros [= <-]. unfold has_cells. rewrite E3.
       by intros (_ & _ & [? ?] & _). }
  destruct (convert_date_total
    (get_text_or_default (Bs4.find (span "date_started_value") c2))) as [ds Hds].
  destruct (convert_date_total
    (get_text_or_default (Bs4.find (span "date_read_value") c3))) as [dr Hdr].
  assert (Hid : ∀ k : pystr → result (gmap pystr pystr),
    (∀ id, k id = Raise e →
       tooltip_has_id row →
       match e with
       | AttributeError => ¬ has_cells row
       | IndexError => has_cells row ∧ tooltip_has_id row ∧ nobr_blank row
       | _ => False
       end) →
    bind match Bs4.find tooltip row with
         | Some _ =>
             match Bs4.find tooltip row with
             | Some d => Bs4.getitem d (py "data-resource-id")
             | None => Raise AttributeError
             end
         | None => Ok (py "")
         end k = Raise e →
    match e with
    | AttributeError => ¬ has_cells row
    | KeyError =>
        is_Some (Some c1) ∧ is_Some (Some c2) ∧ is_Some (Some c3)
        ∧ ¬ tooltip_has_id row
    | IndexError => has_cells row ∧ tooltip_has_id row ∧ nobr_blank row
    | _ => False
    end).
  { intros k Hk. destruct (Bs4.find tooltip row) as [t|] eqn:Et.
    - destruct (Bs4.getitem t (py "data-resource-id")) as [v|e'] eqn:Ev;
        cbn [bind].
      + intros H. specialize (Hk v H).
        assert (Hh : tooltip_has_id row).
        { intros t' Ht'. rewrite Et in Ht'. injection Ht' as <-. eauto. }
        specialize (Hk Hh). by destruct e.
      + apply getitem_raises in Ev as Hv. subst e'. intros [= <-].
        repeat split; eauto. intros Hh. destruct (Hh t Et) as [v Hv].
        congruence.
    - cbn [bind]. intros H. specialize (Hk _ H).
      assert (Hh : tooltip_has_id row) by (intros t' Ht'; congruence).
      specialize (Hk Hh). by destruct e. }
  apply Hid. clear Hid. intros id. rewrite Hds, Hdr. cbn [bind].
  destruct (Bs4.find (td "field author") row) as [c4|] eqn:E4;
    cbn [Bs4.find_in bind].
  2: { intros [= <-] _. unfold has_cells. rewrite E4.
       by intros (_ & _ & _ & [? ?] & _). }
  destruct (Bs4.find (td "field num_pages") row) as [c5|] eqn:E5;
    cbn [Bs4.find_in bind].
  2: { intros [= <-] _. unfold has_cells. rewrite E5.
       by intros (_ & _ & _ & _ & [? ?]). }
  destruct (Bs4.find (Bs4.has_name (py "nobr")) c5) as [n|] eqn:En;
    cbn [bind]; [|done].
  destruct (first (Py.split (get_text_or_default (Some n)))) as [w|e'] eqn:Ew;
    cbn [bind]; [done|].
  apply first_raises in Ew as He. subst e'. intros [= <-] Hh.
  split; [|split; [done|]].
  - unfold has_cells. rewrite E1, E2, E3, E4, E5. eauto 10.
  - exists n. split; [unfold nested; by rewrite E5|].
    apply first_split_raises in Ew. cbn [get_text_or_default] in Ew.
    by rewrite forallb_strip in Ew.
Qed.

(** X3: [process_review_row] returns a record exactly on the rows that
    hold the five cells searched inside, a tooltip trigger, if any, with its
    identifier, and a page count, if any, that is not blank.  On the other
    rows it raises: [AttributeError] only when one of the five cells is
    missing, [KeyError] only when the tooltip trigger lacks its identifier
    (the cells of the title and of the two dates being there), [IndexError]
    only when the page count is there and blank, and nothing else. *)
Theorem process_review_row_returns_iff_complete (row : Bs4.node) :
  ((∃ d, process_review_row row = Ok d) ↔ complete_row row)
  ∧ match process_review_row row with
    | Ok d => complete_row row
    | Raise AttributeError => ¬ has_cells row
    | Raise KeyError =>
        is_Some (Bs4.find (td "field title") row)
        ∧ is_Some (Bs4.find (td "field date_started") row)
        ∧ is_Some (Bs4.find (td "field date_read") row)
        ∧ ¬ tooltip_has_id row
    | Raise IndexError => has_cells row ∧ tooltip_has_id row ∧ nobr_blank row
    | Raise _ => False
    end.
Proof.
  split; [|apply process_review_row_outcome]. split.
  - intros [d Hd]. by eapply process_review_row_ok_complete.
  - intros Hc.
    destruct (process_review_row_complete row Hc) as (?&?&?&?& -> & _).
    eauto.
Qed.

(** ** The values of a record *)

Lemma split_from_one_token (cur s : pystr) :
  one_token cur → Forall one_token (Py.split_from cur s).
Proof.
  unfold one_token.
  revert cur. induction s as [|c s IH]; intros cur Hcur; simpl.
  - destruct cur; [constructor|]. repeat constructor.
    by apply Forall_reverse.
  - destruct (Py.is_space c) eqn:E.
    + destruct cur; [by apply IH|]. constructor; [by apply Forall_reverse|].
      by apply IH.
    + apply IH. by constructor.
Qed.

Lemma first_split_one_token (s w : pystr) :
  first (Py.split s) = Ok w → one_token w ∧ w ≠ [].
Proof.
  unfold Py.split. intros H.
  pose proof (split_from_one_token [] s ltac:(constructor)) as Ht.
  pose proof (split_from_tokens [] s) as Hne.
  destruct (Py.split_from [] s) as [|x l]; [done|]. injection H as ->.
  by inversion Ht; inversion Hne; subst.
Qed.

Lemma text_in_trimmed c p row : trimmed (text_in c p row).
Proof.
  unfold text_in. destruct (nested c p row); [apply strip_trimmed|done].
Qed.

Lemma get_text_or_default_trimmed e : trimmed (get_text_or_default e).
Proof. destruct e; [apply strip_trimmed|done]. Qed.

(** X4: in a record that [process_review_row] returns, the title, the two
    dates, the author and the rating have no white space around them, and
    the page count holds no white space at all; it is empty or one
    token. *)
Theorem record_values_are_trimmed (row : Bs4.node) (d : gmap pystr pystr) :
  process_review_row row = Ok d →
  (∀ key, key ∈ stripped_labels → ∃ v, d !! key = Some v ∧ trimmed v)
  ∧ ∃ pages, d !! py "Number of Pages" = Some pages ∧ one_token pages.
Proof.
  intros Hd. pose proof (process_review_row_ok_complete row d Hd) as Hc.
  destruct (process_review_row_complete row Hc)
    as (id & ds & dr & np & Hd' & _ & Hds & Hdr & Hnp).
  rewrite Hd in Hd'. injection Hd' as ->. split.
  - intros key Hkey. unfold stripped_labels in Hkey.
    repeat (apply elem_of_cons in Hkey as [->|Hkey]);
      [..|by apply elem_of_nil in Hkey]; eexists; (split; [reflexivity|]).
    + apply text_in_trimmed.
    + eapply convert_date_keeps_trimmed; [exact Hds|apply text_in_trimmed].
    + eapply convert_date_keeps_trimmed; [exact Hdr|apply text_in_trimmed].
    + apply text_in_trimmed.
    + apply get_text_or_default_trimmed.
  - exists np. split; [reflexivity|].
    destruct (nested "field num_pages" _ row) as [n|].
    + destruct Hnp as [Hnp _]. by apply first_split_one_token in Hnp as [? _].
    + subst np. constructor.
Qed.

Lemma record_values_are_trimmed_witness :
  ∃ d, process_review_row dune_row = Ok d
       ∧ (∀ key, key ∈ stripped_labels → ∃ v, d !! key = Some v ∧ trimmed v)
       ∧ ∃ pages, d !! py "Number of Pages" = Some pages ∧ one_token pages.
Proof.
  destruct (process_review_row dune_row) as [d|e] eqn:E; [|by vm_compute in E].
  exists d. split; [done|]. by apply (record_values_are_trimmed dune_row).
Defined.

(** ** A page with a row that raises *)

Lemma process_rows_app output_file rows1 rows2 st :
  process_rows output_file (rows1 ++ rows2) st
  = (process_rows output_file rows1 ;;; process_rows output_file rows2) st.
Proof.
  revert st. induction rows1 as [|row rows1 IH]; intros st; [done|].
  cbn [app process_rows]. rewrite !and_then_run.
  destruct (lift (process_review_row row) st) as [[d|e] st1]; [|done].
  rewrite !and_then_run.
  destruct (lift (Csv.dict_to_list fieldnames d) st1) as [[v|e] st2]; [|done].
  rewrite !and_then_run.
  destruct (write output_file (Csv.writerow v) st2) as [[[]|e] st3]; [|done].
  rewrite IH. by rewrite and_then_run.
Qed.

Lemma process_rows_raises output_file bad rest e st :
  process_review_row bad = Raise e →
  process_rows output_file (bad :: rest) st = (Raise e, st).
Proof.
  intros H. cbn [process_rows]. rewrite and_then_run. unfold lift. by rewrite H.
Qed.

Lemma process_rows_stops output_file good bad rest e content st :
  Forall complete_row good →
  process_review_row bad = Raise e →
  files st !! output_file = Some content →
  process_rows output_file (good ++ bad :: rest) st
  = (Raise e,
     with_file output_file (content ++ lines_of (records_of good)) st).
Proof.
  intros Hgood Hbad Hf.
  destruct (process_rows_complete output_file good content st Hgood Hf)
    as (records & Hrec & Hrun).
  rewrite process_rows_app, and_then_run, Hrun.
  rewrite (process_rows_raises _ _ _ e) by done.
  rewrite (records_of_Forall2 good records); [done|].
  eapply Forall2_impl; [exact Hrec|]. by intros ?? [? _].
Qed.

(** X5: the loop over the rows of a page stops at the first row on which
    [process_review_row] raises, with that exception: the records of the
    rows before it are in the file already, the row itself and the rows
    after it are never written. *)
Theorem rows_before_a_failing_row_are_written (output_file : pystr)
    (good : list Bs4.node) (bad : Bs4.node) (rest : list Bs4.node)
    (e : exn) (content : pystr) (st : state) :
  Forall complete_row good →
  process_review_row bad = Raise e →
  files st !! output_file = Some content →
  process_rows output_file (good ++ bad :: rest) st
  = (Raise e,
     with_file output_file (content ++ lines_of (records_of good)) st).
Proof. apply process_rows_stops. Qed.

Lemma rows_before_a_failing_row_are_written_witness :
  process_rows (py "books.tsv") page_with_bare_row
    (with_file (py "books.tsv") header (initial ∅))
  = (Raise AttributeError,
     with_file (py "books.tsv") (header ++ lines_of (records_of [dune_row]))
       (with_file (py "books.tsv") header (initial ∅))).
Proof.
  apply (rows_before_a_failing_row_are_written (py "books.tsv") [dune_row]
           bare_row [dune_row]).
  - apply Forall_cons. split; [apply complete_dune_row|constructor].
  - reflexivity.
  - reflexivity.
Defined.

(** ** A run without failure, in full *)

Lemma pages_text_records pages a m :
  pages_text pages a m = lines_of (records_on pages a m).
Proof.
  unfold pages_text, records_on. revert a.
  induction m as [|m IH]; intros a; [done|].
  cbn [seq fmap list_fmap concat]. by rewrite lines_of_app, <- IH.
Qed.

Lemma state_eq (st : state) so se fi op sl :
  stdout st = so → sent st = se → files st = fi → opened st = op →
  slept st = sl → st = State so se fi op sl.
Proof. destruct st. simpl. by intros -> -> -> -> ->. Qed.

Lemma total_pages_of_notice soup n st :
  fst (total_pages_of soup st) = Ok n →
  total_pages_of soup st
  = (Ok n, State (stdout st ++ notice soup) (sent st) (files st) (opened st)
             (slept st)).
Proof.
  unfold total_pages_of, notice. fold review_pagination.
  destruct (Bs4.find review_pagination soup).
  - unfold lift. destruct (bind _ _) as [k|e]; [|done]. cbn.
    intros [= ->]. f_equal. apply state_eq; try done. by rewrite app_nil_r.
  - cbn. by intros [= <-].
Qed.

(** The loop over pages that are answered and complete, step by step. *)
Lemma wp_process_pages_exact w user_id output_file cookies total_pages
    (pages : nat → Bs4.node) Q E m :
  ∀ a rest content st,
    length (sent st) = a →
    files st !! output_file = Some content →
    (∀ i, a ≤ i < a + m → answers w i (pages i) ∧ complete_page (pages i)) →
    wp (process_pages w user_id output_file cookies total_pages rest) Q E
      (State (stdout st ++ progress total_pages a m)
         (sent st ++ calls user_id (session_cookies cookies) a m)
         (<[output_file := content ++ pages_text pages a m]> (files st))
         (opened st) (slept st + m)) →
    wp (process_pages w user_id output_file cookies total_pages
          ((Z.of_nat <$> seq a m) ++ rest)) Q E st.
Proof.
  induction m as [|m IH]; intros a rest content st Ha Hf Hans Hk.
  - cbn [seq fmap list_fmap app].
    replace st with (State (stdout st ++ progress total_pages a 0)
         (sent st ++ calls user_id (session_cookies cookies) a 0)
         (<[output_file := content ++ pages_text pages a 0]> (files st))
         (opened st) (slept st + 0)); [done|].
    symmetry. apply state_eq; cbn; rewrite ?app_nil_r; try done; try lia.
    all: unfold pages_text; cbn; rewrite ?app_nil_r; by rewrite insert_id.
  - cbn [seq fmap list_fmap app process_pages].
    apply wp_and_then, wp_print, wp_and_then, wp_fetch_html. cbv zeta.
    cbn [sent printed]. rewrite Ha.
    destruct (Hans a ltac:(lia)) as ((code & -> & ->) & Hc).
    apply wp_and_then.
    destruct (process_rows_complete output_file
                (Bs4.find_all review_row (pages a)) content
                (requested (Net.Request user_id (Z.of_nat a) (session_cookies cookies))
                   (printed (ProcessingPage (Z.of_nat a) total_pages) st)) Hc Hf)
      as (ds & Hds & Hrun).
    unfold wp at 1. rewrite Hrun.
    apply wp_and_then, wp_sleep.
    assert (Hrec : records_of (Bs4.find_all review_row (pages a)) = ds).
    { apply records_of_Forall2. eapply Forall2_impl; [done|]. by intros ?? [? _]. }
    eapply (IH (S a) rest (content ++ page_text (pages a))).
    + cbn. rewrite length_app, Ha. cbn. lia.
    + cbn. rewrite lookup_insert_eq. unfold page_text. by rewrite Hrec.
    + intros i Hi. apply Hans. lia.
    + match goal with
      | |- wp _ _ _ ?s1 =>
          match type of Hk with wp _ _ _ ?s2 => replace s1 with s2; [done|] end
      end.
      f_equal.
      * cbn. unfold progress. cbn [seq fmap list_fmap].
        by rewrite <- app_assoc.
      * cbn. unfold calls. cbn [seq fmap list_fmap].
        by rewrite <- app_assoc.
      * cbn. rewrite insert_insert_eq. unfold pages_text, page_text.
        cbn [seq fmap list_fmap concat compose]. rewrite Hrec.
        by rewrite <- app_assoc.
      * cbn. lia.
Qed.

(** The download when every call is answered with complete pages. *)
Lemma download_with_exact (w : world) (user_id output : pystr)
    (cookies : option (list Net.cookie))
    (pages : nat → Bs4.node) (n : Z) (warning : list message)
    (fs : gmap pystr pystr) :
  answers w 0 (pages 0) →
  (∀ st, fst (total_pages_of (pages 0) st) = Ok n) →
  (∀ i, 1 ≤ i ≤ Z.to_nat n → answers w i (pages i) ∧ complete_page (pages i)) →
  download_with w user_id output cookies (State warning [] fs [] 0)
  = (Ok true,
     State (warning ++ notice (pages 0) ++ progress n 1 (Z.to_nat n)
            ++ [SuccessfullyProcessed n])
       (Net.Request user_id 1 (session_cookies cookies)
        :: calls user_id (session_cookies cookies) 1 (Z.to_nat n))
       (<[output := header ++ pages_text pages 1 (Z.to_nat n)]> fs)
       [(output, ForWriting)] (Z.to_nat n)).
Proof.
  intros (code0 & H0 & Hc0) Htot Hans.
  match goal with
  | |- ?m ?st0 = (Ok true, ?st1) =>
      assert (H : wp m (λ ok st, ok = true ∧ st = st1) (λ _ _, False) st0)
  end.
  2: { unfold wp in H. destruct (download_with _ _ _ _ _) as [[ok|e] st]; [|done].
       by destruct H as [-> ->]. }
  unfold download_with.
  apply wp_and_then, wp_open_w, wp_and_then, wp_write.
  unfold opened_as, with_file. cbn [files stdout sent opened slept].
  rewrite lookup_insert_eq. cbn [default from_option id app].
  rewrite insert_insert_eq. fold header.
  apply wp_try_except, wp_and_then, wp_fetch_html. cbv zeta.
  cbn [sent length]. unfold requested. cbn [files stdout sent opened slept app].
  rewrite H0. fold (is_error code0). rewrite Hc0.
  apply wp_and_then. unfold wp at 1.
  rewrite (total_pages_of_notice _ n) by apply Htot.
  cbn [files stdout sent opened slept].
  apply wp_and_then.
  rewrite <- (app_nil_r (range1 n)). unfold range1.
  apply (wp_process_pages_exact _ _ _ _ _ pages _ _ (Z.to_nat n) 1 [] header).
  - done.
  - cbn [files]. by rewrite lookup_insert_eq.
  - intros i Hi. apply Hans. lia.
  - cbn [process_pages]. apply wp_ret, wp_and_then, wp_print, wp_ret.
    split; [done|]. unfold printed. cbn [files stdout sent opened slept app].
    f_equal.
    + by rewrite <- !app_assoc.
    + by rewrite insert_insert_eq.
Qed.

Lemma download_exact (w : world) (user_id output : pystr)
    (pages : nat → Bs4.node) (n : Z)
    (fs : gmap pystr pystr) :
  answers w 0 (pages 0) →
  (∀ st, fst (total_pages_of (pages 0) st) = Ok n) →
  (∀ i, 1 ≤ i ≤ Z.to_nat n → answers w i (pages i) ∧ complete_page (pages i)) →
  download_and_process_goodreads_data w user_id output (initial fs)
  = (Ok true,
     State (cookie_warning w ++ notice (pages 0) ++ progress n 1 (Z.to_nat n)
            ++ [SuccessfullyProcessed n])
       (Net.Request user_id 1 (session_cookies (cookies_of w))
        :: calls user_id (session_cookies (cookies_of w)) 1 (Z.to_nat n))
       (<[output := header ++ pages_text pages 1 (Z.to_nat n)]> fs)
       [(output, ForWriting)] (Z.to_nat n)).
Proof.
  intros H0 Htot Hans. rewrite download_unfold, and_then_run.
  unfold cookie_warning, cookies_of.
  destruct (cookies_json w);
    apply (download_with_exact _ _ _ _ pages n); done.
Qed.

Lemma main_exact (w : world) (user_id output : pystr)
    (pages : nat → Bs4.node) (n : Z)
    (fs : gmap pystr pystr) :
  answers w 0 (pages 0) →
  (∀ st, fst (total_pages_of (pages 0) st) = Ok n) →
  (∀ i, 1 ≤ i ≤ Z.to_nat n → answers w i (pages i) ∧ complete_page (pages i)) →
  let text := header ++ lines_of (records_on pages 1 (Z.to_nat n)) in
  main w user_id output (initial fs)
  = (Ok tt,
     checked (has_any_date_read (as_read text))
       (State
          (cookie_warning w ++ notice (pages 0) ++ progress n 1 (Z.to_nat n)
           ++ [SuccessfullyProcessed n; DataWritten output])
          (Net.Request user_id 1 (session_cookies (cookies_of w))
           :: calls user_id (session_cookies (cookies_of w)) 1 (Z.to_nat n))
          (<[output := text]> fs)
          [(output, ForWriting); (output, ForReading)]
          (Z.to_nat n))).
Proof.
  intros H0 Htot Hans text.
  pose proof (main_after_download w user_id output fs) as Hmain.
  cbv zeta in Hmain.
  rewrite (download_exact w user_id output pages n fs H0 Htot Hans) in Hmain.
  cbn [fst snd files] in Hmain.
  destruct Hmain as (ds & _ & Hf & _ & _ & ->). f_equal.
  rewrite lookup_insert_eq in Hf. injection Hf as Hf.
  rewrite pages_text_records in Hf. rewrite <- Hf. fold text.
  rewrite pages_text_records. fold text. f_equal.
  unfold printed, opened_as. cbn [files stdout sent opened slept app].
  f_equal. rewrite <- !app_assoc. reflexivity.
Qed.

(** X6: for a user id without braces, a run in which every call is
    answered with complete pages, no value of which is longer than the
    limit of the [csv] reader, ends
    without raising in one state, known in full: the messages printed, in
    order (the warning about the cookie file, the notice about the count,
    one progress line per page, the two lines of success, the advisory when
    no record has a date read); the requests sent, in order, each with the
    cookies of the session (page 1 for the count, then the pages 1 to [n]);
    the output file, holding the header and the records of the pages in
    order, the other files untouched; the output opened once for writing,
    once for reading; and one second slept per page. *)
Theorem successful_run_in_full (w : world) (user_id output : pystr)
    (fs : gmap pystr pystr) (pages : nat → Bs4.node) (n : Z) :
  brace_free user_id →
  answers w 0 (pages 0) →
  (∀ st, fst (total_pages_of (pages 0) st) = Ok n) →
  (∀ i, 1 ≤ i ≤ Z.to_nat n → answers w i (pages i) ∧ complete_page (pages i)) →
  Forall readable (records_on pages 1 (Z.to_nat n)) →
  main w user_id output (initial fs)
  = (Ok tt, after_success w user_id output fs pages n).
Proof.
  intros _ H0 Htot Hans Hfit.
  rewrite (main_exact w user_id output pages n fs H0 Htot Hans). cbv zeta.
  rewrite checked_readable by done. unfold after_success. cbv zeta.
  destruct (bool_decide _); unfold printed, id;
    cbn [files stdout sent opened slept]; do 2 f_equal;
    rewrite <- ?app_assoc; cbn [app]; by rewrite ?app_nil_r.
Qed.

Lemma successful_run_in_full_witness :
  main three_page_world (py "u") (py "books.tsv") (initial earlier_export)
  = (Ok tt,
     after_success three_page_world (py "u") (py "books.tsv") earlier_export
       (λ _, three_pages) 3).
Proof.
  apply (successful_run_in_full three_page_world (py "u") (py "books.tsv")
           earlier_export (λ _, three_pages) 3).
  - reflexivity.
  - by exists 200%N.
  - intros st. reflexivity.
  - intros i _. split; [by exists 200%N|]. unfold complete_page.
    replace (Bs4.find_all review_row three_pages) with [dune_row]
      by (vm_compute; reflexivity).
    apply Forall_cons. split; [apply complete_dune_row|constructor].
  - repeat constructor; by vm_compute.
Defined.

(** ** A field beyond the limit of the reader *)

Lemma process_titled_row title :
  process_review_row (titled_row title)
  = Ok (book_data (py "234225") (Py.strip (title ++ [])) (py "2023-01-05")
          (py "") (py "Herbert, Frank") (py "4.27") (py "612")).
Proof. vm_compute. reflexivity. Qed.

Lemma values_of_book_data a b c d e f g :
  values_of (book_data a b c d e f g) = [a; b; c; d; e; f; g].
Proof. vm_compute. reflexivity. Qed.

Lemma record_text_two a b l :
  record_text (a :: b :: l)
  = Csv.write_field a ++ Csv.TAB :: Csv.join (Csv.write_field <$> b :: l).
Proof. by destruct a. Qed.

Lemma as_read_plain g : existsb Csv.special g = false → as_read g = g.
Proof. apply universal_newlines_plain. Qed.

(** The check of [main] on a file whose first record has a title longer
    than the reader takes. *)
Lemma has_any_date_read_long id title c d e f g ds :
  fits id → existsb Csv.special title = false → ¬ fits title →
  has_any_date_read
    (as_read (header ++ lines_of (book_data id title c d e f g :: ds)))
  = Raise CsvError.
Proof.
  intros Hid Hplain Hlong. unfold has_any_date_read, header.
  rewrite rows_writerow by (done || apply fits_fieldnames). unfold hand_out.
  cbn [date_read_step bind].
  rewrite lines_of_cons, values_of_book_data, as_read_writerow.
  set (t := Csv.LF :: as_read (lines_of ds)).
  set (row := as_read <$> [id; title; c; d; e; f; g]).
  destruct (record_text_head row ltac:(done)) as (x & w & Hw & Hx).
  rewrite Hw. cbn [app]. rewrite rows_start_record by done.
  change (x :: w ++ t) with ((x :: w) ++ t). rewrite <- Hw. subst row.
  cbn [fmap list_fmap].
  rewrite record_text_two.
  rewrite <- app_assoc. cbn [app].
  rewrite rows_field_tab by (by apply fits_as_read).
  rewrite (as_read_plain title) by done. cbn [fmap list_fmap].
  change (Csv.join (?a :: ?b :: ?l)) with (a ++ Csv.TAB :: Csv.join (b :: l)).
  unfold Csv.write_field at 1. rewrite Hplain.
  rewrite <- app_assoc. by rewrite rows_field_overflow.
Qed.

Lemma special_replicate n : existsb Csv.special (replicate n 97%N) = false.
Proof. induction n as [|n IH]; [done|]. cbn [replicate existsb]. by rewrite IH. Qed.

Lemma strip_replicate n : Py.strip (replicate n 97%N) = replicate n 97%N.
Proof.
  apply trimmed_strip. split; intros c Hc.
  - destruct n; [done|]. by injection Hc as <-.
  - apply last_Some in Hc as [l Hl].
    assert (Hin : c ∈ replicate n 97%N).
    { rewrite Hl. apply elem_of_app. right. by apply list_elem_of_singleton. }
    by apply elem_of_replicate in Hin as [-> _].
Qed.

Lemma long_title_too_long : ¬ fits long_title.
Proof.
  unfold fits, long_title. rewrite length_replicate, N2Nat.id.
  unfold Csv.field_limit. lia.
Qed.

Lemma complete_titled_row title : complete_row (titled_row title).
Proof.
  split; [|split].
  - repeat split; vm_compute; eauto.
  - intros d. vm_compute. intros [= <-]. eauto.
  - intros n. vm_compute. intros [= <-]. reflexivity.
Qed.

(** The run on a page whose one book has a title longer than the reader
    takes. *)
Lemma main_long_title user_id output fs :
  let w := long_title_world in
  let d := book_data (py "234225") long_title (py "2023-01-05") (py "")
             (py "Herbert, Frank") (py "4.27") (py "612") in
  download_and_process_goodreads_data w user_id output (initial fs)
  = (Ok true,
     State [FirstPageOnly; ProcessingPage 1 1; SuccessfullyProcessed 1]
       [Net.Request user_id 1 ∅; Net.Request user_id 1 ∅]
       (<[output := header ++ lines_of [d]]> fs) [(output, ForWriting)] 1)
  ∧ main w user_id output (initial fs)
    = (Ok tt,
       State [FirstPageOnly; ProcessingPage 1 1; SuccessfullyProcessed 1;
              DataWritten output; CouldNotVerify CsvError]
         [Net.Request user_id 1 ∅; Net.Request user_id 1 ∅]
         (<[output := header ++ lines_of [d]]> fs)
         [(output, ForWriting); (output, ForReading)] 1).
Proof.
  cbv zeta. set (soup := listing [] [titled_row long_title]).
  assert (H0 : answers long_title_world 0 soup) by (by exists 200%N).
  assert (Htot : ∀ st, fst (total_pages_of soup st) = Ok 1%Z)
    by (intros st; reflexivity).
  assert (Hans : ∀ i, 1 ≤ i ≤ Z.to_nat 1 →
            answers long_title_world i soup ∧ complete_page soup).
  { intros i _. split; [by exists 200%N|]. unfold complete_page.
    replace (Bs4.find_all review_row soup) with [titled_row long_title]
      by reflexivity.
    apply Forall_cons. split; [apply complete_titled_row|constructor]. }
  assert (Hrec : records_on (λ _, soup) 1 (Z.to_nat 1)
                 = [book_data (py "234225") long_title (py "2023-01-05") (py "")
                      (py "Herbert, Frank") (py "4.27") (py "612")]).
  { unfold records_on. change (Z.to_nat 1) with 1.
    cbn [seq fmap list_fmap concat].
    replace (Bs4.find_all review_row soup) with [titled_row long_title]
      by reflexivity.
    unfold records_of. cbn [omap list_omap]. rewrite process_titled_row.
    rewrite (app_nil_r long_title). unfold long_title.
    by rewrite strip_replicate. }
  split.
  - rewrite (download_exact _ user_id output (λ _, soup) 1 fs H0 Htot Hans).
    by rewrite pages_text_records, Hrec.
  - rewrite (main_exact _ user_id output (λ _, soup) 1 fs H0 Htot Hans).
    cbv zeta. rewrite Hrec.
    rewrite has_any_date_read_long;
      [done|by vm_compute|apply special_replicate|apply long_title_too_long].
Qed.

Lemma records_of_run_titled title :
  records_of_run (World NoFile (λ _, Net.Response 200 (listing [] [titled_row title])))
  = [book_data (py "234225") (Py.strip (title ++ [])) (py "2023-01-05")
       (py "") (py "Herbert, Frank") (py "4.27") (py "612")].
Proof. vm_compute. reflexivity. Qed.

(** C7 as the claim states it fails on a title longer than the reader
    takes: the download returns True and the cell under Date Read is
    empty in the one record of the file, yet [main] prints the warning
    that the column could not be checked, and not the advisory. *)
Lemma advisory_missing_for_long_title :
  let w := long_title_world in
  let run := download_and_process_goodreads_data w (py "u") (py "books.tsv")
               (initial ∅) in
  let res := main w (py "u") (py "books.tsv") (initial ∅) in
  brace_free (py "u")
  ∧ run.1 = Ok true
  ∧ res.1 = Ok tt
  ∧ files res.2 !! py "books.tsv" = Some (header ++ lines_of (records_of_run w))
  ∧ Forall empty_date_read (records_of_run w)
  ∧ (DateReadAdvisory ∉ stdout res.2)
  ∧ CouldNotVerify CsvError ∈ stdout res.2.
Proof.
  cbv zeta.
  destruct (main_long_title (py "u") (py "books.tsv") ∅) as [Hrun Hres].
  cbv zeta in Hrun, Hres. rewrite Hrun, Hres. cbn [fst snd files stdout].
  assert (Hrec : records_of_run long_title_world
                 = [book_data (py "234225") long_title (py "2023-01-05") (py "")
                      (py "Herbert, Frank") (py "4.27") (py "612")]).
  { unfold long_title_world, serving. rewrite records_of_run_titled.
    rewrite (app_nil_r long_title). unfold long_title.
    by rewrite strip_replicate. }
  rewrite Hrec.
  split; [reflexivity|]. split; [done|]. split; [done|].
  split; [by rewrite lookup_insert_eq|].
  split; [by repeat constructor|].
  split.
  - rewrite !elem_of_cons, elem_of_nil. intros [?|[?|[?|[?|[?|[]]]]]]; done.
  - rewrite !elem_of_cons. auto 10.
Qed.

(** ** What every run keeps *)

(** A property of the state that printing, requesting, sleeping and
    writing to the output keep is kept by the loop over the rows. *)
Lemma process_rows_invariant output_file (I : state → Prop) :
  (∀ text st, I st → I (with_file output_file text st)) →
  ∀ rows st, I st →
    wp (process_rows output_file rows) (λ _, I) (λ _, I) st.
Proof.
  intros Hwrite rows. induction rows as [|row rows IH]; intros st HI; [done|].
  cbn [process_rows]. apply wp_and_then, wp_lift.
  destruct (process_review_row row) as [d|e]; [|done].
  apply wp_and_then, wp_lift.
  destruct (Csv.dict_to_list fieldnames d) as [v|e]; [|done].
  apply wp_and_then, wp_write. by apply IH, Hwrite.
Qed.

(** And by the download, from the state it starts in. *)
Lemma download_with_invariant w user_id output cookies (I : state → Prop) :
  (∀ msg st, I st → I (printed msg st)) →
  (∀ p st, I st →
     I (requested (Net.Request user_id p (session_cookies cookies)) st)) →
  (∀ st, I st → I (slept_more 1 st)) →
  (∀ text st, I st → I (with_file output text st)) →
  (∀ st, I st → I (opened_as output ForWriting st)) →
  ∀ st, I st →
    wp (download_with w user_id output cookies) (λ _, I) (λ _, I) st.
Proof.
  intros Hprint Hreq Hsleep Hwrite Hopen st HI. unfold download_with.
  apply wp_and_then, wp_open_w, wp_and_then, wp_write, wp_try_except.
  set (st1 := with_file _ _ _).
  assert (H1 : I st1) by (subst st1; auto).
  clearbody st1.
  assert (Hhandler : ∀ e st', I st' →
    if is_HTTPError e
    then wp (print (ErrorDownloading e) ;;; print LikelyCauses ;;; ret false)
           (λ _, I) (λ _, I) st'
    else I st').
  { intros e st' H'. destruct (is_HTTPError e); [|done].
    apply wp_and_then, wp_print, wp_and_then, wp_print, wp_ret. auto. }
  assert (Hloop : ∀ n st', I st' →
    wp (process_pages w user_id output cookies n (range1 n) ;;;
        print (SuccessfullyProcessed n) ;;; ret true)
      (λ _, I)
      (λ e st'', if is_HTTPError e
         then wp (print (ErrorDownloading e) ;;; print LikelyCauses ;;; ret false)
                (λ _, I) (λ _, I) st''
         else I st'') st').
  { intros n st' H'. apply wp_and_then.
    eapply wp_mono; [| |apply (process_pages_invariant _ _ _ _ _ I); auto].
    - intros [] st'' H''. apply wp_and_then, wp_print, wp_ret. auto.
    - intros e st'' H''. by apply Hhandler.
    - intros rows st'' H''. by apply process_rows_invariant. }
  apply wp_and_then, wp_fetch_html. cbv zeta.
  assert (H2 : I (requested (Net.Request user_id 1 (session_cookies cookies)) st1))
    by auto.
  destruct (server w _) as [code soup| |]; [|by apply Hhandler..].
  destruct (is_error code); [by apply Hhandler|].
  apply wp_and_then, wp_total_pages_of.
  - intros n. by apply Hloop.
  - by apply Hloop, Hprint.
  - intros e _. by apply Hhandler.
Qed.

Lemma download_invariant w user_id output fs (I : state → Prop) :
  (∀ msg st, I st → I (printed msg st)) →
  (∀ p st, I st →
     I (requested (Net.Request user_id p (session_cookies (cookies_of w))) st)) →
  (∀ st, I st → I (slept_more 1 st)) →
  (∀ text st, I st → I (with_file output text st)) →
  (∀ st, I st → I (opened_as output ForWriting st)) →
  I (initial fs) →
  I (snd (download_and_process_goodreads_data w user_id output (initial fs))).
Proof.
  intros Hprint Hreq Hsleep Hwrite Hopen HI.
  rewrite download_unfold, and_then_run.
  assert (H : ∀ cookies st,
    (∀ p st, I st →
       I (requested (Net.Request user_id p (session_cookies cookies)) st)) →
    I st → I (snd (download_with w user_id output cookies st))).
  { intros cookies st Hreq' Hst.
    pose proof (download_with_invariant w user_id output cookies I
                  Hprint Hreq' Hsleep Hwrite Hopen st Hst) as H.
    unfold wp in H. by destruct (download_with _ _ _ _ _) as [[?|?] ?]. }
  unfold cookies_of in Hreq. destruct (cookies_json w).
  - by apply (H None).
  - apply (H None (printed CookiesNotJson (initial fs))); [done|].
    by apply Hprint.
  - by apply (H (Some cookies)).
Qed.

(** X7: whatever the run, [main] touches no file but the output: every
    other path holds what it held; the output exists afterwards; it was
    opened once for writing, and once more, for reading, exactly when the
    download returned True. *)
Theorem only_the_output_file_is_touched (w : world) (user_id output : pystr)
    (fs : gmap pystr pystr) :
  let run := download_and_process_goodreads_data w user_id output (initial fs) in
  let res := main w user_id output (initial fs) in
  others_as_in fs output (snd res)
  ∧ is_Some (files (snd res) !! output)
  ∧ opened (snd res)
    = (output, ForWriting)
      :: match fst run with
         | Ok true => [(output, ForReading)]
         | _ => []
         end.
Proof.
  cbv zeta.
  pose proof (main_after_download w user_id output fs) as Hmain.
  pose proof (download_well_formed w user_id output fs) as Hwf.
  apply wp_run in Hwf. cbv zeta in Hmain.
  assert (Hothers : others_as_in fs output
    (snd (download_and_process_goodreads_data w user_id output (initial fs)))).
  { apply download_invariant; try done.
    intros text st H path Hp. cbn. rewrite lookup_insert_ne by done. auto. }
  unfold others_as_in. rewrite main_files.
  split; [exact Hothers|].
  destruct (download_and_process_goodreads_data _ _ _ _) as [[[|]|e] st1];
    cbn [fst snd] in *.
  - destruct Hmain as (ds & _ & Hf & Ho & _ & Hm).
    split; [by rewrite Hf|]. rewrite Hm. cbn [snd].
    rewrite opened_checked. cbn. by rewrite Ho.
  - destruct Hwf as ((ds & Hf & _) & Ho & _).
    split; [by rewrite Hf|]. rewrite Hmain. cbn. by rewrite Ho.
  - destruct Hwf as ((ds & Hf & _) & Ho & _).
    split; [by rewrite Hf|]. rewrite Hmain. cbn. by rewrite Ho.
Qed.

(** ** Pauses *)

Lemma paced_pages w user_id output_file cookies total_pages pages st :
  length (sent st) = slept st + 1 →
  wp (process_pages w user_id output_file cookies total_pages pages)
    (λ _ st', length (sent st') = slept st' + 1) (λ _ st', paced st') st.
Proof.
  revert st. induction pages as [|p pages IH]; intros st H; [done|].
  cbn [process_pages]. apply wp_and_then, wp_print, wp_and_then, wp_fetch_html.
  cbv zeta.
  assert (Hp : paced (requested (Net.Request user_id p (session_cookies cookies))
                        (printed (ProcessingPage p total_pages) st))).
  { unfold paced. cbn. rewrite length_app. cbn. lia. }
  destruct (server w _) as [code soup| |]; [|done..].
  destruct (is_error code); [done|].
  apply wp_and_then. unfold wp at 1.
  destruct (process_rows_keeps output_file (Bs4.find_all review_row soup)
              (requested (Net.Request user_id p (session_cookies cookies))
                 (printed (ProcessingPage p total_pages) st)))
    as (r & fs & ->).
  destruct r as [[]|e]; [|exact Hp].
  apply wp_and_then, wp_sleep, IH. cbn. rewrite length_app. cbn. lia.
Qed.

Lemma paced_download_with w user_id output cookies st :
  sent st = [] → slept st = 0 →
  wp (download_with w user_id output cookies)
    (λ ok st', if ok : bool then length (sent st') = slept st' + 1 else paced st')
    (λ _ st', paced st') st.
Proof.
  intros Hs Hz. unfold download_with.
  apply wp_and_then, wp_open_w, wp_and_then, wp_write, wp_try_except.
  set (st1 := with_file _ _ _).
  assert (Hs1 : sent st1 = []) by done.
  assert (Hz1 : slept st1 = 0) by done.
  clearbody st1.
  assert (Hhandler : ∀ e st', paced st' →
    if is_HTTPError e
    then wp (print (ErrorDownloading e) ;;; print LikelyCauses ;;; ret false)
           (λ ok st'', if ok : bool then length (sent st'') = slept st'' + 1
                       else paced st'')
           (λ _ st'', paced st'') st'
    else paced st').
  { intros e st' H'. by destruct (is_HTTPError e). }
  assert (Hloop : ∀ n st', length (sent st') = slept st' + 1 →
    wp (process_pages w user_id output cookies n (range1 n) ;;;
        print (SuccessfullyProcessed n) ;;; ret true)
      (λ ok st'', if ok : bool then length (sent st'') = slept st'' + 1
                  else paced st'')
      (λ e st'', if is_HTTPError e
         then wp (print (ErrorDownloading e) ;;; print LikelyCauses ;;; ret false)
                (λ ok st3, if ok : bool then length (sent st3) = slept st3 + 1
                           else paced st3)
                (λ _ st3, paced st3) st''
         else paced st'') st').
  { intros n st' H'. apply wp_and_then.
    eapply wp_mono; [| |by apply paced_pages].
    - by intros [] st'' H''.
    - intros e st'' H''. by apply Hhandler. }
  apply wp_and_then, wp_fetch_html. cbv zeta.
  set (st2 := requested _ st1).
  assert (H2 : length (sent st2) = slept st2 + 1).
  { subst st2. cbn. rewrite Hs1, Hz1. done. }
  assert (Hp2 : paced st2) by (unfold paced; lia).
  clearbody st2.
  destruct (server w _) as [code soup| |]; [|by apply Hhandler..].
  destruct (is_error code); [by apply Hhandler|].
  apply wp_and_then, wp_total_pages_of.
  - intros n. by apply Hloop.
  - by apply Hloop.
  - intros e _. by apply Hhandler.
Qed.

(** X8: for a user id without braces, the run pauses one second after
    each page of the loop that it has processed, and only then: when [main]
    is over the seconds slept number the requests sent less one or two, and
    less one when the download returned True. *)
Theorem one_pause_per_page_processed (w : world) (user_id output : pystr)
    (fs : gmap pystr pystr) :
  brace_free user_id →
  let run := download_and_process_goodreads_data w user_id output (initial fs) in
  let res := main w user_id output (initial fs) in
  paced (snd res)
  ∧ match fst run with
    | Ok true => length (sent (snd res)) = slept (snd res) + 1
    | _ => True
    end.
Proof.
  intros _. cbv zeta.
  pose proof (main_after_download w user_id output fs) as Hmain.
  cbv zeta in Hmain.
  assert (H : match fst (download_and_process_goodreads_data w user_id output
                           (initial fs)) with
              | Ok true =>
                  length (sent (snd (download_and_process_goodreads_data w
                                       user_id output (initial fs))))
                  = slept (snd (download_and_process_goodreads_data w
                                  user_id output (initial fs))) + 1
              | _ => paced (snd (download_and_process_goodreads_data w
                                   user_id output (initial fs)))
              end).
  { rewrite download_unfold, and_then_run.
    assert (H : ∀ cookies st, sent st = [] → slept st = 0 →
      match fst (download_with w user_id output cookies st) with
      | Ok true =>
          length (sent (snd (download_with w user_id output cookies st)))
          = slept (snd (download_with w user_id output cookies st)) + 1
      | _ => paced (snd (download_with w user_id output cookies st))
      end).
    { intros cookies st Hs Hz.
      pose proof (paced_download_with w user_id output cookies st Hs Hz) as H.
      unfold wp in H. by destruct (download_with _ _ _ _ _) as [[[|]|?] ?]. }
    destruct (cookies_json w).
    - by apply (H None).
    - by apply (H None (printed CookiesNotJson (initial fs))).
    - by apply (H (Some cookies)). }
  destruct (download_and_process_goodreads_data _ _ _ _) as [[[|]|e] st1];
    cbn [fst snd] in *.
  - destruct Hmain as (ds & _ & _ & _ & _ & ->). cbn [snd].
    unfold paced. rewrite sent_checked, slept_checked. cbn. lia.
  - rewrite Hmain. done.
  - rewrite Hmain. done.
Qed.

Lemma one_pause_per_page_processed_witness :
  let res := main three_page_world (py "u") (py "books.tsv") (initial ∅) in
  brace_free (py "u")
  ∧ paced (snd res)
  ∧ length (sent (snd res)) = slept (snd res) + 1.
Proof.
  cbv zeta.
  destruct (one_pause_per_page_processed three_page_world (py "u")
              (py "books.tsv") ∅ eq_refl) as [Hp Hm].
  assert (Hrun : fst (download_and_process_goodreads_data three_page_world
                        (py "u") (py "books.tsv") (initial ∅)) = Ok true)
    by (vm_compute; reflexivity).
  rewrite Hrun in Hm. split; [reflexivity|]. split; [exact Hp|exact Hm].
Defined.

(** ** A count of pages that cannot be read, or is not positive *)

Lemma total_pages_of_raises soup e (st st' : state) :
  total_pages_of soup st = (Raise e, st') →
  (e = IndexError ∨ e = ValueError) ∧ st' = st.
Proof.
  unfold total_pages_of. destruct (Bs4.find _ soup) as [p|]; [|done].
  unfold lift. destruct (second_to_last _) as [a|e'] eqn:Ea; cbn [bind].
  - unfold to_int. destruct (Py.int _); [done|]. intros [= <- <-]. auto.
  - intros [= <- <-]. unfold second_to_last in Ea.
    split; [left|done]. by repeat case_match; simplify_eq.
Qed.

Lemma download_with_count_raises (w : world) (user_id output : pystr)
    (cookies : option (list Net.cookie)) (soup : Bs4.node) (e : exn)
    (warning : list message) (fs : gmap pystr pystr) :
  answers w 0 soup →
  (∀ st, total_pages_of soup st = (Raise e, st)) →
  download_with w user_id output cookies (State warning [] fs [] 0)
  = (Raise e,
     State warning [Net.Request user_id 1 (session_cookies cookies)]
       (<[output := header]> fs) [(output, ForWriting)] 0).
Proof.
  intros (code0 & H0 & Hc0) Htot.
  destruct (total_pages_of_raises _ _ _ _ (Htot (initial ∅))) as [He _].
  assert (Hhttp : is_HTTPError e = false) by (by destruct He as [->| ->]).
  unfold download_with. rewrite and_then_run. unfold open_w at 1.
  rewrite and_then_run. unfold write at 1.
  cbn [files stdout sent opened slept app].
  rewrite lookup_insert_eq. cbn [default from_option id app].
  rewrite insert_insert_eq. fold header.
  unfold try_except. rewrite and_then_run. unfold fetch_html at 1.
  cbn [files stdout sent opened slept app length].
  rewrite H0. fold (is_error code0). rewrite Hc0.
  rewrite and_then_run, Htot. by rewrite Hhttp.
Qed.

Lemma main_count_raises (w : world) (user_id output : pystr)
    (soup : Bs4.node) (e : exn) (fs : gmap pystr pystr) :
  answers w 0 soup →
  (∀ st, total_pages_of soup st = (Raise e, st)) →
  main w user_id output (initial fs)
  = (Raise e, after_first_request w user_id output fs).
Proof.
  intros H0 Htot.
  assert (H : download_and_process_goodreads_data w user_id output (initial fs)
              = (Raise e, after_first_request w user_id output fs)).
  { rewrite download_unfold, and_then_run.
    unfold after_first_request, cookie_warning, cookies_of.
    destruct (cookies_json w);
      by apply (download_with_count_raises w user_id output _ soup e). }
  by rewrite main_unfold, and_then_run, H.
Qed.

(** X10: for a user id without braces, a first page whose pagination
    control holds fewer than two links, or whose second-to-last link does
    not read as an integer, stops the run right after the first request:
    [main] raises [IndexError] in the first case and [ValueError] in the
    second, the output file holds the header only, and nothing is printed
    but the warning about the cookie file, if any. *)
Theorem unreadable_page_count_stops_run (w : world) (user_id output : pystr)
    (fs : gmap pystr pystr) (soup pagination : Bs4.node) :
  brace_free user_id →
  answers w 0 soup →
  Bs4.find review_pagination soup = Some pagination →
  let links := Bs4.find_all (Bs4.has_name (py "a")) pagination in
  let res := main w user_id output (initial fs) in
  (length links < 2 →
   res = (Raise IndexError, after_first_request w user_id output fs))
  ∧ (∀ before a b,
       links = before ++ [a; b] →
       Py.int (Py.strip (Bs4.text a)) = None →
       res = (Raise ValueError, after_first_request w user_id output fs)).
Proof.
  intros _ H0 Hp. cbv zeta. split.
  - intros Hlen. apply (main_count_raises _ _ _ soup); [done|]. intros st.
    unfold total_pages_of. fold review_pagination. rewrite Hp.
    by destruct (Bs4.find_all _ _) as [|x [|y l]]; [..|cbn in Hlen; lia].
  - intros before a b Hl Hint.
    apply (main_count_raises _ _ _ soup); [done|]. intros st.
    unfold total_pages_of. fold review_pagination. rewrite Hp, Hl.
    unfold second_to_last. rewrite reverse_app. cbn [reverse rev_append app].
    change (rev_append [a; b] []) with [b; a]. cbn [app bind].
    unfold to_int. by rewrite Hint.
Qed.

Lemma unreadable_page_count_stops_run_witness :
  main (serving one_link_page) (py "u") (py "books.tsv") (initial earlier_export)
  = (Raise IndexError,
     after_first_request (serving one_link_page) (py "u") (py "books.tsv")
       earlier_export)
  ∧ main (serving unnumbered_page) (py "u") (py "books.tsv")
      (initial earlier_export)
    = (Raise ValueError,
       after_first_request (serving unnumbered_page) (py "u") (py "books.tsv")
         earlier_export).
Proof.
  split.
  - refine (proj1 (unreadable_page_count_stops_run (serving one_link_page)
      (py "u") (py "books.tsv") earlier_export one_link_page
      (Bs4.Tag (py "div") [] {[ py "id" := py "reviewPagination" ]}
         ((λ l, element "a" [] [str l]) <$> ["next"]%string)) eq_refl _ _) _).
    + by exists 200%N.
    + vm_compute; reflexivity.
    + vm_compute; lia.
  - refine (proj2 (unreadable_page_count_stops_run (serving unnumbered_page)
      (py "u") (py "books.tsv") earlier_export unnumbered_page
      (Bs4.Tag (py "div") [] {[ py "id" := py "reviewPagination" ]}
         ((λ l, element "a" [] [str l]) <$> ["previous"; "next"]%string))
      eq_refl _ _) [] (element "a" [] [str "previous"])
      (element "a" [] [str "next"]) _ _).
    + by exists 200%N.
    + vm_compute; reflexivity.
    + vm_compute; reflexivity.
    + vm_compute; reflexivity.
Defined.

(** X11: for a user id without braces, a count of pages that reads as
    zero or less is no error: no page is asked for in the loop, the run ends without raising after the one
    request, the output file holds the header only, and the lines printed
    are those of success followed by the advisory about the empty
    column. *)
Theorem nonpositive_page_count_processes_nothing (w : world)
    (user_id output : pystr) (fs : gmap pystr pystr) (soup : Bs4.node)
    (n : Z) :
  brace_free user_id →
  answers w 0 soup →
  (∀ st, fst (total_pages_of soup st) = Ok n) →
  (n ≤ 0)%Z →
  main w user_id output (initial fs)
  = (Ok tt,
     State (cookie_warning w ++ notice soup
            ++ [SuccessfullyProcessed n; DataWritten output; DateReadAdvisory])
       [Net.Request user_id 1 (session_cookies (cookies_of w))]
       (<[output := header]> fs)
       [(output, ForWriting); (output, ForReading)] 0).
Proof.
  intros _ H0 Htot Hn.
  rewrite (main_exact w user_id output (λ _, soup) n fs H0 Htot).
  2: { intros i Hi. lia. }
  cbv zeta. replace (Z.to_nat n) with 0 by lia.
  unfold records_on, progress, calls. cbn [seq fmap list_fmap concat app].
  rewrite checked_readable by constructor.
  rewrite bool_decide_eq_true_2 by constructor.
  change (lines_of []) with (@nil N). rewrite app_nil_r.
  unfold printed. cbn [files stdout sent opened slept].
  by rewrite <- !app_assoc.
Qed.

Lemma nonpositive_page_count_processes_nothing_witness :
  main (serving zero_page) (py "u") (py "books.tsv") (initial earlier_export)
  = (Ok tt,
     State (cookie_warning (serving zero_page) ++ notice zero_page
            ++ [SuccessfullyProcessed 0; DataWritten (py "books.tsv");
                DateReadAdvisory])
       [Net.Request (py "u") 1 (session_cookies (cookies_of (serving zero_page)))]
       (<[py "books.tsv" := header]> earlier_export)
       [(py "books.tsv", ForWriting); (py "books.tsv", ForReading)] 0).
Proof.
  apply (nonpositive_page_count_processes_nothing (serving zero_page) (py "u")
           (py "books.tsv") earlier_export zero_page 0).
  - reflexivity.
  - by exists 200%N.
  - intros st. reflexivity.
  - lia.
Defined.

(** ** A row that raises, in a run *)

Lemma download_with_bad_row (w : world) (user_id output : pystr)
    (cookies : option (list Net.cookie)) (pages : nat → Bs4.node) (n : Z)
    (k : nat) (good : list Bs4.node) (bad : Bs4.node) (rest : list Bs4.node)
    (e : exn) (warning : list message) (fs : gmap pystr pystr) :
  1 ≤ k ≤ Z.to_nat n →
  (∀ i, i ≤ k → answers w i (pages i)) →
  (∀ st, fst (total_pages_of (pages 0) st) = Ok n) →
  (∀ i, 1 ≤ i < k → complete_page (pages i)) →
  Bs4.find_all review_row (pages k) = good ++ bad :: rest →
  Forall complete_row good →
  process_review_row bad = Raise e →
  download_with w user_id output cookies (State warning [] fs [] 0)
  = (Raise e,
     State (warning ++ notice (pages 0) ++ progress n 1 k)
       (Net.Request user_id 1 (session_cookies cookies)
        :: calls user_id (session_cookies cookies) 1 k)
       (<[output := header
            ++ lines_of (records_on pages 1 (k - 1) ++ records_of good)]> fs)
       [(output, ForWriting)] (k - 1)).
Proof.
  intros Hk Hans Htot Hc Hrows Hgood Hbad.
  assert (Hhttp : is_HTTPError e = false).
  { by apply process_review_row_raises in Hbad as [->|[->| ->]]. }
  match goal with
  | |- ?m ?st0 = (Raise e, ?st1) =>
      assert (H : wp m (λ _ _, False) (λ e' st, e' = e ∧ st = st1) st0)
  end.
  2: { unfold wp in H. destruct (download_with _ _ _ _ _) as [[ok|e'] st]; [done|].
       by destruct H as [-> ->]. }
  unfold download_with.
  apply wp_and_then, wp_open_w, wp_and_then, wp_write.
  unfold opened_as, with_file. cbn [files stdout sent opened slept].
  rewrite lookup_insert_eq. cbn [default from_option id app].
  rewrite insert_insert_eq. fold header.
  apply wp_try_except, wp_and_then, wp_fetch_html. cbv zeta.
  cbn [sent length]. unfold requested. cbn [files stdout sent opened slept app].
  destruct (Hans 0 ltac:(lia)) as (code0 & -> & Hc0).
  rewrite Hc0.
  apply wp_and_then. unfold wp at 1.
  rewrite (total_pages_of_notice _ n) by apply Htot.
  cbn [files stdout sent opened slept].
  apply wp_and_then.
  destruct (range1_split n k ltac:(lia) ltac:(lia)) as [rest' ->].
  apply (wp_process_pages_exact _ _ _ _ _ pages _ _ (k - 1) 1 _ header).
  - done.
  - cbn [files]. by rewrite lookup_insert_eq.
  - intros i Hi. split; [apply Hans|apply Hc]; lia.
  - cbn [process_pages files stdout sent opened slept].
    apply wp_and_then, wp_print, wp_and_then, wp_fetch_html. cbv zeta.
    unfold printed, requested. cbn [files stdout sent opened slept].
    replace (length _) with k.
    2: { rewrite length_app. unfold calls. rewrite length_fmap, length_seq.
         cbn [length]. lia. }
    destruct (Hans k ltac:(lia)) as (codek & -> & Hck). rewrite Hck.
    apply wp_and_then. unfold wp at 1. rewrite Hrows.
    rewrite (process_rows_stops _ good bad rest e
               (header ++ pages_text pages 1 (k - 1))) by
      (try done; cbn [files]; by rewrite lookup_insert_eq).
    rewrite Hhttp. split; [done|].
    unfold with_file. cbn [files stdout sent opened slept].
    assert (Hseq : seq 1 k = seq 1 (k - 1) ++ [k]).
    { replace k with ((k - 1) + 1) at 1 by lia.
      rewrite seq_app. by replace (1 + (k - 1)) with k by lia. }
    apply state_eq; cbn [files stdout sent opened slept].
    + unfold progress. rewrite Hseq, fmap_app, <- ?app_assoc. reflexivity.
    + unfold calls. rewrite Hseq, fmap_app, <- ?app_assoc. reflexivity.
    + rewrite !insert_insert_eq, pages_text_records, lines_of_app.
      by rewrite <- app_assoc.
    + done.
    + done.
Qed.

Lemma main_bad_row (w : world) (user_id output : pystr)
    (fs : gmap pystr pystr) (pages : nat → Bs4.node) (n : Z) (k : nat)
    (good : list Bs4.node) (bad : Bs4.node) (rest : list Bs4.node) (e : exn) :
  1 ≤ k ≤ Z.to_nat n →
  (∀ i, i ≤ k → answers w i (pages i)) →
  (∀ st, fst (total_pages_of (pages 0) st) = Ok n) →
  (∀ i, 1 ≤ i < k → complete_page (pages i)) →
  Bs4.find_all review_row (pages k) = good ++ bad :: rest →
  Forall complete_row good →
  process_review_row bad = Raise e →
  main w user_id output (initial fs)
  = (Raise e, after_bad_row w user_id output fs pages n k good).
Proof.
  intros Hk Hans Htot Hc Hrows Hgood Hbad.
  assert (H : download_and_process_goodreads_data w user_id output (initial fs)
              = (Raise e, after_bad_row w user_id output fs pages n k good)).
  { rewrite download_unfold, and_then_run.
    unfold after_bad_row, cookie_warning, cookies_of. cbv zeta.
    destruct (cookies_json w);
      by apply (download_with_bad_row w user_id output _ pages n k good bad
                  rest e). }
  by rewrite main_unfold, and_then_run, H.
Qed.

(** X12: for a user id without braces, a review row on which
    [process_review_row] raises stops the whole run: the exception leaves [main] as it is, nothing is printed
    about it, and no page is asked for after the one of the row.  The
    output file keeps the header, the records of the pages before and the
    records of the rows before that row on its page; there is no pause
    after that page. *)
Theorem unreadable_row_stops_run (w : world) (user_id output : pystr)
    (fs : gmap pystr pystr) (pages : nat → Bs4.node) (n : Z) (k : nat)
    (good : list Bs4.node) (bad : Bs4.node) (rest : list Bs4.node) (e : exn) :
  brace_free user_id →
  1 ≤ k ≤ Z.to_nat n →
  (∀ i, i ≤ k → answers w i (pages i)) →
  (∀ st, fst (total_pages_of (pages 0) st) = Ok n) →
  (∀ i, 1 ≤ i < k → complete_page (pages i)) →
  Bs4.find_all review_row (pages k) = good ++ bad :: rest →
  Forall complete_row good →
  process_review_row bad = Raise e →
  main w user_id output (initial fs)
  = (Raise e, after_bad_row w user_id output fs pages n k good).
Proof. intros _. apply main_bad_row. Qed.

Lemma unreadable_row_stops_run_witness :
  main bad_row_world (py "u") (py "books.tsv") (initial earlier_export)
  = (Raise AttributeError,
     after_bad_row bad_row_world (py "u") (py "books.tsv") earlier_export
       bad_second_page 2 2 [dune_row]).
Proof.
  apply (unreadable_row_stops_run bad_row_world (py "u") (py "books.tsv")
           earlier_export bad_second_page 2 2 [dune_row] bare_row [dune_row]).
  - reflexivity.
  - vm_compute. lia.
  - intros i _. by exists 200%N.
  - intros st. reflexivity.
  - intros i Hi. replace i with 1 by lia. unfold complete_page.
    replace (Bs4.find_all review_row (bad_second_page 1)) with [dune_row]
      by (vm_compute; reflexivity).
    apply Forall_cons. split; [apply complete_dune_row|constructor].
  - vm_compute; reflexivity.
  - apply Forall_cons. split; [apply complete_dune_row|constructor].
  - reflexivity.
Defined.

(** ** Other spellings of a date *)

Section Spellings.
  Import Strptime.

Ltac among H :=
  repeat (apply elem_of_cons in H as [->|H]); [..|by apply elem_of_nil in H].

Lemma plus_run {R} (p : N → bool) (ws : pystr) (b : N) (t got : pystr)
    (k : pystr → pystr → option R) (x : R) :
  ws ≠ [] → forallb p ws = true → p b = false →
  k (got ++ ws) (b :: t) = Some x →
  plus p got (ws ++ b :: t) k = Some x.
Proof.
  revert got. induction ws as [|c ws IH]; intros got Hne Hws Hb Hk; [done|].
  cbn [forallb] in Hws. apply andb_prop in Hws as [Hc Hws].
  cbn [app plus]. rewrite Hc. destruct ws as [|c' ws].
  - cbn [app plus]. by rewrite Hb.
  - rewrite (IH (got ++ [c])); [done|done|done|done|].
    by rewrite <- app_assoc.
Qed.

Lemma rmatch_gap {R} (ws : pystr) (b : N) (t : pystr) c
    (k : pystr → pystr → captures → option R) (x : R) :
  blank ws → Py.is_space b = false →
  k ws (b :: t) c = Some x →
  rmatch (Plus Py.is_space) (ws ++ b :: t) c k = Some x.
Proof. intros [Hne Hws] Hb Hk. cbn [rmatch]. by apply plus_run. Qed.

Lemma lower_char (x l : N) :
  (if (65 <=? x) && (x <=? 90) then x + 32 else x)%N = l →
  (97 ≤ l ≤ 122)%N → x = l ∨ x = (l - 32)%N.
Proof.
  destruct ((65 <=? x) && (x <=? 90))%N eqn:E; [|auto].
  intros <- _. right. lia.
Qed.

Lemma lower_three (mo : pystr) (a b c : N) :
  lower mo = [a; b; c] →
  (97 ≤ a ≤ 122)%N → (97 ≤ b ≤ 122)%N → (97 ≤ c ≤ 122)%N →
  ∃ x y z, mo = [x; y; z]
    ∧ (x = a ∨ x = (a - 32)%N) ∧ (y = b ∨ y = (b - 32)%N)
    ∧ (z = c ∨ z = (c - 32)%N).
Proof.
  unfold lower. destruct mo as [|x [|y [|z [|]]]]; try done.
  cbn [fmap list_fmap]. intros [= Hx Hy Hz] Ha Hb Hc.
  exists x, y, z. split; [done|]. repeat split; by eapply lower_char.
Qed.

(** The month, in any case of its letters. *)
Lemma rmatch_month {R} (m : Z) (mo t : pystr) c
    (k : pystr → pystr → captures → option R) (x : R) :
  (1 ≤ m ≤ 12)%Z →
  lower mo = nth (Z.to_nat m) a_month [] →
  k mo t (capture Gb mo c) = Some x →
  rmatch re_b (mo ++ t) c k = Some x.
Proof.
  intros Hm. apply months in Hm. among Hm; intros Hl H.
  all: apply lower_three in Hl as (a1 & a2 & a3 & -> & H1 & H2 & H3);
    [|vm_compute; split; discriminate..].
  all: destruct H1 as [-> | ->], H2 as [-> | ->], H3 as [-> | ->].
  all: vm_compute in H; vm_compute; rewrite H; reflexivity.
Qed.

Lemma index_a_month (m : Z) :
  (1 ≤ m ≤ 12)%Z → index (nth (Z.to_nat m) a_month []) a_month = Ok m.
Proof. intros Hm. apply months in Hm. among Hm; reflexivity. Qed.

(** The day, with or without a zero before it. *)
Lemma rmatch_day {R} (d : Z) (day t : pystr) c
    (k : pystr → pystr → captures → option R) (x : R) :
  (1 ≤ d ≤ 31)%Z →
  day = day_text d ∨ day = Py.zero_pad 2 (Z.to_N d) →
  k day (44%N :: t) (capture Gd day c) = Some x →
  rmatch re_d (day ++ 44%N :: t) c k = Some x.
Proof.
  intros Hd. apply days in Hd. among Hd; intros [-> | ->] H.
  all: vm_compute in H; vm_compute; rewrite H; reflexivity.
Qed.

Lemma day_head (d : Z) (day : pystr) :
  (1 ≤ d ≤ 31)%Z →
  day = day_text d ∨ day = Py.zero_pad 2 (Z.to_N d) →
  ∃ b r, day = b :: r ∧ Py.is_space b = false ∧ to_int day = Ok d.
Proof.
  intros Hd. apply days in Hd. among Hd; intros [-> | ->].
  all: by eexists _, _.
Qed.

Lemma re_match_spelled (y m d : Z) (month gap1 day gap2 : pystr) :
  (1 ≤ m ≤ 12)%Z → (1 ≤ d ≤ 31)%Z →
  lower month = nth (Z.to_nat m) a_month [] →
  day = day_text d ∨ day = Py.zero_pad 2 (Z.to_N d) →
  blank gap1 → blank gap2 →
  ∃ found,
    re_match format_regex
      (spelled month gap1 day gap2 (Py.zero_pad 4 (Z.to_N y)))
    = Some (found, [])
    ∧ found Gb = Some month ∧ found Gd = Some day
    ∧ found GY = Some (Py.zero_pad 4 (Z.to_N y)).
Proof.
  intros Hm Hd Hmo Hday Hg1 Hg2.
  destruct (day_head d day Hd Hday) as (b & r & Eday & Hb & _).
  eexists. split.
  - unfold re_match, format_regex, spelled.
    rewrite rmatch_seq. apply (rmatch_month m); [done|done|]. cbv beta.
    rewrite rmatch_seq. rewrite Eday at 1. cbn [app].
    apply rmatch_gap; [done|done|]. cbv beta.
    change (b :: r ++ ?t) with ((b :: r) ++ t). rewrite <- Eday.
    rewrite rmatch_seq. apply (rmatch_day d); [done|done|]. cbv beta.
    rewrite rmatch_seq, rmatch_comma, rmatch_seq.
    rewrite zero_pad_4 at 1. cbn [app].
    apply rmatch_gap; [done|apply is_space_digit|].
    rewrite <- zero_pad_4, rmatch_Y. reflexivity.
  - done.
Qed.

Lemma strptime_spelled (y m d : Z) (month gap1 day gap2 : pystr) :
  (1 ≤ y ≤ 9999)%Z → (1 ≤ m ≤ 12)%Z → (1 ≤ d ≤ days_in_month y m)%Z →
  lower month = nth (Z.to_nat m) a_month [] →
  day = day_text d ∨ day = Py.zero_pad 2 (Z.to_N d) →
  blank gap1 → blank gap2 →
  strptime (spelled month gap1 day gap2 (Py.zero_pad 4 (Z.to_N y)))
  = Ok (Date y m d).
Proof.
  intros Hy Hm Hd Hmo Hday Hg1 Hg2. pose proof (days_in_month_le y m).
  destruct (re_match_spelled y m d month gap1 day gap2)
    as (found & Hre & Hb & Hdd & HY); [done|lia|done..|].
  destruct (day_head d day ltac:(lia) Hday) as (_ & _ & _ & _ & Hint).
  unfold strptime. rewrite Hre, HY, Hb, Hdd. cbn [default from_option id].
  rewrite to_int_zero_pad_4 by lia. rewrite Hmo, index_a_month by done.
  rewrite Hint. cbn [bind].
  rewrite Z2N.id by lia. unfold make_date.
  replace (_ && _) with true; [done|].
  symmetry. repeat (apply andb_true_intro; split); lia.
Qed.

End Spellings.

(** X13: [convert_date] also takes the other spellings that [strptime]
    accepts for the format: the month in any case of its three letters,
    the day with or without a zero before it, and any run of white space
    after the month and after the comma.  The result is the date as
    [strftime] renders it, which from the year 1000 on is "YYYY-MM-DD".
    So "Jan 05, 2023" and "JAN  5,   2023" both give "2023-01-05". *)
Theorem convert_date_accepts_other_spellings (y m d : Z)
    (month gap1 day gap2 : pystr) :
  (1 ≤ y ≤ 9999)%Z → (1 ≤ m ≤ 12)%Z →
  (1 ≤ d ≤ Strptime.days_in_month y m)%Z →
  Strptime.lower month = nth (Z.to_nat m) Strptime.a_month [] →
  day = day_text d ∨ day = Py.zero_pad 2 (Z.to_N d) →
  blank gap1 → blank gap2 →
  convert_date (spelled month gap1 day gap2 (Py.zero_pad 4 (Z.to_N y)))
  = Ok (Strptime.strftime (Strptime.Date y m d))
  ∧ ((1000 ≤ y)%Z → Strptime.strftime (Strptime.Date y m d) = iso_date y m d).
Proof.
  intros Hy Hm Hd Hmo Hday Hg1 Hg2. split; [|apply strftime_iso].
  unfold convert_date. by rewrite (strptime_spelled y m d).
Qed.

Lemma convert_date_accepts_other_spellings_witness :
  convert_date (py "Jan 05, 2023") = Ok (py "2023-01-05")
  ∧ convert_date (py "JAN  5,   2023") = Ok (py "2023-01-05").
Proof.
  split.
  - destruct (convert_date_accepts_other_spellings 2023 1 5
                (py "Jan") (py " ") (py "05") (py " ")) as [H1 _].
    + lia.
    + lia.
    + vm_compute. split; discriminate.
    + reflexivity.
    + right. reflexivity.
    + split; [discriminate|reflexivity].
    + split; [discriminate|reflexivity].
    + exact H1.
  - destruct (convert_date_accepts_other_spellings 2023 1 5
                (py "JAN") (py "  ") (py "5") (py "   ")) as [H1 _].
    + lia.
    + lia.
    + vm_compute. split; discriminate.
    + reflexivity.
    + left. reflexivity.
    + split; [discriminate|reflexivity].
    + split; [discriminate|reflexivity].
    + exact H1.
Defined.

(** ** What the disk held does not matter *)

Lemma blind_ret output {A} (a : A) : blind output (ret a).
Proof. by intros st st' H. Qed.

Lemma blind_lift output {A} (r : result A) : blind output (lift r).
Proof. by intros st st' H. Qed.

Lemma blind_print output msg : blind output (print msg).
Proof.
  intros st st' (H1 & H2 & H3 & H4 & H5). split; [done|].
  repeat split; cbn; congruence.
Qed.

Lemma blind_sleep output n : blind output (sleep n).
Proof.
  intros st st' (H1 & H2 & H3 & H4 & H5). split; [done|].
  repeat split; cbn; congruence.
Qed.

Lemma blind_write output text : blind output (write output text).
Proof.
  intros st st' (H1 & H2 & H3 & H4 & H5). split; [done|].
  repeat split; cbn; try congruence. by rewrite !lookup_insert_eq, H3.
Qed.

Lemma blind_read output : blind output (read output).
Proof.
  intros st st' Ha. pose proof Ha as (H1 & H2 & H3 & H4 & H5).
  unfold read. rewrite <- H3.
  destruct (files st !! output) eqn:E; [|done]. split; [done|].
  repeat split; cbn; congruence.
Qed.

Lemma blind_fetch_html output w user_id page cookies :
  blind output (fetch_html w user_id page cookies).
Proof.
  intros st st' (H1 & H2 & H3 & H4 & H5). unfold fetch_html. rewrite H2.
  destruct (server w _) as [code soup| |]; [case_match|..];
    (split; [done|]); repeat split; cbn; congruence.
Qed.

Lemma blind_bind output {A B} (m : M A) (k : A → M B) :
  blind output m → (∀ a, blind output (k a)) → blind output (and_then m k).
Proof.
  intros Hm Hk st st' H. rewrite !and_then_run.
  destruct (Hm st st' H) as [Hr Ha].
  destruct (m st) as [[a|e] st1], (m st') as [[a'|e'] st1'];
    cbn [fst snd] in *; simplify_eq; [by apply Hk|done].
Qed.

Lemma blind_try_except output {A} (body : M A) caught handler :
  blind output body → (∀ e, blind output (handler e)) →
  blind output (try_except body caught handler).
Proof.
  intros Hb Hh st st' H. unfold try_except.
  destruct (Hb st st' H) as [Hr Ha].
  destruct (body st) as [[a|e] st1], (body st') as [[a'|e'] st1'];
    cbn [fst snd] in *; simplify_eq; [done|].
  destruct (caught e'); [by apply Hh|done].
Qed.

Lemma blind_total_pages_of output soup : blind output (total_pages_of soup).
Proof.
  unfold total_pages_of. case_match; [apply blind_lift|].
  apply blind_bind; [apply blind_print|]. intros _. apply blind_ret.
Qed.

Lemma blind_process_rows output rows : blind output (process_rows output rows).
Proof.
  induction rows as [|row rows IH]; [apply blind_ret|]. cbn [process_rows].
  apply blind_bind; [apply blind_lift|]. intros d.
  apply blind_bind; [apply blind_lift|]. intros v.
  apply blind_bind; [apply blind_write|]. by intros _.
Qed.

Lemma blind_process_pages output w user_id cookies total_pages pages :
  blind output (process_pages w user_id output cookies total_pages pages).
Proof.
  induction pages as [|p pages IH]; [apply blind_ret|]. cbn [process_pages].
  apply blind_bind; [apply blind_print|]. intros _.
  apply blind_bind; [apply blind_fetch_html|]. intros soup.
  apply blind_bind; [apply blind_process_rows|]. intros _.
  apply blind_bind; [apply blind_sleep|]. by intros _.
Qed.

Lemma blind_after_download output ok : blind output (after_download output ok).
Proof.
  destruct ok; cbn [after_download]; [|apply blind_print].
  apply blind_bind; [apply blind_print|]. intros _.
  apply blind_try_except; [|intros e; apply blind_print].
  apply blind_bind; [apply blind_read|]. intros text.
  apply blind_bind; [apply blind_lift|]. intros [|];
    [apply blind_ret|apply blind_print].
Qed.

(** Opening the output for writing forgets what it held. *)
Lemma open_w_alike output st st' :
  stdout st = stdout st' → sent st = sent st' → opened st = opened st' →
  slept st = slept st' →
  alike output (snd (open_w output st)) (snd (open_w output st')).
Proof.
  intros H1 H2 H4 H5. repeat split; cbn; try congruence.
  by rewrite !lookup_insert_eq.
Qed.

Lemma blind_after_open output w user_id cookies :
  blind output
    (write output (Csv.writerow fieldnames) ;;;
     try_except
       (let! soup := fetch_html w user_id 1 cookies in
        let! total_pages := total_pages_of soup in
        process_pages w user_id output cookies total_pages (range1 total_pages) ;;;
        print (SuccessfullyProcessed total_pages) ;;;
        ret true)
       is_HTTPError
       (λ e, print (ErrorDownloading e) ;;;
             print LikelyCauses ;;;
             ret false)).
Proof.
  apply blind_bind; [apply blind_write|]. intros _.
  apply blind_try_except.
  - apply blind_bind; [apply blind_fetch_html|]. intros soup.
    apply blind_bind; [apply blind_total_pages_of|]. intros n.
    apply blind_bind; [apply blind_process_pages|]. intros _.
    apply blind_bind; [apply blind_print|]. intros _. apply blind_ret.
  - intros e. apply blind_bind; [apply blind_print|]. intros _.
    apply blind_bind; [apply blind_print|]. intros _. apply blind_ret.
Qed.

Lemma download_with_forgets output w user_id cookies st st' :
  stdout st = stdout st' → sent st = sent st' → opened st = opened st' →
  slept st = slept st' →
  fst (download_with w user_id output cookies st)
  = fst (download_with w user_id output cookies st')
  ∧ alike output (snd (download_with w user_id output cookies st))
      (snd (download_with w user_id output cookies st')).
Proof.
  intros H1 H2 H4 H5. unfold download_with. rewrite !and_then_run.
  assert (Ho : ∀ s, open_w output s = (Ok tt, snd (open_w output s))) by done.
  rewrite (Ho st), (Ho st').
  by apply blind_after_open, open_w_alike.
Qed.

(** X14: a run does not depend on what the disk held: from two disks,
    [main] ends the same way, with the same messages, requests and pauses,
    the same files opened, and the same content in the output file. *)
Theorem run_ignores_what_the_disk_held (w : world) (user_id output : pystr)
    (fs fs' : gmap pystr pystr) :
  let res := main w user_id output (initial fs) in
  let res' := main w user_id output (initial fs') in
  fst res = fst res' ∧ alike output (snd res) (snd res').
Proof.
  cbv zeta. rewrite !main_unfold, !and_then_run, !download_unfold, !and_then_run.
  assert (H : ∀ cookies (st st' : state),
    stdout st = stdout st' → sent st = sent st' → opened st = opened st' →
    slept st = slept st' →
    fst (match download_with w user_id output cookies st with
         | (Ok ok, st1) => after_download output ok st1
         | (Raise e, st1) => (Raise e, st1)
         end)
    = fst (match download_with w user_id output cookies st' with
           | (Ok ok, st1) => after_download output ok st1
           | (Raise e, st1) => (Raise e, st1)
           end)
    ∧ alike output
        (snd (match download_with w user_id output cookies st with
              | (Ok ok, st1) => after_download output ok st1
              | (Raise e, st1) => (Raise e, st1)
              end))
        (snd (match download_with w user_id output cookies st' with
              | (Ok ok, st1) => after_download output ok st1
              | (Raise e, st1) => (Raise e, st1)
              end))).
  { intros cookies st st' H1 H2 H4 H5.
    destruct (download_with_forgets output w user_id cookies st st' H1 H2 H4 H5)
      as [Hr Ha].
    destruct (download_with w user_id output cookies st) as [[ok|e] st1],
             (download_with w user_id output cookies st') as [[ok'|e'] st1'];
      cbn [fst snd] in *; simplify_eq; [|done].
    by apply blind_after_download. }
  destruct (cookies_json w).
  - by apply (H None (initial fs) (initial fs')).
  - by apply (H None (printed CookiesNotJson (initial fs))
                (printed CookiesNotJson (initial fs'))).
  - by apply (H (Some cookies) (initial fs) (initial fs')).
Qed.

(** ** The cookies of a run *)

(** X15: for a user id without braces, every request of a run, whatever
    the run, is made for the user given and carries the same cookies: those of [cookies.json] that pass
    the test of [fetch_html], and none when the file is missing or is not
    JSON. *)
Theorem every_request_carries_the_session_cookies (w : world)
    (user_id output : pystr) (fs : gmap pystr pystr) :
  brace_free user_id →
  all_carry user_id (session_cookies (cookies_of w))
    (snd (main w user_id output (initial fs)))
  ∧ (cookies_json w = NoFile ∨ cookies_json w = NotJson →
     session_cookies (cookies_of w) = ∅).
Proof.
  intros _. split.
  - assert (H : all_carry user_id (session_cookies (cookies_of w))
      (snd (download_and_process_goodreads_data w user_id output (initial fs)))).
    { apply download_invariant; try done.
      - intros p st H. unfold all_carry. cbn. apply Forall_app. split; [done|].
        by repeat constructor.
      - constructor. }
    unfold all_carry in *. rewrite main_unfold, and_then_run.
    destruct (download_and_process_goodreads_data _ _ _ _) as [[ok|e] st1];
      cbn [snd] in *; [|done].
    by rewrite after_download_sent.
  - unfold cookies_of. by intros [-> | ->].
Qed.

Lemma every_request_carries_the_session_cookies_witness :
  brace_free (py "u")
  ∧ all_carry (py "u") ∅
      (snd (main three_page_world (py "u") (py "books.tsv") (initial ∅))).
Proof.
  destruct (every_request_carries_the_session_cookies three_page_world
              (py "u") (py "books.tsv") ∅ eq_refl) as [H1 H2].
  split; [reflexivity|]. rewrite <- (H2 (or_intror eq_refl)). exact H1.
Defined.
